(** * fileserver: path resolution, directory listing and JSON-path queries

    A shallow embedding of [main.go]: the three HTTP handlers [listFiles],
    [getFileContent] and [queryJSON] as pure functions of the request
    parameters and of a file-system value, together with the parts of the Go
    standard library they call ([strings], [path/filepath], [regexp],
    [fmt.Sscanf], [sort.Slice]) on Unix paths.

    Go strings are byte strings; a Rocq [string] is a list of 8-bit [ascii]
    characters, so the two coincide. *)

From Stdlib Require Import ZArith QArith Ascii.
From stdpp Require Import gmap strings list sorting pretty.

Set Warnings "-register-all".
Local Open Scope string_scope.
Local Open Scope Z_scope.
Local Open Scope list_scope.

(** ** Package [strings] *)

Module strings.

(** [strings.HasPrefix]. *)
Definition HasPrefix (s pre : string) : bool := String.prefix pre s.

(** [strings.Contains]: [sub] occurs somewhere in [s]. *)
Fixpoint Contains (s sub : string) : bool :=
  String.prefix sub s ||
  match s with
  | EmptyString => false
  | String _ r => Contains r sub
  end.

(** The separator of [Split] and [Join] is a single byte in every call of
    [main.go] (["."] and ["/"]), so it is an [ascii] here. *)
Fixpoint Split (s : string) (sep : ascii) : list string :=
  match s with
  | EmptyString => [EmptyString]
  | String c r =>
      if Ascii.eqb c sep then EmptyString :: Split r sep
      else match Split r sep with
           | [] => [String c EmptyString]
           | h :: t => String c h :: t
           end
  end.

Fixpoint Join (elems : list string) (sep : ascii) : string :=
  match elems with
  | [] => EmptyString
  | [e] => e
  | e :: rest => e +:+ String sep (Join rest sep)
  end.

Definition lowerByte (c : ascii) : ascii :=
  let n := nat_of_ascii c in
  if (65 <=? n)%nat && (n <=? 90)%nat then ascii_of_nat (n + 32) else c.

(** [strings.ToLower] on the ASCII range.  The handlers compare the
    lowered extension with [".md"] and [".json"]; no rune outside ASCII
    lowers to one of the letters of these two words, so the comparison is
    the same as with the Unicode mapping.  The lowered extension is also
    quoted in the answer "Unsupported file type"; for an extension with
    bytes outside ASCII that text is the one of the code up to the
    lowering of those bytes. *)
Fixpoint ToLower (s : string) : string :=
  match s with
  | EmptyString => EmptyString
  | String c r => String (lowerByte c) (ToLower r)
  end.

(** Byte-wise lexicographic order, Go's [<] on strings. *)
Definition lt (a b : string) : bool := String.ltb a b.

(** [strings.Cut] at a single byte: the text before the first separator
    and the text after it; the whole text and the empty string when there
    is none. *)
Fixpoint Cut (s : string) (sep : ascii) : string * string :=
  match s with
  | EmptyString => (EmptyString, EmptyString)
  | String c r =>
      if Ascii.eqb c sep then (EmptyString, r)
      else let (before, after) := Cut r sep in (String c before, after)
  end.

Fixpoint dropBytes (n : nat) (s : string) : string :=
  match n, s with
  | S n', String _ r => dropBytes n' r
  | _, _ => s
  end.

(** [strings.TrimPrefix]. *)
Definition TrimPrefix (s pre : string) : string :=
  if String.prefix pre s then dropBytes (String.length pre) s else s.

End strings.

(** ** JSON values, as [json.Unmarshal] decodes them into [interface{}] *)

(** [nil], [bool], [float64], [string], [[]interface{}] and
    [map[string]interface{}].  A decoded number is a finite [float64], hence
    a rational; the evaluator never looks inside it. *)
Inductive json : Type :=
  | JNull
  | JBool (b : bool)
  | JNumber (q : Q)
  | JString (s : string)
  | JArray (arr : list json)
  | JObject (m : gmap string json).

(** [m[key]] on a Go map: the zero value [nil] when the key is absent. *)
Definition mapIndex (m : gmap string json) (key : string) : json :=
  default JNull (m !! key).

(** ** HTTP outcomes *)

Inductive status : Set :=
  | StatusBadRequest
  | StatusNotFound
  | StatusInternalServerError.

(** [http.Error(w, msg, code)]. *)
Record httpError : Set := HttpError { errCode : status; errMsg : string }.

Inductive Result (A : Type) : Type :=
  | Ok (a : A)
  | Err (e : httpError).
Arguments Ok {A} a.
Arguments Err {A} e.

(** The early [return] after [http.Error] as the bind of an error monad. *)
#[global] Instance Result_ret : MRet Result := fun _ a => Ok a.
#[global] Instance Result_bind : MBind Result := fun _ _ k r =>
  match r with
  | Ok a => k a
  | Err e => Err e
  end.

Definition failsWith {A} (c : status) (r : Result A) : Prop :=
  exists msg, r = Err (HttpError c msg).

Definition BadRequest {A} (msg : string) : Result A :=
  Err (HttpError StatusBadRequest msg).
Definition NotFound {A} (msg : string) : Result A :=
  Err (HttpError StatusNotFound msg).
Definition InternalServerError {A} (msg : string) : Result A :=
  Err (HttpError StatusInternalServerError msg).

(** ** The pattern of [arrayIndexRegex] and [FindStringSubmatch]

    The pattern has three capture groups: any run of bytes other than a
    newline (greedy), then an opening bracket, one or more digits (the second
    group) and a closing bracket, then again any run of bytes other than a
    newline (greedy). *)

Module regexp.

Definition newline : ascii := ascii_of_nat 10.

Definition isDigit (c : ascii) : bool :=
  let n := nat_of_ascii c in (48 <=? n)%nat && (n <=? 57)%nat.

(** The longest prefix of digits (the digit group is greedy) and what
    follows it. *)
Fixpoint spanDigits (s : string) : string * string :=
  match s with
  | String c r =>
      if isDigit c then let '(ds, t) := spanDigits r in (String c ds, t)
      else (EmptyString, s)
  | EmptyString => (EmptyString, EmptyString)
  end.

(** The third group: up to the next newline, which the dot does not
    match. *)
Fixpoint restOfLine (s : string) : string :=
  match s with
  | String c r => if Ascii.eqb c newline then EmptyString
                  else String c (restOfLine r)
  | EmptyString => EmptyString
  end.

(** The bracketed index and the third group, anchored at the head of [s].
    Giving digits back cannot help: the byte after a shorter run is a
    digit, not a bracket. *)
Definition matchIndex (s : string) : option (string * string) :=
  match s with
  | String "[" r =>
      match spanDigits r with
      | (String d ds, String "]" t) => Some (String d ds, restOfLine t)
      | _ => None
      end
  | _ => None
  end.

(** The whole pattern anchored at the head of [s], in the order a
    backtracking matcher explores it: the first group takes one more byte
    whenever the remainder can still match, and stops here otherwise. *)
Fixpoint matchAt (s : string) : option (string * string * string) :=
  let here :=
    match matchIndex s with
    | Some (idx, rest) => Some (EmptyString, idx, rest)
    | None => None
    end in
  match s with
  | EmptyString => here
  | String c r =>
      if Ascii.eqb c newline then here
      else match matchAt r with
           | Some (key, idx, rest) => Some (String c key, idx, rest)
           | None => here
           end
  end.

(** [arrayIndexRegex.FindStringSubmatch(part)]: the leftmost match, as the
    three capture groups; [None] is Go's [nil] slice. *)
Fixpoint FindStringSubmatch (s : string) : option (string * string * string) :=
  match matchAt s with
  | Some m => Some m
  | None =>
      match s with
      | EmptyString => None
      | String _ r => FindStringSubmatch r
      end
  end.

End regexp.

Definition arrayIndexRegex : string -> option (string * string * string) :=
  regexp.FindStringSubmatch.

(** ** [fmt.Sscanf(idxStr, "%d", &idx)] *)

Module fmt.

Definition maxInt64 : Z := 2 ^ 63 - 1.

Definition digitVal (c : ascii) : Z := Z.of_nat (nat_of_ascii c) - 48.

Fixpoint parseDecimal (acc : Z) (s : string) : Z :=
  match s with
  | EmptyString => acc
  | String c r => parseDecimal (10 * acc + digitVal c) r
  end.

(** The verb [%d] reads the run of digits at the head of the input and
    stores its value.  When there is no digit, or the value does not fit a
    64-bit [int], the scan reports an error and leaves the variable as it
    was; [queryJSON] ignores that error. *)
Definition Sscanf_d (idxStr : string) (idx : Z) : Z :=
  match regexp.spanDigits idxStr with
  | (EmptyString, _) => idx
  | (ds, _) => let v := parseDecimal 0 ds in
               if v <=? maxInt64 then v else idx
  end.

(** [%d] applied to an [int]. *)
Definition Sprint_d (n : Z) : string :=
  if n <? 0 then "-" +:+ pretty (Z.to_N (- n)) else pretty (Z.to_N n).

End fmt.

(** ** The JSON-path loop of [queryJSON] *)

Definition notAnObject (key : string) : string :=
  "Cannot access property '" +:+ key +:+ "' - not an object".

(** One iteration of [for _, part := range parts]. *)
Definition evalPart (result : json) (part : string) : Result json :=
  match arrayIndexRegex part with
  | Some (objKey, idxStr, restPath) =>
      result1 ← (if decide (objKey <> "") then
                    match result with
                    | JObject m => Ok (mapIndex m objKey)
                    | _ => BadRequest (notAnObject objKey)
                    end
                  else Ok result);
      result2 ← match result1 with
                 | JArray arr =>
                     let idx := fmt.Sscanf_d idxStr 0 in
                     if (0 <=? idx) && (idx <? Z.of_nat (length arr)) then
                       Ok (nth (Z.to_nat idx) arr JNull)
                     else
                       BadRequest ("Array index out of bounds: " +:+ fmt.Sprint_d idx)
                 | _ => BadRequest "Cannot index - not an array"
                 end;
      if decide (restPath <> "") then
        BadRequest "Complex array paths not supported"
      else Ok result2
  | None =>
      match result with
      | JObject m => Ok (mapIndex m part)
      | _ => BadRequest (notAnObject part)
      end
  end.

Fixpoint evalParts (result : json) (parts : list string) : Result json :=
  match parts with
  | [] => Ok result
  | part :: rest => r ← evalPart result part; evalParts r rest
  end.

(** [parts := strings.Split(jsonPath, "."); result := jsonData; for ...]. *)
Definition evaluate (jsonData : json) (jsonPath : string) : Result json :=
  evalParts jsonData (strings.Split jsonPath ".").

(** ** Package [path/filepath] on Unix *)

Module filepath.

(** [filepath.IsAbs]: the path starts with the separator. *)
Definition IsAbs (path : string) : bool := String.prefix "/" path.

(** The elements [Clean] keeps while scanning: runs between separators
    that are neither empty nor a single dot. *)
Definition elements (path : string) : list string :=
  filter (fun e => e <> "" /\ e <> ".") (strings.Split path "/").

(** One element appended to the output buffer of [Clean]; [out] holds the
    elements written so far, last one first.  A double dot removes the
    element before it when there is one to remove, is dropped at the root
    of a rooted path, and is kept at the head of a relative one. *)
Definition cleanStep (rooted : bool) (out : list string) (e : string)
  : list string :=
  if decide (e = "..") then
    match out with
    | top :: below => if decide (top = "..") then e :: out else below
    | [] => if rooted then [] else [e]
    end
  else e :: out.

Definition cleanElements (path : string) : list string :=
  reverse (foldl (cleanStep (IsAbs path)) [] (elements path)).

(** [filepath.Clean]. *)
Definition Clean (path : string) : string :=
  if decide (path = "") then "."
  else if IsAbs path then "/" +:+ strings.Join (cleanElements path) "/"
  else match cleanElements path with
       | [] => "."
       | out => strings.Join out "/"
       end.

Fixpoint dropEmpty (elem : list string) : list string :=
  match elem with
  | e :: rest => if decide (e = "") then dropEmpty rest else elem
  | [] => []
  end.

(** [filepath.Join]: the elements from the first non-empty one on, joined
    by the separator and cleaned; the empty string when there is none. *)
Definition Join (elem : list string) : string :=
  match dropEmpty elem with
  | [] => ""
  | rest => Clean (strings.Join rest "/")
  end.

Inductive extScan : Set :=
  | ExtFound (ext : string)
  | ExtSeparator
  | ExtNone.

(** The scan of [Ext] runs from the last byte backwards and stops at the
    first dot or separator; [scanExt] reports what that byte is. *)
Fixpoint scanExt (path : string) : extScan :=
  match path with
  | EmptyString => ExtNone
  | String c r =>
      match scanExt r with
      | ExtNone =>
          if Ascii.eqb c "." then ExtFound path
          else if Ascii.eqb c "/" then ExtSeparator
          else ExtNone
      | found => found
      end
  end.

(** [filepath.Ext]: the suffix from the last dot of the last element. *)
Definition Ext (path : string) : string :=
  match scanExt path with
  | ExtFound ext => ext
  | _ => ""
  end.

(** The elements of a cleaned path, as the loop of [Rel] walks them. *)
Definition relElements (p : string) : list string :=
  match p with
  | EmptyString => []
  | String "/" EmptyString => []
  | String "/" r => strings.Split r "/"
  | _ => strings.Split p "/"
  end.

Fixpoint dropCommon (base targ : list string) : list string * list string :=
  match base, targ with
  | b :: base', t :: targ' =>
      if decide (b = t) then dropCommon base' targ' else (base, targ)
  | _, _ => (base, targ)
  end.

(** [filepath.Rel]: [None] is the error "can't make targpath relative to
    basepath". *)
Definition Rel (basepath targpath : string) : option string :=
  let base := Clean basepath in
  let targ := Clean targpath in
  if decide (targ = base) then Some "."
  else
    let base := if decide (base = ".") then "" else base in
    if negb (Bool.eqb (IsAbs base) (IsAbs targ)) then None
    else
      match dropCommon (relElements base) (relElements targ) with
      | ([], t) => Some (strings.Join t "/")
      | (b0 :: bs, t) =>
          if decide (b0 = "..") then None
          else Some (strings.Join (replicate (length (b0 :: bs)) ".." ++ t) "/")
      end.

End filepath.

(** ** The file system, as package [os] shows it to the handlers *)

(** An [error] of package [os]: what [os.IsNotExist] answers and the text of
    [err.Error()]. *)
Record oserror : Set := OSError { IsNotExist : bool; ErrorText : string }.

(** [fs.FileInfo], with the fields the handlers read. *)
Record FileStat : Set := MkStat {
  statIsDir : bool;
  statSize : Z;
  statModTime : Z
}.

(** [fs.DirEntry]; [entryInfo] is [entry.Info()], which can fail. *)
Record DirEntry : Set := MkEntry {
  entryName : string;
  entryIsDir : bool;
  entryInfo : option FileStat
}.

(** The calls of package [os] the handlers make.  One request sees one file
    system: two calls on the same path give the same answer. *)
Record FileSystem : Type := MkFS {
  Getwd : oserror + string;
  Stat : string -> oserror + FileStat;
  ReadDir : string -> oserror + list DirEntry;
  ReadFile : string -> oserror + string
}.

(** ** Configuration *)

Record Config : Set := MkConfig {
  Port : string;
  AllowedExts : list string;
  StaticDir : string;
  IgnoreHidden : bool;
  ReadOnly : bool
}.

(** The value [main] builds from the command-line flags. *)
Definition mainConfig (port staticDir : string) (readOnly : bool) : Config :=
  {| Port := port;
     AllowedExts := [".md"; ".json"];
     StaticDir := staticDir;
     IgnoreHidden := true;
     ReadOnly := readOnly |}.

Definition modeName (config : Config) : string :=
  if ReadOnly config then "read-only" else "read-write".

(** The loop [for _, allowedExt := range config.AllowedExts]. *)
Definition isAllowedExt (config : Config) (ext : string) : bool :=
  existsb (String.eqb ext) (AllowedExts config).

(** ** [sort.Slice] *)

Module sort.

(** [sort.Slice(s, less)] orders [s] so that no element is [less] than one
    before it.  It does not promise an order among elements neither of
    which is [less] than the other; a directory holds no two entries of
    the same name, so [listFiles] never shows the difference.  The model
    is a merge sort on "not [less] the other way round". *)
Definition notAfter {A} (less : A -> A -> bool) (a b : A) : Prop :=
  less b a = false.

#[global] Instance notAfter_dec {A} (less : A -> A -> bool) (a b : A) :
  Decision (notAfter less a b).
Proof. unfold notAfter. apply _. Defined.

Definition Slice {A} (less : A -> A -> bool) (s : list A) : list A :=
  merge_sort (notAfter less) s.

End sort.

(** ** [listFiles] *)

(** The struct [FileInfo]; its field [Children] is never assigned by the
    handlers and is left out of the encoding. *)
Record FileInfo : Set := MkFileInfo {
  Name : string;
  Path : string;
  IsDir : bool;
  Size : Z;
  ModTime : Z
}.

(** The quick check for relevant files in a subdirectory: one [os.ReadDir],
    no recursion; a read error counts as no relevant file. *)
Definition hasRelevantFiles (config : Config) (fs : FileSystem)
    (entryPath : string) : bool :=
  match ReadDir fs entryPath with
  | inr subEntries =>
      existsb (fun subEntry =>
                 negb (entryIsDir subEntry) &&
                 isAllowedExt config
                   (strings.ToLower (filepath.Ext (entryName subEntry))))
              subEntries
  | inl _ => false
  end.

(** The body of [for _, entry := range entries]: [None] is [continue],
    [Some fileInfo] is the [append] at its end. *)
Definition listEntry (config : Config) (fs : FileSystem) (rootDir : string)
    (entry : DirEntry) : option FileInfo :=
  let name := entryName entry in
  let entryPath := filepath.Join [rootDir; name] in
  if IgnoreHidden config && strings.HasPrefix name "." then None
  else if entryIsDir entry &&
          (String.eqb name "node_modules" ||
           strings.Contains entryPath "node_modules" ||
           String.eqb name "build" ||
           String.eqb name "dist") then None
  else
    match entryInfo entry with
    | None => None
    | Some info =>
        if negb (entryIsDir entry) &&
           negb (isAllowedExt config (strings.ToLower (filepath.Ext name)))
        then None
        else if entryIsDir entry && negb (hasRelevantFiles config fs entryPath)
        then None
        else
          match filepath.Rel rootDir entryPath with
          | None => None
          | Some relPath =>
              Some {| Name := name;
                      Path := relPath;
                      IsDir := entryIsDir entry;
                      Size := statSize info;
                      ModTime := statModTime info |}
          end
    end.

(** The comparison handed to [sort.Slice]: directories first, then names. *)
Definition lessFileInfo (a b : FileInfo) : bool :=
  if negb (Bool.eqb (IsDir a) (IsDir b)) then IsDir a
  else strings.lt (Name a) (Name b).

(** The listing of a directory already validated and read. *)
Definition listDir (config : Config) (fs : FileSystem) (rootDir : string)
    (entries : list DirEntry) : list FileInfo :=
  sort.Slice lessFileInfo (omap (listEntry config fs rootDir) entries).

Definition osFailure {A} (err : oserror) : Result A :=
  InternalServerError (ErrorText err).

Definition listRoot (baseDir requestedDir : string) : string :=
  if decide (requestedDir = "" \/ requestedDir = ".") then baseDir
  else if filepath.IsAbs requestedDir then requestedDir
  else filepath.Join [baseDir; requestedDir].

Definition listFiles (config : Config) (fs : FileSystem) (requestedDir : string)
    : Result (list FileInfo) :=
  match Getwd fs with
  | inl err => osFailure err
  | inr baseDir =>
      let rootDir := listRoot baseDir requestedDir in
      match Stat fs rootDir with
      | inl err =>
          if IsNotExist err then NotFound ("Directory not found: " +:+ rootDir)
          else osFailure err
      | inr fileInfo =>
          if negb (statIsDir fileInfo) then
            BadRequest ("Not a directory: " +:+ rootDir)
          else
            match ReadDir fs rootDir with
            | inl err => osFailure err
            | inr entries => Ok (listDir config fs rootDir entries)
            end
      end
  end.

(** ** Path resolution, the same code in [getFileContent] and [queryJSON] *)

(** [err == nil && !info.IsDir()] after [os.Stat(path)]. *)
Definition statsAsFile (fs : FileSystem) (path : string) : bool :=
  match Stat fs path with
  | inr info => negb (statIsDir info)
  | inl _ => false
  end.

(** The slice [filePaths], built by successive [append]s. *)
Definition filePaths (fs : FileSystem) (baseDir requestedDir requestedFile : string)
    : list string :=
  let paths0 : list string := [] in
  let paths1 :=
    if decide (requestedDir <> "") then
      paths0 ++ [filepath.Join [baseDir; requestedDir; requestedFile]]
    else paths0 in
  let paths2 := paths1 ++ [filepath.Join [baseDir; requestedFile]] in
  if negb (strings.Contains requestedFile "/") then
    match ReadDir fs baseDir with
    | inr entries =>
        foldl (fun paths entry =>
                 if entryIsDir entry then
                   paths ++ [filepath.Join [baseDir; entryName entry; requestedFile]]
                 else paths)
              paths2 entries
    | inl _ => paths2
    end
  else paths2.

(** The loop [for _, path := range filePaths] with its [break];
    [resolvedPath] starts as the empty string. *)
Fixpoint tryPaths (fs : FileSystem) (paths : list string) : string :=
  match paths with
  | [] => ""
  | path :: rest => if statsAsFile fs path then path else tryPaths fs rest
  end.

(** The retry of a multi-segment name against the full path. *)
Definition retryFullPath (fs : FileSystem) (baseDir requestedFile : string)
    (resolvedPath : string) : string :=
  if String.eqb resolvedPath "" && strings.Contains requestedFile "/" then
    let fullPath := filepath.Join [baseDir; requestedFile] in
    if statsAsFile fs fullPath then fullPath else resolvedPath
  else resolvedPath.

Definition resolvePath (fs : FileSystem) (baseDir requestedDir requestedFile : string)
    : Result string :=
  let resolvedPath :=
    retryFullPath fs baseDir requestedFile
      (tryPaths fs (filePaths fs baseDir requestedDir requestedFile)) in
  if decide (resolvedPath = "") then
    NotFound ("File not found: " +:+ requestedFile)
  else Ok resolvedPath.

(** ** [getFileContent] *)

(** A successful content response: the [Content-Type] header when one is
    set, and the body. *)
Definition getFileContent (config : Config) (fs : FileSystem)
    (requestedFile requestedDir : string) : Result (option string * string) :=
  match Getwd fs with
  | inl err => osFailure err
  | inr baseDir =>
      filePath ← resolvePath fs baseDir requestedDir requestedFile;
      if strings.Contains filePath ".." then BadRequest "Invalid file path"
      else
        match Stat fs filePath with
        | inl err =>
            if IsNotExist err then NotFound ("File not found: " +:+ filePath)
            else osFailure err
        | inr fileInfo =>
            if statIsDir fileInfo then
              BadRequest "Cannot display directory content"
            else
              let ext := strings.ToLower (filepath.Ext filePath) in
              if negb (isAllowedExt config ext) then
                BadRequest ("Unsupported file type: " +:+ ext)
              else
                match ReadFile fs filePath with
                | inl err => osFailure err
                | inr data =>
                    let contentType :=
                      if String.eqb ext ".json" then Some "application/json"
                      else if String.eqb ext ".md" then Some "text/plain"
                      else None in
                    Ok (contentType, data)
                end
        end
  end.

(** ** [queryJSON] *)

(** [unmarshal] is [json.Unmarshal] into an [interface{}]: the decoded value
    or the text of the syntax error. *)
Definition queryJSON (fs : FileSystem) (unmarshal : string -> string + json)
    (requestedFile jsonPath requestedDir : string) : Result json :=
  if decide (requestedFile = "" \/ jsonPath = "") then
    BadRequest "Missing file or path parameter"
  else
    match Getwd fs with
    | inl err => osFailure err
    | inr baseDir =>
        filePath ← resolvePath fs baseDir requestedDir requestedFile;
        if strings.Contains filePath ".." then BadRequest "Invalid file path"
        else
          match Stat fs filePath with
          | inl err =>
              if IsNotExist err then NotFound ("File not found: " +:+ filePath)
              else osFailure err
          | inr fileInfo =>
              if statIsDir fileInfo then BadRequest "Cannot query directory"
              else
                let ext := strings.ToLower (filepath.Ext filePath) in
                if decide (ext <> ".json") then BadRequest "File is not JSON"
                else
                  match ReadFile fs filePath with
                  | inl err => osFailure err
                  | inr data =>
                      match unmarshal data with
                      | inl msg => BadRequest ("Invalid JSON: " +:+ msg)
                      | inr jsonData => evaluate jsonData jsonPath
                      end
                  end
          end
    end.

(** ** The request on the wire: [net/url] and the multiplexer of [net/http]

    The handlers read their parameters from [r.URL], which the server
    derives from the target of the request line. *)

Module url.

Definition ishex (c : ascii) : bool :=
  let n := N_of_ascii c in
  ((48 <=? n) && (n <=? 57) || (97 <=? n) && (n <=? 102)
   || (65 <=? n) && (n <=? 70))%N.

Definition unhex (c : ascii) : N :=
  let n := N_of_ascii c in
  (if (48 <=? n) && (n <=? 57) then n - 48
   else if (97 <=? n) && (n <=? 102) then n - 97 + 10
   else if (65 <=? n) && (n <=? 70) then n - 65 + 10
   else 0)%N.

(** [unescape]: a percent sign needs two hexadecimal digits after it and
    stands for the byte they write; a plus sign stands for a space in a
    query component ([plusIsSpace]) and for itself in a path.  [None] is an
    [EscapeError]. *)
Fixpoint unescape (plusIsSpace : bool) (s : string) : option string :=
  match s with
  | EmptyString => Some EmptyString
  | String c r =>
      if Ascii.eqb c "%" then
        match r with
        | String h (String l r') =>
            if ishex h && ishex l then
              String (ascii_of_N (16 * unhex h + unhex l)) <$>
                unescape plusIsSpace r'
            else None
        | _ => None
        end
      else if Ascii.eqb c "+" then
        String (if plusIsSpace then " "%char else "+"%char) <$>
          unescape plusIsSpace r
      else String c <$> unescape plusIsSpace r
  end.

Definition isCTL (c : ascii) : bool :=
  let n := N_of_ascii c in ((n <? 32) || (n =? 127))%N.

Fixpoint anyByte (p : ascii -> bool) (s : string) : bool :=
  match s with
  | EmptyString => false
  | String c r => p c || anyByte p r
  end.

(** [url.ParseRequestURI] on a target in origin form, the form in which a
    user agent asks the server for one of its own paths: [URL.Path] and
    [URL.RawQuery].  [None] is an error of the parser; a target that does
    not start with a slash (the asterisk, an absolute URI) is not part of
    this model and is answered [None] as well.  A space ends the target on
    the request line, which the server then fails to read. *)
Definition ParseRequestURI (target : string) : option (string * string) :=
  if anyByte isCTL target || anyByte (Ascii.eqb " ") target then None
  else
    let (rest, rawQuery) := strings.Cut target "?" in
    if negb (String.prefix "/" rest) then None
    else path ← unescape false rest; Some (path, rawQuery).

(** One turn of the loop of [url.ParseQuery]: a piece between ampersands
    is dropped when it holds a semicolon, is empty, or does not unescape. *)
Definition parsePair (piece : string) : option (string * string) :=
  if strings.Contains piece ";" then None
  else if decide (piece = "") then None
  else
    let (key, value) := strings.Cut piece "=" in
    key' ← unescape true key;
    value' ← unescape true value;
    Some (key', value').

(** [URL.Query()]: the pairs in the order of the query. *)
Definition ParseQuery (rawQuery : string) : list (string * string) :=
  omap parsePair (strings.Split rawQuery "&").

(** [Values.Get]: the first value of the key, the empty string without. *)
Fixpoint Get (values : list (string * string)) (key : string) : string :=
  match values with
  | [] => ""
  | (k, v) :: rest => if String.eqb k key then v else Get rest key
  end.

(** The bytes [unescape] copies. *)
Definition literal (c : ascii) : bool :=
  negb (Ascii.eqb c "%") && negb (Ascii.eqb c "+").

(** The bytes a URL carries unchanged from the text the client writes to
    the value the server decodes: letters, digits, hyphen, dot, underscore
    and tilde. *)
Definition unreserved (c : ascii) : bool :=
  let n := N_of_ascii c in
  ((48 <=? n) && (n <=? 57) || (97 <=? n) && (n <=? 122)
   || (65 <=? n) && (n <=? 90)
   || (n =? 45) || (n =? 46) || (n =? 95) || (n =? 126))%N.

Fixpoint allBytes (p : ascii -> bool) (s : string) : bool :=
  match s with
  | EmptyString => true
  | String c r => p c && allBytes p r
  end.

(** A name written with unreserved bytes, and a directory path written
    with unreserved bytes and slashes. *)
Definition plain (s : string) : bool := allBytes unreserved s.

Definition plainPath (s : string) : bool :=
  allBytes (fun c => unreserved c || Ascii.eqb c "/") s.

End url.

Module http.

Fixpoint endsWith (s : string) (c : ascii) : bool :=
  match s with
  | EmptyString => false
  | String c' EmptyString => Ascii.eqb c' c
  | String _ r => endsWith r c
  end.

(** [cleanPath] of the multiplexer; [path.Clean] is [filepath.Clean] on
    Unix. *)
Definition cleanPath (p : string) : string :=
  if decide (p = "") then "/"
  else
    let p := if String.prefix "/" p then p else "/" +:+ p in
    let np := filepath.Clean p in
    if endsWith p "/" && negb (String.eqb np "/") then np +:+ "/" else np.

End http.

(** The parameters [getFileContent] reads from a request target:
    [requestedFile] and [requestedDir].  The multiplexer of [main] hands a
    request to the handler when its cleaned path is its path and starts
    with the pattern "/api/content/", the longest pattern of [main] that
    can match such a path; it answers an unclean path with a redirect.
    The comparison is on the decoded path, as the multiplexer made it
    before Go 1.22; later versions compare the escaped path, which is the
    same path for a target without percent sign.  [None]: the request does
    not reach the handler with this target, or the target is not in origin
    form. *)
Definition contentRequest (target : string) : option (string * string) :=
  '(path, rawQuery) ← url.ParseRequestURI target;
  if decide (http.cleanPath path = path) then
    if strings.HasPrefix path "/api/content/" then
      Some (strings.TrimPrefix path "/api/content/",
            url.Get (url.ParseQuery rawQuery) "dir")
    else None
  else None.

(** ** An in-memory file system, for the concrete requests below *)

Module memfs.

Inductive node : Set :=
  | File (content : string)
  | Dir (children : list (string * node)).

Definition isDir (n : node) : bool :=
  match n with Dir _ => true | File _ => false end.

Definition statOf (n : node) : FileStat :=
  {| statIsDir := isDir n;
     statSize := match n with
                 | File content => Z.of_nat (String.length content)
                 | Dir _ => 4096
                 end;
     statModTime := 0 |}.

Fixpoint child (name : string) (children : list (string * node)) : option node :=
  match children with
  | [] => None
  | (n, c) :: rest => if String.eqb n name then Some c else child name rest
  end.

Fixpoint walk (path : list string) (n : node) : option node :=
  match path with
  | [] => Some n
  | e :: rest =>
      match n with
      | Dir children =>
          match child e children with
          | Some c => walk rest c
          | None => None
          end
      | File _ => None
      end
  end.

(** [os.ReadDir] returns the entries sorted by file name. *)
Definition byName (children : list (string * node)) : list (string * node) :=
  sort.Slice (fun a b => strings.lt (fst a) (fst b)) children.

Definition ENOENT : oserror := OSError true "no such file or directory".
Definition ENOTDIR : oserror := OSError false "not a directory".

Section Mount.
Variable cwd : string.
Variable root : node.

Definition locate (path : string) : option node :=
  if decide (path = "") then None
  else if filepath.IsAbs path then walk (filepath.cleanElements path) root
  else walk (filepath.cleanElements (cwd +:+ "/" +:+ path)) root.

Definition mount : FileSystem :=
  {| Getwd := inr cwd;
     Stat path :=
       match locate path with
       | Some n => inr (statOf n)
       | None => inl ENOENT
       end;
     ReadDir path :=
       match locate path with
       | Some (Dir children) =>
           inr (map (fun '(name, n) => MkEntry name (isDir n) (Some (statOf n)))
                    (byName children))
       | Some (File _) => inl ENOTDIR
       | None => inl ENOENT
       end;
     ReadFile path :=
       match locate path with
       | Some (File content) => inr content
       | Some (Dir _) => inl (OSError false "is a directory")
       | None => inl ENOENT
       end |}.

End Mount.

End memfs.


(** ** Vocabulary of the specification *)

(** *** Path resolution *)

(** The immediate subdirectories of [root], in the order [os.ReadDir] gives
    them. *)
Definition subdirectories (fs : FileSystem) (root : string) : list string :=
  match ReadDir fs root with
  | inr entries => entryName <$> filter (fun e => entryIsDir e = true) entries
  | inl _ => []
  end.

(** A path that exists and is not a directory, as a status check shows
    it. *)
Definition existingFile (fs : FileSystem) (path : string) : Prop :=
  exists info, Stat fs path = inr info /\ statIsDir info = false.

(** [path] is the first of [paths] with the property [P]: it has the
    property and no path before it has. *)
Definition firstWith (P : string -> Prop) (paths : list string) (path : string)
    : Prop :=
  exists before after,
    paths = before ++ path :: after /\ P path /\
    Forall (fun q => ~ P q) before.

(** The ordered candidates of the resolver: the hinted directory, the root,
    every immediate subdirectory for a name without separator, and the retry
    of a name with a separator against the root. *)
Definition candidates (fs : FileSystem) (root directoryHint requestedName : string)
    : list string :=
  (if decide (directoryHint = "") then []
   else [filepath.Join [root; directoryHint; requestedName]]) ++
  [filepath.Join [root; requestedName]] ++
  (if strings.Contains requestedName "/" then []
   else (fun D => filepath.Join [root; D; requestedName])
          <$> subdirectories fs root) ++
  (if strings.Contains requestedName "/"
   then [filepath.Join [root; requestedName]] else []).

(** The resolver with the retry of the full path taken out. *)
Definition resolveByCandidateLoop (fs : FileSystem)
    (baseDir requestedDir requestedFile : string) : Result string :=
  let resolvedPath :=
    tryPaths fs (filePaths fs baseDir requestedDir requestedFile) in
  if decide (resolvedPath = "") then
    NotFound ("File not found: " +:+ requestedFile)
  else Ok resolvedPath.

(** *** JSON-path evaluation *)

(** The value an indexed segment goes on to index: the running result
    itself when the key is empty; the value under the key, null when the
    key is missing, when the running result is an object; none when there
    is a key and the running result is not an object. *)
Definition valueToIndex (result : json) (objKey : string) : option json :=
  if decide (objKey = "") then Some result
  else match result with
       | JObject m => Some (default JNull (m !! objKey))
       | _ => None
       end.

(** *** Directory listing *)

(** Case-sensitive lexical order on names, by bytes. *)
Definition nameLe (a b : string) : Prop := String.compare a b <> Gt.

(** Directories before files; within each group, ascending by name. *)
Definition listedBefore (a b : FileInfo) : Prop :=
  (IsDir a = true /\ IsDir b = false) \/
  (IsDir a = IsDir b /\ nameLe (Name a) (Name b)).

(** A shallow, one-level scan of [dir] finds a file, not a directory, whose
    lower-cased extension is allowed. *)
Definition shallowScanFinds (config : Config) (fs : FileSystem) (dir : string)
    : Prop :=
  exists subEntries sub,
    ReadDir fs dir = inr subEntries /\
    sub ∈ subEntries /\
    entryIsDir sub = false /\
    strings.ToLower (filepath.Ext (entryName sub)) ∈ AllowedExts config.

(** The listing [files] shows a directory called [name]. *)
Definition listsDirectory (files : list FileInfo) (name : string) : Prop :=
  exists fi, fi ∈ files /\ Name fi = name /\ IsDir fi = true.

(** What a file system calls a name: not empty, free of separators, and
    neither of the two dot entries, which [os.ReadDir] never reports. *)
Definition validName (name : string) : Prop :=
  name <> "" /\ name <> "." /\ name <> ".." /\ strings.Contains name "/" = false.

(** *** Strings and path elements *)

Definition sepFree (sep : ascii) (s : string) : Prop :=
  strings.Contains s (String sep EmptyString) = false.

(** An element [Clean] keeps, and one it keeps in a rooted path. *)
Definition plainElement (e : string) : Prop :=
  e <> "" /\ e <> "." /\ sepFree "/" e.

Definition cleanElement (e : string) : Prop := plainElement e /\ e <> "..".

Fixpoint allDigits (s : string) : bool :=
  match s with
  | EmptyString => true
  | String c r => regexp.isDigit c && allDigits r
  end.

Definition oneLine (s : string) : bool :=
  negb (strings.Contains s (String regexp.newline EmptyString)).

(** ** Concrete documents and directory trees *)

Module examples.
Import memfs.

Definition config : Config := mainConfig "8080" "./frontend/build" true.

(** The server runs in [/srv/www]; [/srv/secret] lies outside of it. *)
Definition site (children : list (string * node)) : FileSystem :=
  mount "/srv/www"
    (Dir [("srv", Dir [("www", Dir children);
                       ("secret", Dir [("key.json", File "{}")])])]).

Definition mixedCase : FileSystem :=
  site [(".hidden.md", File "h"); ("readme.md", File "r");
        ("Z.json", File "{}"); ("a.md", File "a")].

Definition nested : FileSystem :=
  site [("docs", Dir [("deep", Dir [("x.md", File "x")])]);
        ("dist", Dir [("readme.md", File "r")]);
        ("notes", Dir [("n.md", File "n")]);
        ("a..b.md", File "ab");
        ("notes.txt", File "t")].

Definition docAB : json :=
  JObject {[ "a" := JObject {[ "b" := JArray [JNumber 1; JNumber 2; JNumber 3] ]} ]}.

Definition docA1 : json := JObject {[ "a" := JNumber 1 ]}.

Definition docKey : json := JObject {[ "key" := JArray [JNumber 7] ]}.

Definition docKeyScalar : json := JObject {[ "key" := JNumber 5 ]}.

Definition docKey0 : json :=
  JObject {[ "key[0]" := JArray [JNumber 10; JNumber 20] ]}.

End examples.


(** ** The front end: the explorer, the application shell and the viewers

    The components keep their state in React hooks; each handler is given
    here as the function from the state it reads to the state it sets.  A
    JavaScript string is a sequence of 16-bit code units; the handlers only
    split and join such strings at the slash and the dot, so the strings of
    the server stand for them.  [toLowerCase] is taken on the ASCII range,
    which decides the comparisons with "md" and "json" the same way. *)

Module frontend.

(** [dir.split('/').filter(part => part !== '')]. *)
Definition nonEmptyParts (dir : string) : list string :=
  filter (fun part => part <> "") (strings.Split dir "/").

(** An element of the [breadcrumbs] state. *)
Record crumb : Set := Crumb { crumbName : string; crumbPath : string }.

(** The body of [parts.forEach] in [updateBreadcrumbs]; the state is the
    variable [currentPath] and the array [crumbs]. *)
Definition pushCrumb (state : string * list crumb) (part : string)
    : string * list crumb :=
  let currentPath :=
    if decide (fst state <> "") then fst state +:+ "/" +:+ part else part in
  (currentPath, snd state ++ [Crumb part currentPath]).

(** [updateBreadcrumbs]: the value given to [setBreadcrumbs]. *)
Definition updateBreadcrumbs (dir : string) : list crumb :=
  if decide (dir = "") then [Crumb "Home" ""]
  else snd (foldl pushCrumb ("", [Crumb "Home" ""]) (nonEmptyParts dir)).

(** [goToParentDirectory]: the directory shown after the click. *)
Definition goToParentDirectory (currentDir : string) : string :=
  if decide (currentDir = "") then currentDir
  else
    let parts := nonEmptyParts currentDir in
    if (length parts <=? 1)%nat then ""
    else strings.Join (take (length parts - 1) parts) "/".

(** The object [fileWithContext]: the listed entry with [dir] and
    [fullPath] added. *)
Record selection : Set := Selection {
  selFile : FileInfo;
  selDir : string;
  selFullPath : string
}.

(** What [handleFileClick] does: [navigateToFolder(newPath)] or
    [onFileSelect(fileWithContext)]. *)
Inductive action : Set :=
  | Navigate (newPath : string)
  | Select (fileWithContext : selection).

Definition handleFileClick (currentDir : string) (file : FileInfo) : action :=
  if IsDir file then
    Navigate (if decide (currentDir <> "")
              then currentDir +:+ "/" +:+ Name file else Name file)
  else
    Select {| selFile := file;
              selDir := currentDir;
              selFullPath := if decide (currentDir <> "")
                             then currentDir +:+ "/" +:+ Path file
                             else Path file |}.

(** What [renderFileViewer] of [App] returns. *)
Inductive view : Set :=
  | HomeView
  | MarkdownView (filePath dir : string)
  | JsonView (filePath dir : string)
  | UnsupportedView.

Definition renderFileViewer (selectedFile : option selection) : view :=
  match selectedFile with
  | None => HomeView
  | Some f =>
      let name := Name (selFile f) in
      let ext := List.last (strings.Split (strings.ToLower name) ".") "" in
      if decide (ext = "md") then MarkdownView name (selDir f)
      else if decide (ext = "json") then JsonView name (selDir f)
      else UnsupportedView
  end.

(** [pathParts = filePath.split('/'); fileName = pathParts.pop();
    dir = pathParts.join('/')], as (fileName, dir). *)
Definition splitFilePath (filePath : string) : string * string :=
  let pathParts := strings.Split filePath "/" in
  (List.last pathParts "", strings.Join (removelast pathParts) "/").

(** The file name and the [dir] parameter [MarkdownViewer] asks the content
    endpoint for; [None] when the effect returns without a request.  The
    text of the URL, which is not escaped, is not part of the model. *)
Definition markdownRequest (filePath dir : string) : option (string * string) :=
  if decide (filePath = "") then None
  else Some (if decide (dir = "") then splitFilePath filePath
             else (filePath, dir)).

(** The same for [JsonViewer], which does not read its [dir] property. *)
Definition jsonRequest (filePath : string) : option (string * string) :=
  if decide (filePath = "") then None else Some (splitFilePath filePath).

(** The URL both viewers ask for: the template literal with the file name
    and the directory put in as they are. *)
Definition contentURL (fileName dir : string) : string :=
  "/api/content/" +:+ fileName +:+ "?dir=" +:+ dir.

(** The URL [MarkdownViewer] hands to [axios.get]. *)
Definition markdownURL (filePath dir : string) : option string :=
  (fun request => contentURL (fst request) (snd request))
    <$> markdownRequest filePath dir.


End frontend.

(** ** Further vocabulary *)

(** A document that is an object or an array. *)
Definition isContainer (doc : json) : bool :=
  match doc with
  | JObject _ | JArray _ => true
  | _ => false
  end.

(** A rooted path written with clean elements only. *)
Definition cleanAbsolute (p : string) : Prop :=
  exists st, p = String "/" (strings.Join st "/") /\ Forall cleanElement st.

(** The candidate the resolver tries first. *)
Definition firstCandidate (baseDir requestedDir requestedFile : string) : string :=
  if decide (requestedDir = "") then filepath.Join [baseDir; requestedFile]
  else filepath.Join [baseDir; requestedDir; requestedFile].

(** A folder the listing skips for its name or its path. *)
Definition skippedFolder (rootDir name : string) : Prop :=
  name ∈ ["node_modules"; "build"; "dist"] \/
  strings.Contains (filepath.Join [rootDir; name]) "node_modules" = true.

(** A part of a directory path: not empty and without slash. *)
Definition segment (part : string) : Prop := part <> "" /\ sepFree "/" part.

(** A directory path as the explorer builds it: its non-empty parts joined
    by single slashes. *)
Definition normalised (dir : string) : Prop :=
  strings.Join (frontend.nonEmptyParts dir) "/" = dir.

(** The path [handleFileClick] navigates to for a folder. *)
Definition enterFolder (currentDir name : string) : string :=
  if decide (currentDir <> "") then currentDir +:+ "/" +:+ name else name.

(** ** Further concrete data *)

Module samples.
Import memfs.

(** A site with a JSON document one level down. *)
Definition site : FileSystem :=
  mount "/srv/www"
    (Dir [("srv",
           Dir [("www",
                 Dir [("guide.md", File "# Guide");
                      ("data", Dir [("list.json", File "[1,2,3]");
                                    ("notes.md", File "notes")])])])]).

(** A decoder that knows the one document of [site]. *)
Definition unmarshal (data : string) : string + json :=
  if String.eqb data "[1,2,3]" then inr (JArray [JNumber 1; JNumber 2; JNumber 3])
  else inl "invalid character".

Definition dataEntries : list DirEntry :=
  [MkEntry "list.json" false (Some (MkStat false 7 0));
   MkEntry "notes.md" false (Some (MkStat false 5 0))].

(** A site with JSON documents at the root, one level and two levels down;
    the name "list.json" occurs at the root and in "data". *)
Definition shelf : FileSystem :=
  mount "/srv/www"
    (Dir [("srv",
           Dir [("www",
                 Dir [("list.json", File "[]");
                      ("data", Dir [("list.json", File "[1,2,3]");
                                    ("only.json", File "{}")]);
                      ("reports",
                       Dir [("index.md", File "i");
                            ("2024", Dir [("q1.json", File "{}")])])])])]).

End samples.

(** * Properties *)

(** ** Strings *)

Lemma prefix_one c c' r :
  String.prefix (String c EmptyString) (String c' r) = bool_decide (c = c').
Proof.
  cbn -[ascii_dec]. destruct (ascii_dec c c') as [->|Hne].
  - rewrite bool_decide_eq_true_2 by done. by destruct r.
  - by rewrite bool_decide_eq_false_2.
Qed.

Lemma sepFree_cons sep c r :
  sepFree sep (String c r) <-> c <> sep /\ sepFree sep r.
Proof.
  unfold sepFree. cbn [strings.Contains]. rewrite prefix_one, orb_false_iff.
  rewrite bool_decide_eq_false. intuition congruence.
Qed.

Lemma Contains_nonempty s sub :
  strings.Contains s sub = true -> sub <> "" -> s <> "".
Proof. intros H Hsub ->. destruct sub; [done|]. discriminate. Qed.

Lemma Split_not_nil s sep : strings.Split s sep <> [].
Proof.
  destruct s as [|c r]; simpl; [done|].
  destruct (Ascii.eqb c sep); [done|]. by destruct (strings.Split r sep).
Qed.

Lemma Split_app_sep a b sep :
  strings.Split (a +:+ String sep b) sep
  = strings.Split a sep ++ strings.Split b sep.
Proof.
  induction a as [|c a IH].
  - change ("" +:+ String sep b) with (String sep b).
    cbn [strings.Split app]. by rewrite Ascii.eqb_refl.
  - change (String c a +:+ String sep b) with (String c (a +:+ String sep b)).
    cbn [strings.Split]. rewrite IH.
    destruct (Ascii.eqb c sep); [done|].
    pose proof (Split_not_nil a sep).
    by destruct (strings.Split a sep).
Qed.

Lemma Split_sepFree s sep : sepFree sep s -> strings.Split s sep = [s].
Proof.
  induction s as [|c r IH]; [done|].
  intros [Hc Hr]%sepFree_cons. cbn [strings.Split].
  apply Ascii.eqb_neq in Hc as ->. by rewrite (IH Hr).
Qed.

Lemma Split_parts_sepFree s sep : Forall (sepFree sep) (strings.Split s sep).
Proof.
  induction s as [|c r IH]; cbn [strings.Split].
  - by repeat constructor.
  - destruct (Ascii.eqb_spec c sep) as [->|Hne].
    + by constructor.
    + pose proof (Split_not_nil r sep).
      destruct (strings.Split r sep) as [|h t]; [done|].
      inversion_clear IH. constructor; [|done]. by apply sepFree_cons.
Qed.

Lemma Split_Join l sep :
  l <> [] -> Forall (sepFree sep) l ->
  strings.Split (strings.Join l sep) sep = l.
Proof.
  induction l as [|e rest IH]; [done|].
  intros _ H. inversion_clear H as [|? ? He Hrest].
  destruct rest as [|e' rest].
  - by apply Split_sepFree.
  - change (strings.Join (e :: e' :: rest) sep)
      with (e +:+ String sep (strings.Join (e' :: rest) sep)).
    rewrite Split_app_sep, (Split_sepFree _ _ He), IH; done.
Qed.

Lemma strings_Join_nonempty out sep :
  out <> [] -> Forall (fun e => e <> "") out -> strings.Join out sep <> "".
Proof.
  destruct out as [|e rest]; [done|].
  intros _ H. inversion_clear H as [|? ? He _].
  destruct e; [done|]. destruct rest; simpl; done.
Qed.

(** ** The pattern of [arrayIndexRegex] *)

Section Pattern.

Lemma isDigit_not_bracket c :
  regexp.isDigit c = true -> c <> "["%char /\ c <> "]"%char.
Proof.
  destruct c as [[] [] [] [] [] [] [] []]; cbv; intros; split; congruence.
Qed.

(** A segment without an opening bracket is a plain segment. *)
Lemma matchAt_no_bracket s : sepFree "[" s -> regexp.matchAt s = None.
Proof.
  induction s as [|c r IH]; [reflexivity|].
  intros [Hc Hr]%sepFree_cons. cbn [regexp.matchAt]. rewrite (IH Hr).
  assert (regexp.matchIndex (String c r) = None) as ->.
  { unfold regexp.matchIndex.
    destruct c as [[] [] [] [] [] [] [] []]; try reflexivity. done. }
  by destruct (Ascii.eqb c regexp.newline).
Qed.

Lemma arrayIndexRegex_no_bracket s : sepFree "[" s -> arrayIndexRegex s = None.
Proof.
  unfold arrayIndexRegex. induction s as [|c r IH]; [reflexivity|].
  intros Hs. cbn [regexp.FindStringSubmatch]. rewrite (matchAt_no_bracket _ Hs).
  apply IH. by apply sepFree_cons in Hs as [_ ?].
Qed.

Lemma spanDigits_run d t :
  allDigits d = true ->
  regexp.spanDigits (d +:+ String "]" t) = (d, String "]" t).
Proof.
  induction d as [|c r IH]; [reflexivity|].
  intros [Hc Hr]%andb_true_iff.
  change (String c r +:+ String "]" t) with (String c (r +:+ String "]" t)).
  cbn [regexp.spanDigits]. rewrite Hc, (IH Hr). reflexivity.
Qed.

Lemma spanDigits_all d : allDigits d = true -> regexp.spanDigits d = (d, "").
Proof.
  induction d as [|c r IH]; [reflexivity|].
  intros [Hc Hr]%andb_true_iff.
  cbn [regexp.spanDigits]. rewrite Hc, (IH Hr). reflexivity.
Qed.

Lemma digits_no_bracket d : allDigits d = true -> sepFree "[" (d +:+ "]").
Proof.
  induction d as [|c r IH]; [reflexivity|].
  intros [Hc Hr]%andb_true_iff.
  change (String c r +:+ "]") with (String c (r +:+ "]")).
  apply sepFree_cons. split; [by apply isDigit_not_bracket | by apply IH].
Qed.

(** On [key[digits]] the groups are the key, the digits and nothing. *)
Lemma matchAt_indexed key d :
  oneLine key = true -> allDigits d = true -> d <> "" ->
  regexp.matchAt (key +:+ "[" +:+ d +:+ "]") = Some (key, d, "").
Proof.
  intros Hkey Hd Hne. induction key as [|c r IH].
  - change ("" +:+ "[" +:+ d +:+ "]") with (String "[" (d +:+ "]")).
    cbn [regexp.matchAt].
    rewrite (matchAt_no_bracket _ (digits_no_bracket _ Hd)).
    unfold regexp.matchIndex. rewrite (spanDigits_run _ _ Hd).
    destruct d; [done|]. reflexivity.
  - change (String c r +:+ "[" +:+ d +:+ "]")
      with (String c (r +:+ "[" +:+ d +:+ "]")).
    unfold oneLine in Hkey.
    apply negb_true_iff, sepFree_cons in Hkey as [Hc Hr].
    apply Ascii.eqb_neq in Hc. cbn [regexp.matchAt]. rewrite Hc, IH; [done|].
    unfold oneLine. by apply negb_true_iff.
Qed.

Lemma arrayIndexRegex_indexed key d :
  oneLine key = true -> allDigits d = true -> d <> "" ->
  arrayIndexRegex (key +:+ "[" +:+ d +:+ "]") = Some (key, d, "").
Proof.
  intros Hkey Hd Hne. unfold arrayIndexRegex.
  pose proof (matchAt_indexed key d Hkey Hd Hne) as Hm.
  destruct (key +:+ "[" +:+ d +:+ "]");
    cbn [regexp.FindStringSubmatch]; rewrite Hm; reflexivity.
Qed.

End Pattern.

(** ** JSON-path evaluation *)

Section Evaluation.

Lemma failsWith_BadRequest_intro {A} (r : Result A) e :
  r = Err e -> errCode e = StatusBadRequest -> failsWith StatusBadRequest r.
Proof. destruct e as [c m]; simpl; intros -> ->. by exists m. Qed.

(** Every failure of the evaluator is a 400. *)
Lemma evalPart_error_is_BadRequest result part e :
  evalPart result part = Err e -> errCode e = StatusBadRequest.
Proof.
  unfold evalPart.
  destruct (arrayIndexRegex part) as [[[objKey idxStr] restPath]|].
  - destruct (decide (objKey <> "")); destruct result; simpl;
      repeat (case_match; simpl); intros [= <-]; reflexivity.
  - destruct result; simpl; intros [= <-]; reflexivity.
Qed.

Lemma evalParts_error_is_BadRequest parts : forall result e,
  evalParts result parts = Err e -> errCode e = StatusBadRequest.
Proof.
  induction parts as [|part rest IH]; intros result e; simpl; [discriminate|].
  destruct (evalPart result part) as [r|e'] eqn:E; simpl.
  - apply IH.
  - intros [= <-]. eapply evalPart_error_is_BadRequest, E.
Qed.

(** None of them carries the message of the traversal check. *)
Lemma evalPart_not_invalid_path result part e :
  evalPart result part = Err e -> errMsg e <> "Invalid file path".
Proof.
  unfold evalPart.
  destruct (arrayIndexRegex part) as [[[objKey idxStr] restPath]|].
  - destruct (decide (objKey <> "")); destruct result;
      cbn [mbind Result_bind]; cbv zeta;
      repeat (case_match; cbn [mbind Result_bind]); intros [= <-]; discriminate.
  - destruct result; intros [= <-]; discriminate.
Qed.

Lemma evalParts_not_invalid_path parts : forall result e,
  evalParts result parts = Err e -> errMsg e <> "Invalid file path".
Proof.
  induction parts as [|part rest IH]; intros result e; simpl; [discriminate|].
  destruct (evalPart result part) as [r|e'] eqn:E; simpl.
  - apply IH.
  - intros [= <-]. eapply evalPart_not_invalid_path, E.
Qed.

Lemma evalParts_app result pre post :
  evalParts result (pre ++ post) = r ← evalParts result pre; evalParts r post.
Proof.
  revert result; induction pre as [|p pre IH]; intros result; simpl; [done|].
  destruct (evalPart result p); simpl; auto.
Qed.

Lemma evalPart_rest_fails result part objKey idxStr restPath :
  arrayIndexRegex part = Some (objKey, idxStr, restPath) ->
  restPath <> "" ->
  exists e, evalPart result part = Err e.
Proof.
  intros Hm Hrest. unfold evalPart. rewrite Hm.
  destruct (decide (objKey <> "")); destruct result; simpl;
    repeat (case_match; simpl); eauto; done.
Qed.

Lemma digitVal_range c : regexp.isDigit c = true -> 0 <= fmt.digitVal c <= 9.
Proof.
  destruct c as [[] [] [] [] [] [] [] []]; cbv; intros; split; congruence.
Qed.

Lemma parseDecimal_nonneg d : forall acc,
  allDigits d = true -> 0 <= acc -> 0 <= fmt.parseDecimal acc d.
Proof.
  induction d as [|c r IH]; intros acc Hd Hacc; [exact Hacc|].
  apply andb_true_iff in Hd as [Hc Hr]. cbn [fmt.parseDecimal].
  apply IH; [exact Hr|]. pose proof (digitVal_range c Hc). lia.
Qed.

Lemma Sscanf_d_fits d :
  allDigits d = true -> d <> "" -> fmt.parseDecimal 0 d <= fmt.maxInt64 ->
  fmt.Sscanf_d d 0 = fmt.parseDecimal 0 d.
Proof.
  intros Hd Hne Hfit. unfold fmt.Sscanf_d. rewrite (spanDigits_all _ Hd).
  destruct d; [done|]. by apply Z.leb_le in Hfit as ->.
Qed.

(** Reading an array the way the handler does, bounds check first. *)
Lemma guarded_index (arr : list json) v msg :
  0 <= v ->
  (if (0 <=? v) && (v <? Z.of_nat (length arr))
   then Ok (nth (Z.to_nat v) arr JNull) else BadRequest msg) =
  match arr !! Z.to_nat v with
  | Some x => Ok x
  | None => BadRequest msg
  end.
Proof.
  intros Hv. destruct (arr !! Z.to_nat v) as [x|] eqn:E.
  - pose proof (lookup_lt_Some _ _ _ E).
    replace (0 <=? v) with true by (symmetry; apply Z.leb_le; lia).
    replace (v <? Z.of_nat (length arr)) with true
      by (symmetry; apply Z.ltb_lt; lia).
    simpl. f_equal. by apply nth_lookup_Some with (d := JNull) in E.
  - apply lookup_ge_None in E.
    replace (v <? Z.of_nat (length arr)) with false
      by (symmetry; apply Z.ltb_ge; lia).
    by rewrite andb_false_r.
Qed.

(** An indexed segment whose index fits a 64-bit integer reads the element
    at that index, or fails when the index is out of bounds. *)
Lemma indexed_segment_within_int64 (m : gmap string json) key d arr :
  key <> "" -> oneLine key = true -> allDigits d = true -> d <> "" ->
  fmt.parseDecimal 0 d <= fmt.maxInt64 ->
  m !! key = Some (JArray arr) ->
  evalPart (JObject m) (key +:+ "[" +:+ d +:+ "]") =
    match arr !! Z.to_nat (fmt.parseDecimal 0 d) with
    | Some v => Ok v
    | None => BadRequest ("Array index out of bounds: "
                          +:+ fmt.Sprint_d (fmt.parseDecimal 0 d))
    end.
Proof.
  intros Hk Hline Hd Hne Hfit Hm.
  unfold evalPart. rewrite arrayIndexRegex_indexed by done.
  destruct (decide (key <> "")); [|done].
  unfold mapIndex. rewrite Hm.
  cbn [default from_option id mbind Result_bind]. cbv zeta.
  rewrite Sscanf_d_fits by done.
  rewrite guarded_index by (apply parseDecimal_nonneg; [done|lia]).
  destruct (arr !! _); reflexivity.
Qed.

(** C3, at the input where the code leaves the claim: the two requests of
    the specification answer as it says (the element 2, and a 400 for index
    5), but an index that does not fit a 64-bit integer is not rejected as
    out of bounds. The scan of the digits fails, the index variable keeps
    its initial 0, and the first element of the array is returned. *)
Theorem index_beyond_int64_reads_first_element :
  evaluate examples.docAB "a.b[1]" = Ok (JNumber 2) /\
  evaluate examples.docAB "a.b[5]" = BadRequest "Array index out of bounds: 5" /\
  evaluate examples.docAB "a.b[9223372036854775808]" = Ok (JNumber 1).
Proof. repeat split; vm_compute; reflexivity. Qed.

(** C2 as stated fails: on the object with the only key "a", the path "x.y"
    does not return null; the null produced by the missing key "x" is not
    an object when "y" is looked up, and the evaluation fails with a 400. *)
Lemma missing_key_then_segment_fails :
  ({[ "a" := JNumber 1 ]} : gmap string json) !! "x" = None /\
  evaluate examples.docA1 "x.y" = BadRequest (notAnObject "y") /\
  evaluate examples.docA1 "x.y" <> Ok JNull.
Proof. repeat split; vm_compute; congruence. Qed.

(** C2, amended: a plain segment looked up on an object whose key is missing
    yields JSON null as the new running result, without error; so on an
    object without the key "x" the path "x" returns null. A further segment
    then finds a running result that is not an object: the path "x.y" fails
    with BadRequest. *)
Theorem missing_key_yields_null_for_its_segment :
  (forall (m : gmap string json) part,
     arrayIndexRegex part = None -> m !! part = None ->
     evalPart (JObject m) part = Ok JNull) /\
  (forall m : gmap string json,
     m !! "x" = None ->
     evaluate (JObject m) "x" = Ok JNull /\
     evaluate (JObject m) "x.y" = BadRequest (notAnObject "y")).
Proof.
  split.
  - intros m part Hplain Hm. unfold evalPart, mapIndex. by rewrite Hplain, Hm.
  - intros m Hm. unfold evaluate.
    change (strings.Split "x" ".") with ["x"].
    change (strings.Split "x.y" ".") with ["x"; "y"].
    cbn [evalParts]. unfold evalPart at 1 3.
    change (arrayIndexRegex "x") with (@None (string * string * string)).
    unfold mapIndex. rewrite Hm. split; reflexivity.
Qed.

Lemma missing_key_yields_null_witness :
  evalPart examples.docA1 "x" = Ok JNull /\
  evaluate examples.docA1 "x" = Ok JNull /\
  evaluate examples.docA1 "x.y" = BadRequest (notAnObject "y").
Proof.
  split.
  - apply (proj1 missing_key_yields_null_for_its_segment
             {[ "a" := JNumber 1 ]} "x"); vm_compute; reflexivity.
  - apply (proj2 missing_key_yields_null_for_its_segment {[ "a" := JNumber 1 ]}).
    vm_compute. reflexivity.
Defined.

(** C4 as stated fails: the segment "key[0][1]" leaves no remainder, the
    greedy first group taking "key[0]" as the key, and on a document with
    that key the evaluation succeeds; and on "key[0]x" the failure reported
    is the one of the first check that fails. *)
Lemma chained_brackets_can_succeed :
  arrayIndexRegex "key[0][1]" = Some ("key[0]", "1", "") /\
  evaluate examples.docKey0 "key[0][1]" = Ok (JNumber 20) /\
  evaluate examples.docKeyScalar "key[0]x" = BadRequest "Cannot index - not an array".
Proof. repeat split; vm_compute; reflexivity. Qed.

(** C4, amended: when the pattern leaves a non-empty remainder after the
    bracketed index of a segment (as on "key[0]x" or "[0]x"), the segment
    fails with BadRequest, and the message is that of the first check that
    fails, in this order: "Cannot access property '<key>' - not an object"
    for a key on a running result that is not an object; "Cannot index -
    not an array" when the value to index is not an array; "Array index
    out of bounds: <index>" when the index read is not within the array;
    and "Complex array paths not supported" when these three checks pass.
    A path with such a segment fails with BadRequest, with the answer of
    that segment when the segments before it evaluate. *)
Theorem remainder_after_index_fails result part objKey idxStr restPath :
  arrayIndexRegex part = Some (objKey, idxStr, restPath) ->
  restPath <> "" ->
  evalPart result part =
    match valueToIndex result objKey with
    | None =>
        BadRequest ("Cannot access property '" +:+ objKey
                    +:+ "' - not an object")
    | Some (JArray arr) =>
        if decide (0 <= fmt.Sscanf_d idxStr 0 < Z.of_nat (length arr)) then
          BadRequest "Complex array paths not supported"
        else
          BadRequest ("Array index out of bounds: "
                      +:+ fmt.Sprint_d (fmt.Sscanf_d idxStr 0))
    | Some _ => BadRequest "Cannot index - not an array"
    end /\
  (forall doc path pre post,
     strings.Split path "." = pre ++ part :: post ->
     failsWith StatusBadRequest (evaluate doc path) /\
     (forall r, evalParts doc pre = Ok r ->
                evaluate doc path = evalPart r part)).
Proof.
  intros Hm Hrest. split.
  - unfold evalPart, valueToIndex. rewrite Hm.
    destruct (decide (objKey <> "")) as [Hkey|Hkey].
    + destruct (decide (objKey = "")) as [|_]; [done|].
      destruct result as [| | | | |m]; try reflexivity.
      unfold mapIndex. cbn [mbind Result_bind].
      destruct (default JNull (m !! objKey)) as [| | | |arr|]; try reflexivity.
      cbv zeta.
      destruct (decide (0 <= fmt.Sscanf_d idxStr 0 < Z.of_nat (length arr)))
        as [[H1 H2]|Hout].
      * apply Z.leb_le in H1 as ->. apply Z.ltb_lt in H2 as ->.
        cbn [andb mbind Result_bind]. by destruct (decide (restPath <> "")).
      * destruct (0 <=? _) eqn:E1; [|reflexivity].
        destruct (_ <? _) eqn:E2; [|reflexivity].
        apply Z.leb_le in E1. apply Z.ltb_lt in E2. lia.
    + destruct (decide (objKey = "")) as [_|]; [|done].
      cbn [mbind Result_bind].
      destruct result as [| | | |arr|]; try reflexivity.
      cbv zeta.
      destruct (decide (0 <= fmt.Sscanf_d idxStr 0 < Z.of_nat (length arr)))
        as [[H1 H2]|Hout].
      * apply Z.leb_le in H1 as ->. apply Z.ltb_lt in H2 as ->.
        cbn [andb mbind Result_bind]. by destruct (decide (restPath <> "")).
      * destruct (0 <=? _) eqn:E1; [|reflexivity].
        destruct (_ <? _) eqn:E2; [|reflexivity].
        apply Z.leb_le in E1. apply Z.ltb_lt in E2. lia.
  - intros doc path pre post Hsplit. unfold evaluate. rewrite Hsplit.
    rewrite evalParts_app. split.
    + destruct (evalParts doc pre) as [r|e] eqn:Epre.
      * cbn [mbind Result_bind evalParts].
        destruct (evalPart_rest_fails r part _ _ _ Hm Hrest) as [e He].
        rewrite He. cbn [mbind Result_bind].
        eapply failsWith_BadRequest_intro; [reflexivity|].
        eapply evalPart_error_is_BadRequest, He.
      * cbn [mbind Result_bind].
        eapply failsWith_BadRequest_intro; [reflexivity|].
        eapply evalParts_error_is_BadRequest, Epre.
    + intros r ->. cbn [mbind Result_bind evalParts].
      destruct (evalPart_rest_fails r part _ _ _ Hm Hrest) as [e ->].
      reflexivity.
Qed.

Lemma remainder_after_index_fails_witness :
  evalPart (JArray [JNumber 7]) "[0]x"
    = BadRequest "Complex array paths not supported" /\
  (forall doc path pre post,
     strings.Split path "." = pre ++ "[0]x" :: post ->
     failsWith StatusBadRequest (evaluate doc path) /\
     (forall r, evalParts doc pre = Ok r ->
                evaluate doc path = evalPart r "[0]x")).
Proof.
  apply (remainder_after_index_fails (JArray [JNumber 7]) "[0]x" "" "0" "x");
    [reflexivity | discriminate].
Defined.

End Evaluation.

(** ** Cleaning and joining paths *)

Section Paths.

Lemma elements_app_sep a b :
  filepath.elements (a +:+ String "/" b)
  = filepath.elements a ++ filepath.elements b.
Proof. unfold filepath.elements. by rewrite Split_app_sep, filter_app. Qed.

Lemma elements_plain e : plainElement e -> filepath.elements e = [e].
Proof.
  intros (? & ? & Hsep). unfold filepath.elements.
  rewrite (Split_sepFree _ _ Hsep). by rewrite filter_cons_True.
Qed.

Lemma elements_rooted x : filepath.elements (String "/" x) = filepath.elements x.
Proof.
  unfold filepath.elements. cbn [strings.Split]. rewrite Ascii.eqb_refl.
  by rewrite filter_cons_False by tauto.
Qed.

Lemma elements_are_plain path : Forall plainElement (filepath.elements path).
Proof.
  unfold filepath.elements. apply Forall_forall. intros e He.
  apply list_elem_of_filter in He as [[? ?] Hin].
  pose proof (Split_parts_sepFree path "/") as Hfree.
  rewrite Forall_forall in Hfree. repeat split; auto.
Qed.

Lemma elements_Join st :
  Forall plainElement st -> filepath.elements (strings.Join st "/") = st.
Proof.
  intros Hst. destruct (decide (st = [])) as [->|Hne]; [done|].
  unfold filepath.elements. rewrite Split_Join; [|done|].
  - induction Hst as [|e st He _ IH]; [done|].
    rewrite filter_cons_True by (unfold plainElement in He; tauto).
    f_equal. destruct st; [done|]. by apply IH.
  - eapply Forall_impl; [exact Hst|]. by intros e (_ & _ & ?).
Qed.

(** What the output buffer of [Clean] holds. *)
Lemma cleanStep_Forall (P : string -> Prop) rooted out e :
  P ".." -> P e -> Forall P out -> Forall P (filepath.cleanStep rooted out e).
Proof.
  intros Hdd He Hout. unfold filepath.cleanStep.
  destruct (decide (e = "..")).
  - destruct out as [|top below].
    + destruct rooted; auto.
    + inversion_clear Hout. destruct (decide (top = "..")); auto.
  - auto.
Qed.

Lemma foldl_cleanStep_Forall (P : string -> Prop) rooted es : forall out,
  P ".." -> Forall P es -> Forall P out ->
  Forall P (foldl (filepath.cleanStep rooted) out es).
Proof.
  induction es as [|e es IH]; intros out Hdd Hes Hout; [exact Hout|].
  inversion_clear Hes. simpl. apply IH; auto using cleanStep_Forall.
Qed.

Lemma cleanElements_nonempty path :
  Forall (fun e => e <> "") (filepath.cleanElements path).
Proof.
  unfold filepath.cleanElements. apply Forall_reverse.
  apply foldl_cleanStep_Forall; [done| |constructor].
  eapply Forall_impl; [apply elements_are_plain|]. by intros e [? _].
Qed.

Lemma Clean_nonempty path : filepath.Clean path <> "".
Proof.
  unfold filepath.Clean. destruct (decide (path = "")); [done|].
  destruct (filepath.IsAbs path); [done|].
  pose proof (cleanElements_nonempty path) as H.
  destruct (filepath.cleanElements path) as [|e out] eqn:E; [done|].
  apply strings_Join_nonempty; done.
Qed.

Lemma Join_nonempty elem :
  Exists (fun e => e <> "") elem -> filepath.Join elem <> "".
Proof.
  intros H. unfold filepath.Join.
  assert (filepath.dropEmpty elem <> []) as Hd.
  { induction H as [e rest He|e rest _ IH]; simpl;
      destruct (decide (e = "")); done. }
  destruct (filepath.dropEmpty elem); [done|]. apply Clean_nonempty.
Qed.

(** In a rooted path no double dot survives. *)
Lemma cleanStep_rooted_clean out e :
  plainElement e -> Forall cleanElement out ->
  Forall cleanElement (filepath.cleanStep true out e).
Proof.
  intros He Hout. unfold filepath.cleanStep.
  destruct (decide (e = "..")) as [->|Hne].
  - destruct out as [|top below]; [constructor|].
    inversion_clear Hout as [|? ? [_ Htop] Hbelow].
    by destruct (decide (top = "..")).
  - by constructor.
Qed.

Lemma foldl_cleanStep_rooted_clean es : forall out,
  Forall plainElement es -> Forall cleanElement out ->
  Forall cleanElement (foldl (filepath.cleanStep true) out es).
Proof.
  induction es as [|e es IH]; intros out Hes Hout; [exact Hout|].
  inversion_clear Hes. simpl. apply IH; auto using cleanStep_rooted_clean.
Qed.

(** Clean elements are copied to the buffer as they come. *)
Lemma foldl_cleanStep_clean rooted es : forall out,
  Forall cleanElement es ->
  foldl (filepath.cleanStep rooted) out es = reverse es ++ out.
Proof.
  induction es as [|e es IH]; intros out Hes; [done|].
  inversion_clear Hes as [|? ? [_ He] Hes']. simpl. rewrite IH by done.
  unfold filepath.cleanStep. destruct (decide (e = "..")); [done|].
  by rewrite reverse_cons, <- app_assoc.
Qed.

Lemma IsAbs_inv path :
  filepath.IsAbs path = true -> exists r, path = String "/" r.
Proof.
  unfold filepath.IsAbs. destruct path as [|c r]; [done|].
  rewrite prefix_one. intros <-%bool_decide_eq_true. eauto.
Qed.

Lemma IsAbs_rooted r : filepath.IsAbs (String "/" r) = true.
Proof. unfold filepath.IsAbs. rewrite prefix_one. by apply bool_decide_eq_true. Qed.

Lemma cleanElements_rooted_clean path :
  filepath.IsAbs path = true -> Forall cleanElement (filepath.cleanElements path).
Proof.
  intros Habs. unfold filepath.cleanElements. rewrite Habs.
  apply Forall_reverse, foldl_cleanStep_rooted_clean;
    [apply elements_are_plain | constructor].
Qed.

Lemma Clean_rooted path :
  filepath.IsAbs path = true ->
  filepath.Clean path
  = String "/" (strings.Join (filepath.cleanElements path) "/").
Proof.
  intros Habs. unfold filepath.Clean. rewrite Habs.
  destruct (decide (path = "")) as [->|]; done.
Qed.

Lemma cleanElements_of_clean st :
  Forall cleanElement st ->
  filepath.cleanElements (String "/" (strings.Join st "/")) = st.
Proof.
  intros Hst. unfold filepath.cleanElements.
  rewrite IsAbs_rooted, elements_rooted, elements_Join.
  - rewrite foldl_cleanStep_clean by done.
    by rewrite app_nil_r, reverse_involutive.
  - eapply Forall_impl; [exact Hst|]. by intros e [? _].
Qed.

(** [Clean] is idempotent on rooted paths. *)
Lemma Clean_idempotent_rooted path :
  filepath.IsAbs path = true ->
  filepath.Clean (filepath.Clean path) = filepath.Clean path.
Proof.
  intros Habs. rewrite (Clean_rooted path Habs).
  rewrite Clean_rooted by apply IsAbs_rooted.
  by rewrite cleanElements_of_clean by by apply cleanElements_rooted_clean.
Qed.

Lemma validName_clean name : validName name -> cleanElement name.
Proof. intros (? & ? & ? & ?). repeat split; auto. Qed.

(** Joining a name to a rooted directory appends one element. *)
Lemma cleanElements_child rootDir name :
  filepath.IsAbs rootDir = true -> validName name ->
  filepath.cleanElements (rootDir +:+ String "/" name) =
  filepath.cleanElements rootDir ++ [name].
Proof.
  intros Habs Hname. pose proof (validName_clean _ Hname) as [Hplain Hdd].
  destruct (IsAbs_inv _ Habs) as [r ->].
  unfold filepath.cleanElements.
  change (String "/" r +:+ String "/" name)
    with (String "/" (r +:+ String "/" name)).
  rewrite !IsAbs_rooted, !elements_rooted, elements_app_sep,
    (elements_plain _ Hplain), foldl_app.
  cbn [foldl]. unfold filepath.cleanStep at 1.
  destruct (decide (name = "..")); [done|]. by rewrite reverse_cons.
Qed.

Lemma Join_child rootDir name :
  filepath.IsAbs rootDir = true -> validName name ->
  filepath.Join [rootDir; name] =
  String "/" (strings.Join (filepath.cleanElements rootDir ++ [name]) "/").
Proof.
  intros Habs Hname. destruct (IsAbs_inv _ Habs) as [r ->].
  unfold filepath.Join. cbn [filepath.dropEmpty].
  destruct (decide (String "/" r = "")); [done|].
  change (strings.Join [String "/" r; name] "/")
    with (String "/" r +:+ String "/" name).
  rewrite Clean_rooted by apply IsAbs_rooted.
  by rewrite <- cleanElements_child.
Qed.

Lemma relElements_clean st :
  Forall cleanElement st ->
  filepath.relElements (String "/" (strings.Join st "/")) = st.
Proof.
  intros Hst. destruct st as [|e st]; [done|].
  assert (strings.Join (e :: st) "/" <> "") as Hne.
  { apply strings_Join_nonempty; [done|].
    eapply Forall_impl; [exact Hst|]. by intros ? [[? _] _]. }
  assert (strings.Split (strings.Join (e :: st) "/") "/" = e :: st) as HS.
  { apply Split_Join; [done|].
    eapply Forall_impl; [exact Hst|]. by intros ? [(_ & _ & ?) _]. }
  unfold filepath.relElements.
  destruct (strings.Join (e :: st) "/") as [|c r]; done.
Qed.

Lemma dropCommon_prefix st t : filepath.dropCommon st (st ++ t) = ([], t).
Proof.
  induction st as [|e st IH]; simpl; [by destruct t|].
  destruct (decide (e = e)); done.
Qed.

(** The path of a child relative to its rooted directory is its name. *)
Lemma Rel_child rootDir name :
  filepath.IsAbs rootDir = true -> validName name ->
  filepath.Rel rootDir (filepath.Join [rootDir; name]) = Some name.
Proof.
  intros Habs Hname.
  pose proof (cleanElements_rooted_clean _ Habs) as Hst.
  assert (Forall cleanElement (filepath.cleanElements rootDir ++ [name])) as Hst'.
  { apply Forall_app_2; [done|]. repeat constructor; by apply validName_clean. }
  unfold filepath.Rel.
  rewrite (Join_child _ _ Habs Hname).
  rewrite (Clean_rooted rootDir Habs).
  rewrite Clean_rooted by apply IsAbs_rooted.
  rewrite cleanElements_of_clean by done.
  set (st := filepath.cleanElements rootDir) in *.
  destruct (decide (String "/" (strings.Join (st ++ [name]) "/") =
                    String "/" (strings.Join st "/"))) as [Heq|_].
  { exfalso. apply (f_equal filepath.relElements) in Heq.
    rewrite !relElements_clean in Heq by done.
    apply (f_equal length) in Heq. rewrite length_app in Heq. simpl in Heq. lia. }
  destruct (decide (String "/" (strings.Join st "/") = ".")); [done|].
  rewrite !IsAbs_rooted. cbn [Bool.eqb negb].
  rewrite !relElements_clean by done.
  by rewrite dropCommon_prefix.
Qed.

End Paths.

(** ** Path resolution *)

Section Resolution.

Variable fs : FileSystem.

Lemma tryPaths_find paths :
  tryPaths fs paths = default "" (List.find (statsAsFile fs) paths).
Proof.
  induction paths as [|p rest IH]; simpl; [done|].
  destruct (statsAsFile fs p); done.
Qed.

Lemma find_app_Some {A} (f : A -> bool) l1 l2 x :
  List.find f l1 = Some x -> List.find f (l1 ++ l2) = Some x.
Proof.
  induction l1 as [|a l1 IH]; simpl; [done|]. destruct (f a); auto.
Qed.

Lemma find_app_None {A} (f : A -> bool) l1 l2 :
  List.find f l1 = None -> List.find f (l1 ++ l2) = List.find f l2.
Proof.
  induction l1 as [|a l1 IH]; simpl; [done|]. destruct (f a); [done|auto].
Qed.

Lemma find_Some_true {A} (f : A -> bool) l x :
  List.find f l = Some x -> f x = true /\ x ∈ l.
Proof.
  intros H. apply find_some in H as [H1 H2]. by rewrite list_elem_of_In.
Qed.

Lemma find_None_false {A} (f : A -> bool) l x :
  List.find f l = None -> x ∈ l -> f x = false.
Proof.
  intros H Hin. apply list_elem_of_In in Hin. eapply find_none in H; eauto.
Qed.

(** The loop over the entries of the root appends one candidate per
    subdirectory. *)
Lemma foldl_append_subdirs (f : DirEntry -> string) entries : forall paths,
  foldl (fun paths entry =>
           if entryIsDir entry then paths ++ [f entry] else paths)
        paths entries
  = paths ++ (f <$> filter (fun e => entryIsDir e = true) entries).
Proof.
  induction entries as [|e entries IH]; intros paths; simpl.
  - by rewrite app_nil_r.
  - rewrite IH. destruct (entryIsDir e) eqn:E.
    + rewrite filter_cons_True by done. by rewrite <- app_assoc.
    + rewrite filter_cons_False by congruence. done.
Qed.

(** [filePaths] as the concatenation of its three groups. *)
Lemma filePaths_groups baseDir requestedDir requestedFile :
  filePaths fs baseDir requestedDir requestedFile =
    (if decide (requestedDir = "") then []
     else [filepath.Join [baseDir; requestedDir; requestedFile]]) ++
    [filepath.Join [baseDir; requestedFile]] ++
    (if strings.Contains requestedFile "/" then []
     else (fun D => filepath.Join [baseDir; D; requestedFile])
            <$> subdirectories fs baseDir).
Proof.
  unfold filePaths, subdirectories.
  destruct (strings.Contains requestedFile "/"); cbn [negb].
  - destruct (decide (requestedDir <> "")), (decide (requestedDir = ""));
      try done; by rewrite ?app_nil_r.
  - destruct (ReadDir fs baseDir) as [err|entries].
    + destruct (decide (requestedDir <> "")), (decide (requestedDir = ""));
        try done; by rewrite ?app_nil_r.
    + rewrite foldl_append_subdirs, <- list_fmap_compose.
      destruct (decide (requestedDir <> "")), (decide (requestedDir = ""));
        try done; by rewrite <- ?app_assoc.
Qed.

(** No candidate is the empty string, which the handlers read as
    "unresolved". *)
Lemma filePaths_nonempty baseDir requestedDir requestedFile :
  baseDir <> "" \/ requestedFile <> "" ->
  Forall (fun p => p <> "") (filePaths fs baseDir requestedDir requestedFile).
Proof.
  intros H. rewrite filePaths_groups.
  assert (forall pre post,
            filepath.Join (pre ++ baseDir :: post ++ [requestedFile]) <> "")
    as HJ.
  { intros pre post. apply Join_nonempty, Exists_exists.
    destruct H as [H|H]; [exists baseDir | exists requestedFile];
      (split; [|done]); set_solver. }
  repeat apply Forall_app_2.
  - destruct (decide _); [constructor|]. repeat constructor.
    apply (HJ [] [requestedDir]).
  - repeat constructor. apply (HJ [] []).
  - destruct (strings.Contains _ _); [constructor|].
    apply Forall_fmap, Forall_forall. intros D _. apply (HJ [] [D]).
Qed.

Lemma fullPath_in_filePaths baseDir requestedDir requestedFile :
  filePaths fs baseDir requestedDir requestedFile
    !! (if decide (requestedDir = "") then 0 else 1)%nat
  = Some (filepath.Join [baseDir; requestedFile]).
Proof.
  rewrite filePaths_groups. by destruct (decide (requestedDir = "")).
Qed.

Lemma resolvePath_without_retry baseDir requestedDir requestedFile :
  resolvePath fs baseDir requestedDir requestedFile =
  resolveByCandidateLoop fs baseDir requestedDir requestedFile.
Proof.
  unfold resolvePath, resolveByCandidateLoop, retryFullPath.
  set (paths := filePaths fs baseDir requestedDir requestedFile).
  destruct (String.eqb_spec (tryPaths fs paths) "") as [Hempty|Hfound];
    cbn [andb]; [|done].
  destruct (strings.Contains requestedFile "/") eqn:Hsep; [|done].
  assert (statsAsFile fs (filepath.Join [baseDir; requestedFile]) = false) as ->;
    [|done].
  assert (Forall (fun p => p <> "") paths) as Hne.
  { apply filePaths_nonempty. right. eapply Contains_nonempty; done. }
  rewrite tryPaths_find in Hempty.
  destruct (List.find (statsAsFile fs) paths) as [p|] eqn:Hfind.
  - apply find_Some_true in Hfind as [_ Hin]. simpl in Hempty. subst p.
    rewrite Forall_forall in Hne. by apply Hne in Hin.
  - eapply find_None_false; [exact Hfind|].
    eapply list_elem_of_lookup_2, fullPath_in_filePaths.
Qed.

(** A resolved path passed the status check as a file. *)
Lemma resolvePath_Ok_stats baseDir requestedDir requestedFile p :
  resolvePath fs baseDir requestedDir requestedFile = Ok p ->
  statsAsFile fs p = true.
Proof.
  rewrite resolvePath_without_retry.
  unfold resolveByCandidateLoop. rewrite tryPaths_find.
  destruct (List.find _ _) as [q|] eqn:Hfind; simpl.
  - destruct (decide (q = "")); [done|]. intros [= ->].
    by apply find_Some_true in Hfind as [? _].
  - done.
Qed.

Lemma statsAsFile_Stat p :
  statsAsFile fs p = true ->
  exists info, Stat fs p = inr info /\ statIsDir info = false.
Proof.
  unfold statsAsFile. destruct (Stat fs p) as [|info]; [done|].
  intros H%negb_true_iff. eauto.
Qed.

Lemma statsAsFile_existingFile p :
  statsAsFile fs p = true <-> existingFile fs p.
Proof.
  unfold statsAsFile, existingFile. destruct (Stat fs p) as [err|info].
  - split; [done|]. by intros (? & ? & _).
  - rewrite negb_true_iff. split; [eauto|]. by intros (? & [= <-] & ?).
Qed.

Lemma find_first (f : string -> bool) l x :
  List.find f l = Some x <->
  exists before after,
    l = before ++ x :: after /\ f x = true /\
    Forall (fun q => f q = false) before.
Proof.
  induction l as [|y l IH]; cbn [List.find].
  - split; [done|]. intros (before & after & Heq & _). by destruct before.
  - destruct (f y) eqn:Hy.
    + split.
      * intros [= <-]. exists [], l. repeat split; [done|constructor].
      * intros ([|z before] & after & Heq & Hx & Hbefore).
        -- by injection Heq as ->.
        -- injection Heq as <- _. apply Forall_cons in Hbefore as [Hz _].
           congruence.
    + rewrite IH. split.
      * intros (before & after & -> & Hx & Hbefore).
        exists (y :: before), after. repeat split; [done|].
        by apply Forall_cons.
      * intros ([|z before] & after & Heq & Hx & Hbefore).
        -- injection Heq as <- _. congruence.
        -- injection Heq as <- ->. apply Forall_cons in Hbefore as [_ ?].
           by exists before, after.
Qed.

Lemma find_none (f : string -> bool) l :
  List.find f l = None <-> Forall (fun q => f q = false) l.
Proof.
  induction l as [|y l IH]; cbn [List.find]; [split; [constructor|done]|].
  rewrite Forall_cons. destruct (f y); [|by rewrite IH; intuition].
  split; [done|]. by intros [? _].
Qed.

(** The resolver answers the first candidate the loop's test accepts. *)
Lemma resolvePath_find_candidates root directoryHint requestedName :
  root <> "" ->
  filePaths fs root directoryHint requestedName ++
    (if strings.Contains requestedName "/"
     then [filepath.Join [root; requestedName]] else [])
  = candidates fs root directoryHint requestedName /\
  resolvePath fs root directoryHint requestedName =
    match List.find (statsAsFile fs)
                    (candidates fs root directoryHint requestedName) with
    | Some path => Ok path
    | None => NotFound ("File not found: " +:+ requestedName)
    end.
Proof.
  intros Hroot.
  assert (filePaths fs root directoryHint requestedName ++
            (if strings.Contains requestedName "/"
             then [filepath.Join [root; requestedName]] else [])
          = candidates fs root directoryHint requestedName) as Hcands.
  { rewrite filePaths_groups. unfold candidates. by rewrite <- !app_assoc. }
  split; [exact Hcands|]. rewrite <- Hcands.
  pose proof (filePaths_nonempty root directoryHint requestedName
                (or_introl Hroot)) as Hne.
  unfold resolvePath, retryFullPath. rewrite tryPaths_find.
  set (paths := filePaths fs root directoryHint requestedName) in *.
  destruct (List.find (statsAsFile fs) paths) as [p|] eqn:Hfind.
  - rewrite (find_app_Some _ _ _ _ Hfind). cbn [default from_option id].
    pose proof (find_Some_true _ _ _ Hfind) as [_ Hin].
    rewrite Forall_forall in Hne. apply Hne in Hin.
    destruct (String.eqb_spec p ""); [done|]. cbn [andb].
    destruct (decide (p = "")); done.
  - rewrite (find_app_None _ _ _ Hfind).
    cbn [default from_option id String.eqb andb].
    destruct (strings.Contains requestedName "/"); [|done].
    cbn [List.find].
    destruct (statsAsFile fs (filepath.Join [root; requestedName])) eqn:Hstat;
      [|done].
    destruct (decide (filepath.Join [root; requestedName] = "")) as [Hj|];
      [|done].
    exfalso. revert Hj. apply Join_nonempty. by left.
Qed.

(** C1. For a content or a query request, the resolver tries, in this
    order, root/hint/name when the hint is not empty, root/name,
    root/D/name for every immediate subdirectory D of the root when the
    name has no separator, and root/name once more when the name has a
    separator; it answers the first candidate for which [os.Stat] succeeds
    and reports no directory, that is the first one that exists and is not
    a directory, and it fails, with NotFound and in no other way, exactly
    when no candidate is such a path. *)
Theorem resolution_tries_candidates_in_order root directoryHint requestedName :
  root <> "" ->
  filePaths fs root directoryHint requestedName ++
    (if strings.Contains requestedName "/"
     then [filepath.Join [root; requestedName]] else [])
  = candidates fs root directoryHint requestedName /\
  (forall path,
     resolvePath fs root directoryHint requestedName = Ok path <->
     firstWith (existingFile fs)
       (candidates fs root directoryHint requestedName) path) /\
  (forall e,
     resolvePath fs root directoryHint requestedName = Err e <->
     e = HttpError StatusNotFound ("File not found: " +:+ requestedName) /\
     Forall (fun q => ~ existingFile fs q)
       (candidates fs root directoryHint requestedName)).
Proof.
  intros Hroot.
  destruct (resolvePath_find_candidates root directoryHint requestedName Hroot)
    as [Hcands Hres].
  split; [exact Hcands|]. rewrite Hres. clear Hres Hcands.
  set (cands := candidates fs root directoryHint requestedName).
  split.
  - intros path. unfold firstWith.
    destruct (List.find (statsAsFile fs) cands) as [q|] eqn:Hfind.
    + split.
      * intros [= <-]. apply find_first in Hfind
          as (before & after & Heq & Hq & Hbefore).
        exists before, after. split; [done|].
        split; [by apply statsAsFile_existingFile|].
        eapply Forall_impl; [exact Hbefore|]. intros x Hx. cbv beta in *.
        rewrite <- statsAsFile_existingFile. congruence.
      * intros (before & after & Heq & Hpath & Hbefore). f_equal.
        assert (List.find (statsAsFile fs) cands = Some path) as Hfind'.
        { apply find_first. exists before, after. split; [done|].
          split; [by apply statsAsFile_existingFile|].
          eapply Forall_impl; [exact Hbefore|]. intros x Hx. cbv beta in *.
          destruct (statsAsFile fs x) eqn:Ex; [|done].
          by apply statsAsFile_existingFile in Ex. }
        congruence.
    + split; [done|]. intros (before & after & Heq & Hpath & _).
      apply find_none in Hfind. rewrite Forall_forall in Hfind.
      apply statsAsFile_existingFile in Hpath.
      rewrite Hfind in Hpath; [done|]. rewrite Heq. set_solver.
  - intros e. destruct (List.find (statsAsFile fs) cands) as [q|] eqn:Hfind.
    + split; [done|]. intros [_ Hnone].
      apply find_Some_true in Hfind as [Hq Hin].
      rewrite Forall_forall in Hnone. exfalso.
      by apply (Hnone q Hin), statsAsFile_existingFile.
    + apply find_none in Hfind. split.
      * intros [= <-]. split; [done|].
        eapply Forall_impl; [exact Hfind|]. intros x Hx. cbv beta in *.
        rewrite <- statsAsFile_existingFile. congruence.
      * by intros [-> _].
Qed.

(** C10. The retry of root/name for a name with a separator tests the path
    that the candidate loop has already tested, as its first candidate
    without a hint and its second with one; the resolver with the retry
    gives the same answer as the candidate loop alone, on every request. *)
Theorem retry_of_full_path_is_redundant baseDir requestedDir requestedFile :
  filePaths fs baseDir requestedDir requestedFile
    !! (if decide (requestedDir = "") then 0 else 1)%nat
  = Some (filepath.Join [baseDir; requestedFile]) /\
  resolvePath fs baseDir requestedDir requestedFile =
  resolveByCandidateLoop fs baseDir requestedDir requestedFile.
Proof.
  split; [apply fullPath_in_filePaths | apply resolvePath_without_retry].
Qed.

End Resolution.

Lemma resolution_tries_candidates_witness :
  filePaths examples.nested "/srv/www" "" "n.md" ++
    (if strings.Contains "n.md" "/"
     then [filepath.Join ["/srv/www"; "n.md"]] else [])
  = candidates examples.nested "/srv/www" "" "n.md" /\
  (forall path,
     resolvePath examples.nested "/srv/www" "" "n.md" = Ok path <->
     firstWith (existingFile examples.nested)
       (candidates examples.nested "/srv/www" "" "n.md") path) /\
  (forall e,
     resolvePath examples.nested "/srv/www" "" "n.md" = Err e <->
     e = HttpError StatusNotFound ("File not found: " +:+ "n.md") /\
     Forall (fun q => ~ existingFile examples.nested q)
       (candidates examples.nested "/srv/www" "" "n.md")).
Proof.
  apply (resolution_tries_candidates_in_order examples.nested "/srv/www" "" "n.md").
  discriminate.
Defined.

(** The request of the specification: a name found one level down. *)
Example resolve_one_level_down :
  candidates examples.nested "/srv/www" "" "n.md" =
    ["/srv/www/n.md"; "/srv/www/dist/n.md"; "/srv/www/docs/n.md";
     "/srv/www/notes/n.md"] /\
  resolvePath examples.nested "/srv/www" "" "n.md" = Ok "/srv/www/notes/n.md".
Proof. split; vm_compute; reflexivity. Qed.

(** ** The handlers after resolution *)

Section Handlers.

Variable fs : FileSystem.
Variables requestedFile requestedDir baseDir : string.
Hypothesis Hwd : Getwd fs = inr baseDir.

(** Both handlers stop with the resolver's NotFound. *)
Lemma handlers_stop_when_unresolved config unmarshal jsonPath e :
  resolvePath fs baseDir requestedDir requestedFile = Err e ->
  getFileContent config fs requestedFile requestedDir = Err e /\
  (requestedFile <> "" -> jsonPath <> "" ->
   queryJSON fs unmarshal requestedFile jsonPath requestedDir = Err e).
Proof.
  intros Hres. split.
  - unfold getFileContent. by rewrite Hwd, Hres.
  - intros Hf Hp. unfold queryJSON.
    destruct (decide (requestedFile = "" \/ jsonPath = "")) as [[]|_]; [done..|].
    by rewrite Hwd, Hres.
Qed.

Variable p : string.
Hypothesis Hres : resolvePath fs baseDir requestedDir requestedFile = Ok p.

(** What is left of [getFileContent] once the path is resolved: the second
    status check repeats the one of the resolver. *)
Lemma getFileContent_after_resolution config :
  getFileContent config fs requestedFile requestedDir =
    if strings.Contains p ".." then BadRequest "Invalid file path"
    else
      let ext := strings.ToLower (filepath.Ext p) in
      if negb (isAllowedExt config ext) then
        BadRequest ("Unsupported file type: " +:+ ext)
      else
        match ReadFile fs p with
        | inl err => osFailure err
        | inr data =>
            Ok (if String.eqb ext ".json" then Some "application/json"
                else if String.eqb ext ".md" then Some "text/plain"
                else None, data)
        end.
Proof.
  unfold getFileContent. rewrite Hwd, Hres. cbn [mbind Result_bind].
  destruct (strings.Contains p ".."); [done|].
  destruct (statsAsFile_Stat fs p (resolvePath_Ok_stats fs _ _ _ _ Hres))
    as (info & -> & ->).
  done.
Qed.

Lemma queryJSON_after_resolution unmarshal jsonPath :
  requestedFile <> "" -> jsonPath <> "" ->
  queryJSON fs unmarshal requestedFile jsonPath requestedDir =
    if strings.Contains p ".." then BadRequest "Invalid file path"
    else if decide (strings.ToLower (filepath.Ext p) <> ".json") then
      BadRequest "File is not JSON"
    else
      match ReadFile fs p with
      | inl err => osFailure err
      | inr data =>
          match unmarshal data with
          | inl msg => BadRequest ("Invalid JSON: " +:+ msg)
          | inr jsonData => evaluate jsonData jsonPath
          end
      end.
Proof.
  intros Hf Hp. unfold queryJSON.
  destruct (decide (requestedFile = "" \/ jsonPath = "")) as [[]|_]; [done..|].
  rewrite Hwd, Hres. cbn [mbind Result_bind].
  destruct (strings.Contains p ".."); [done|].
  destruct (statsAsFile_Stat fs p (resolvePath_Ok_stats fs _ _ _ _ Hres))
    as (info & -> & ->).
  done.
Qed.

(** The traversal check of either handler, on its own. *)
Lemma content_rejected_as_invalid_path config :
  getFileContent config fs requestedFile requestedDir
    = BadRequest "Invalid file path"
  <-> strings.Contains p ".." = true.
Proof.
  rewrite getFileContent_after_resolution.
  destruct (strings.Contains p ".."); [done|].
  split; [|done]. cbv zeta.
  destruct (negb _); [discriminate|].
  destruct (ReadFile fs p) as [err|data]; discriminate.
Qed.

Lemma query_rejected_as_invalid_path unmarshal jsonPath :
  requestedFile <> "" -> jsonPath <> "" ->
  queryJSON fs unmarshal requestedFile jsonPath requestedDir
    = BadRequest "Invalid file path"
  <-> strings.Contains p ".." = true.
Proof.
  intros Hf Hp. rewrite queryJSON_after_resolution by done.
  destruct (strings.Contains p ".."); [done|].
  split; [|done].
  destruct (decide _); [discriminate|].
  destruct (ReadFile fs p) as [err|data]; [discriminate|].
  destruct (unmarshal data) as [msg|jsonData]; [discriminate|].
  unfold evaluate. intros H.
  by apply evalParts_not_invalid_path in H.
Qed.

(** C8. A query whose file resolves to an existing file that is not a
    directory and whose lower-cased extension is not ".json" fails with
    BadRequest whatever the path parameter is; the three possible answers
    are all given before the file is read, so no JSON path is evaluated. *)
Theorem query_of_non_json_file_is_rejected unmarshal jsonPath :
  strings.ToLower (filepath.Ext p) <> ".json" ->
  statsAsFile fs p = true /\
  failsWith StatusBadRequest
    (queryJSON fs unmarshal requestedFile jsonPath requestedDir) /\
  (queryJSON fs unmarshal requestedFile jsonPath requestedDir =
     BadRequest "Missing file or path parameter" \/
   queryJSON fs unmarshal requestedFile jsonPath requestedDir =
     BadRequest "Invalid file path" \/
   queryJSON fs unmarshal requestedFile jsonPath requestedDir =
     BadRequest "File is not JSON").
Proof.
  intros Hext.
  split; [eapply resolvePath_Ok_stats, Hres|].
  assert (queryJSON fs unmarshal requestedFile jsonPath requestedDir =
            BadRequest "Missing file or path parameter" \/
          queryJSON fs unmarshal requestedFile jsonPath requestedDir =
            BadRequest "Invalid file path" \/
          queryJSON fs unmarshal requestedFile jsonPath requestedDir =
            BadRequest "File is not JSON") as H.
  { destruct (decide (requestedFile = "" \/ jsonPath = "")) as [Hmiss|Hpres].
    - left. unfold queryJSON. by destruct (decide _).
    - right. rewrite queryJSON_after_resolution by tauto.
      destruct (strings.Contains p ".."); [by left|right].
      by destruct (decide _). }
  split; [|exact H].
  destruct H as [-> | [-> | ->]]; eexists; reflexivity.
Qed.

End Handlers.

Lemma query_of_non_json_file_witness :
  failsWith StatusBadRequest
    (queryJSON examples.nested (fun _ => inr JNull) "n.md" "a.b" "notes").
Proof.
  apply (query_of_non_json_file_is_rejected examples.nested "n.md" "notes"
           "/srv/www" eq_refl "/srv/www/notes/n.md").
  - vm_compute. reflexivity.
  - vm_compute. discriminate.
Defined.

(** C5 as stated fails: a request for a text file resolves to a path
    without a double dot and still fails with BadRequest, for its
    extension. *)
Lemma bad_request_without_traversal_token :
  resolvePath examples.nested "/srv/www" "" "notes.txt" = Ok "/srv/www/notes.txt" /\
  strings.Contains "/srv/www/notes.txt" ".." = false /\
  getFileContent examples.config examples.nested "notes.txt" "" =
    BadRequest "Unsupported file type: .txt".
Proof. repeat split; vm_compute; reflexivity. Qed.

(** C5, amended: once a candidate path has resolved, the request is
    rejected by the traversal check, with BadRequest "Invalid file path",
    if and only if the string of the resolved path contains "..". The check
    reads the string only: a hint that climbs out of the root is cleaned
    away by the join and the file outside the root is served, while a file
    of the root whose name contains two dots is refused. *)
Theorem traversal_check_is_textual :
  (forall config fs requestedFile requestedDir baseDir p,
     Getwd fs = inr baseDir ->
     resolvePath fs baseDir requestedDir requestedFile = Ok p ->
     (getFileContent config fs requestedFile requestedDir
        = BadRequest "Invalid file path"
      <-> strings.Contains p ".." = true)) /\
  (forall fs unmarshal requestedFile jsonPath requestedDir baseDir p,
     requestedFile <> "" -> jsonPath <> "" ->
     Getwd fs = inr baseDir ->
     resolvePath fs baseDir requestedDir requestedFile = Ok p ->
     (queryJSON fs unmarshal requestedFile jsonPath requestedDir
        = BadRequest "Invalid file path"
      <-> strings.Contains p ".." = true)) /\
  (resolvePath examples.nested "/srv/www" "../secret" "key.json"
     = Ok "/srv/secret/key.json" /\
   getFileContent examples.config examples.nested "key.json" "../secret"
     = Ok (Some "application/json", "{}")) /\
  (resolvePath examples.nested "/srv/www" "" "a..b.md" = Ok "/srv/www/a..b.md" /\
   getFileContent examples.config examples.nested "a..b.md" ""
     = BadRequest "Invalid file path").
Proof.
  split; [|split; [|split; split; vm_compute; reflexivity]].
  - intros config fs requestedFile requestedDir baseDir p Hwd Hres.
    by apply content_rejected_as_invalid_path with (baseDir := baseDir).
  - intros fs unmarshal requestedFile jsonPath requestedDir baseDir p Hf Hp Hwd Hres.
    by apply query_rejected_as_invalid_path with (baseDir := baseDir).
Qed.

Lemma traversal_check_is_textual_witness :
  (getFileContent examples.config examples.nested "a..b.md" ""
     = BadRequest "Invalid file path"
   <-> strings.Contains "/srv/www/a..b.md" ".." = true) /\
  (queryJSON examples.nested (fun _ => inr JNull) "a..b.md" "k" ""
     = BadRequest "Invalid file path"
   <-> strings.Contains "/srv/www/a..b.md" ".." = true).
Proof.
  split.
  - apply (proj1 traversal_check_is_textual examples.config examples.nested
             "a..b.md" "" "/srv/www" "/srv/www/a..b.md");
      vm_compute; reflexivity.
  - apply (proj1 (proj2 traversal_check_is_textual) examples.nested
             (fun _ => inr JNull) "a..b.md" "k" "" "/srv/www" "/srv/www/a..b.md");
      [discriminate | discriminate | vm_compute; reflexivity
      | vm_compute; reflexivity].
Defined.

(** ** Directory listing *)

Section Order.

Lemma nameLe_trans a : forall b c, nameLe a b -> nameLe b c -> nameLe a c.
Proof.
  unfold nameLe.
  induction a as [|x a IH]; intros [|y b] [|z c]; simpl; try congruence.
  destruct (Ascii.compare x y) eqn:Exy; [|clear IH|congruence].
  - apply Ascii.compare_eq_iff in Exy as ->.
    destruct (Ascii.compare y z); [apply IH|congruence..].
  - intros _. destruct (Ascii.compare y z) eqn:Eyz; [| |congruence]; intros _.
    + apply Ascii.compare_eq_iff in Eyz as ->. by rewrite Exy.
    + unfold Ascii.compare in *.
      apply N.compare_lt_iff in Exy. apply N.compare_lt_iff in Eyz.
      pose proof (N.lt_trans _ _ _ Exy Eyz) as H.
      apply N.compare_lt_iff in H. by rewrite H.
Qed.

Lemma nameLe_total a b : nameLe a b \/ nameLe b a.
Proof.
  unfold nameLe. rewrite (String.compare_antisym b a).
  destruct (String.compare a b); simpl; auto.
Qed.

(** The comparison given to [sort.Slice] is the order of the
    specification, read the other way round. *)
Lemma notAfter_listedBefore a b :
  sort.notAfter lessFileInfo a b <-> listedBefore a b.
Proof.
  unfold sort.notAfter, lessFileInfo, listedBefore, strings.lt, String.ltb, nameLe.
  rewrite (String.compare_antisym (Name a) (Name b)).
  destruct (IsDir a), (IsDir b), (String.compare (Name b) (Name a));
    simpl; intuition congruence.
Qed.

#[local] Instance listedBefore_total : Total listedBefore.
Proof.
  intros a b. unfold listedBefore.
  destruct (nameLe_total (Name a) (Name b)), (IsDir a), (IsDir b); auto.
Qed.

#[local] Instance listedBefore_trans : Transitive listedBefore.
Proof.
  intros a b c [[? ?]|[? Hab]] [[? ?]|[? Hbc]]; unfold listedBefore.
  - congruence.
  - left. split; congruence.
  - left. split; congruence.
  - right. split; [congruence|]. eapply nameLe_trans; eauto.
Qed.

#[local] Instance notAfter_total : Total (sort.notAfter lessFileInfo).
Proof.
  intros a b. rewrite !notAfter_listedBefore. apply listedBefore_total.
Qed.

Lemma Sorted_weaken {A} (R R' : A -> A -> Prop) l :
  (forall a b, R a b -> R' a b) -> Sorted R l -> Sorted R' l.
Proof.
  intros HR. induction 1 as [|a l _ IH Hhd]; constructor; [exact IH|].
  destruct Hhd; constructor; auto.
Qed.

Lemma Slice_sorted l : StronglySorted listedBefore (sort.Slice lessFileInfo l).
Proof.
  apply Sorted_StronglySorted; [apply _|].
  eapply Sorted_weaken; [|apply Sorted_merge_sort, _].
  intros a b. apply notAfter_listedBefore.
Qed.

Lemma Slice_Permutation {A} (less : A -> A -> bool) l : sort.Slice less l ≡ₚ l.
Proof. apply merge_sort_Permutation. Qed.

End Order.

Section Listing.

Variable config : Config.
Variable fs : FileSystem.

Lemma listFiles_Ok_inv requestedDir files :
  listFiles config fs requestedDir = Ok files ->
  exists baseDir entries,
    Getwd fs = inr baseDir /\
    ReadDir fs (listRoot baseDir requestedDir) = inr entries /\
    files = listDir config fs (listRoot baseDir requestedDir) entries.
Proof.
  unfold listFiles. destruct (Getwd fs) as [|baseDir]; [done|].
  destruct (Stat fs _) as [err|info]; [by destruct (IsNotExist err)|].
  destruct (negb _); [done|].
  destruct (ReadDir fs _) as [|entries] eqn:Eread; [done|].
  intros [= <-]. by exists baseDir, entries.
Qed.

Lemma isAllowedExt_elem ext :
  isAllowedExt config ext = true <-> ext ∈ AllowedExts config.
Proof.
  unfold isAllowedExt. rewrite existsb_exists. split.
  - intros (x & Hin & ->%String.eqb_eq). by apply list_elem_of_In.
  - intros Hin. exists ext.
    split; [by apply list_elem_of_In | apply String.eqb_refl].
Qed.

Lemma hasRelevantFiles_spec dir :
  hasRelevantFiles config fs dir = true <-> shallowScanFinds config fs dir.
Proof.
  unfold hasRelevantFiles, shallowScanFinds. split.
  - destruct (ReadDir fs dir) as [|subEntries]; [done|].
    rewrite existsb_exists. intros (sub & Hin & [Hd Hext]%andb_true_iff).
    exists subEntries, sub. repeat split; try done.
    + by apply list_elem_of_In.
    + by apply negb_true_iff.
    + by apply isAllowedExt_elem.
  - intros (subEntries & sub & -> & Hin & Hd & Hext).
    apply existsb_exists. exists sub. split; [by apply list_elem_of_In|].
    rewrite Hd. by apply isAllowedExt_elem.
Qed.

Lemma elem_of_listDir rootDir entries fi :
  fi ∈ listDir config fs rootDir entries <->
  exists entry, entry ∈ entries /\ listEntry config fs rootDir entry = Some fi.
Proof.
  unfold listDir. rewrite (Slice_Permutation lessFileInfo _).
  apply list_elem_of_omap.
Qed.

Lemma listEntry_Some rootDir entry fi :
  listEntry config fs rootDir entry = Some fi ->
  Name fi = entryName entry /\
  IsDir fi = entryIsDir entry /\
  filepath.Rel rootDir (filepath.Join [rootDir; entryName entry])
    = Some (Path fi) /\
  (entryIsDir entry = true ->
   hasRelevantFiles config fs (filepath.Join [rootDir; entryName entry]) = true).
Proof.
  unfold listEntry.
  destruct (IgnoreHidden config && _); [done|].
  destruct (entryIsDir entry && (_ || _ || _ || _)); [done|].
  destruct (entryInfo entry) as [info|]; [|done].
  destruct (negb (entryIsDir entry) && _); [done|].
  destruct (entryIsDir entry && negb _) eqn:Hrel; [done|].
  destruct (filepath.Rel _ _) as [relPath|]; [|done].
  intros [= <-]. repeat split. intros Hdir. rewrite Hdir in Hrel.
  by apply negb_false_iff in Hrel.
Qed.

Lemma listRoot_IsAbs baseDir requestedDir :
  filepath.IsAbs baseDir = true ->
  filepath.IsAbs (listRoot baseDir requestedDir) = true.
Proof.
  intros Habs. unfold listRoot.
  destruct (decide _); [done|].
  destruct (filepath.IsAbs requestedDir) eqn:E; [done|].
  destruct (IsAbs_inv _ Habs) as [r ->].
  unfold filepath.Join. cbn [filepath.dropEmpty].
  destruct (decide (String "/" r = "")); [done|].
  change (strings.Join [String "/" r; requestedDir] "/")
    with (String "/" (r +:+ String "/" requestedDir)).
  rewrite Clean_rooted by apply IsAbs_rooted. apply IsAbs_rooted.
Qed.

End Listing.

Lemma mixedCase_listing :
  listFiles examples.config examples.mixedCase "" =
    Ok [MkFileInfo "Z.json" "Z.json" false 2 0;
        MkFileInfo "a.md" "a.md" false 1 0;
        MkFileInfo "readme.md" "readme.md" false 1 0].
Proof. vm_compute. reflexivity. Qed.

Lemma nested_root_listing :
  listFiles examples.config examples.nested "" =
    Ok [MkFileInfo "notes" "notes" true 4096 0;
        MkFileInfo "a..b.md" "a..b.md" false 2 0].
Proof. vm_compute. reflexivity. Qed.

(** A concrete listing does not show a directory of the given name. *)
Ltac not_listed :=
  let fi := fresh "fi" in
  let Hfi := fresh "Hfi" in
  let HN := fresh "HN" in
  intros (fi & Hfi & HN & _);
  repeat (apply elem_of_cons in Hfi as [->|Hfi]; [discriminate HN|]);
  by apply elem_of_nil in Hfi.

(** C7. Every listing is ordered with the directories before the files and,
    within each group, by name in ascending case-sensitive lexical order;
    with hidden entries ignored, the directory holding ".hidden.md",
    "readme.md", "Z.json" and "a.md" lists "Z.json", "a.md", "readme.md",
    in this order. *)
Theorem listing_is_sorted :
  (forall config fs requestedDir files,
     listFiles config fs requestedDir = Ok files ->
     StronglySorted listedBefore files) /\
  (IgnoreHidden examples.config = true /\
   ReadDir examples.mixedCase "/srv/www" =
     inr [MkEntry ".hidden.md" false (Some (MkStat false 1 0));
          MkEntry "Z.json" false (Some (MkStat false 2 0));
          MkEntry "a.md" false (Some (MkStat false 1 0));
          MkEntry "readme.md" false (Some (MkStat false 1 0))] /\
   Name <$> listDir examples.config examples.mixedCase "/srv/www"
              [MkEntry ".hidden.md" false (Some (MkStat false 1 0));
               MkEntry "readme.md" false (Some (MkStat false 1 0));
               MkEntry "Z.json" false (Some (MkStat false 2 0));
               MkEntry "a.md" false (Some (MkStat false 1 0))]
     = ["Z.json"; "a.md"; "readme.md"] /\
   listFiles examples.config examples.mixedCase "" =
     Ok [MkFileInfo "Z.json" "Z.json" false 2 0;
         MkFileInfo "a.md" "a.md" false 1 0;
         MkFileInfo "readme.md" "readme.md" false 1 0]).
Proof.
  split.
  - intros config fs requestedDir files
      (baseDir & entries & _ & _ & ->)%listFiles_Ok_inv.
    apply Slice_sorted.
  - repeat split; vm_compute; reflexivity.
Qed.

Lemma listing_is_sorted_witness :
  StronglySorted listedBefore
    [MkFileInfo "Z.json" "Z.json" false 2 0;
     MkFileInfo "a.md" "a.md" false 1 0;
     MkFileInfo "readme.md" "readme.md" false 1 0].
Proof.
  apply (proj1 listing_is_sorted examples.config examples.mixedCase "").
  vm_compute. reflexivity.
Defined.

(** C6 as stated fails: the subdirectory "dist" holds "readme.md", so a
    shallow scan of it finds a file with an allowed extension, and the
    listing leaves it out, as it does for every build folder. *)
Lemma build_folder_with_documents_is_skipped :
  exists files,
    listFiles examples.config examples.nested "" = Ok files /\
    shallowScanFinds examples.config examples.nested
      (filepath.Join ["/srv/www"; "dist"]) /\
    ~ listsDirectory files "dist".
Proof.
  eexists. split; [apply nested_root_listing|]. split.
  - apply hasRelevantFiles_spec. vm_compute. reflexivity.
  - not_listed.
Qed.

(** C6, amended: an immediate subdirectory that is not skipped as hidden or
    as a build or dependency folder ("node_modules", "build", "dist", or a
    path containing "node_modules"), and whose file information can be read,
    is included in the listing if and only if a shallow one-level scan of it
    finds at least one file, not a directory, whose lower-cased extension is
    allowed; a subdirectory holding only further subdirectories is left out
    even when a file with an allowed extension lies two levels down. *)
Theorem subdirectory_listed_iff_shallow_scan :
  (forall config fs rootDir entries entry,
     filepath.IsAbs rootDir = true ->
     validName (entryName entry) ->
     entry ∈ entries ->
     entryIsDir entry = true ->
     IgnoreHidden config && strings.HasPrefix (entryName entry) "." = false ->
     entryName entry ∉ ["node_modules"; "build"; "dist"] ->
     strings.Contains (filepath.Join [rootDir; entryName entry]) "node_modules"
       = false ->
     is_Some (entryInfo entry) ->
     (listsDirectory (listDir config fs rootDir entries) (entryName entry) <->
      shallowScanFinds config fs (filepath.Join [rootDir; entryName entry]))) /\
  (exists files,
     listFiles examples.config examples.nested "" = Ok files /\
     statsAsFile examples.nested "/srv/www/docs/deep/x.md" = true /\
     ~ listsDirectory files "docs").
Proof.
  split.
  - intros config fs rootDir entries entry
      Habs Hname Hin Hdir Hhidden Hskip Hnm [info Hinfo].
    rewrite <- hasRelevantFiles_spec. split.
    + intros (fi & Hfi & HN & HD).
      apply elem_of_listDir in Hfi as (entry' & _ & Hentry').
      apply listEntry_Some in Hentry' as (HN' & HD' & _ & Hrel).
      rewrite <- HN, HN'. apply Hrel. congruence.
    + intros Hrel.
      exists (MkFileInfo (entryName entry) (entryName entry) true
                         (statSize info) (statModTime info)).
      split; [|done]. apply elem_of_listDir. exists entry. split; [done|].
      unfold listEntry. rewrite Hhidden, Hdir, Hnm, Hinfo, Hrel.
      rewrite (Rel_child _ _ Habs Hname).
      rewrite !not_elem_of_cons in Hskip. destruct Hskip as (H1 & H2 & H3 & _).
      apply String.eqb_neq in H1 as ->. apply String.eqb_neq in H2 as ->.
      apply String.eqb_neq in H3 as ->. reflexivity.
  - eexists. split; [apply nested_root_listing|].
    split; [vm_compute; reflexivity | not_listed].
Qed.

Lemma subdirectory_listed_witness :
  listsDirectory
    (listDir examples.config examples.nested "/srv/www"
       [MkEntry "notes" true (Some (MkStat true 4096 0))]) "notes"
  <-> shallowScanFinds examples.config examples.nested
        (filepath.Join ["/srv/www"; "notes"]).
Proof.
  apply (proj1 subdirectory_listed_iff_shallow_scan
           examples.config examples.nested "/srv/www"
           [MkEntry "notes" true (Some (MkStat true 4096 0))]
           (MkEntry "notes" true (Some (MkStat true 4096 0)))).
  - reflexivity.
  - repeat split; discriminate.
  - apply list_elem_of_here.
  - reflexivity.
  - reflexivity.
  - rewrite !not_elem_of_cons.
    repeat split; [discriminate..|apply not_elem_of_nil].
  - vm_compute. reflexivity.
  - eexists. reflexivity.
Defined.

(** * Further properties of the code *)

(** ** The evaluator *)

Section EvaluationLaws.

Lemma evaluate_app_sep doc p q :
  evaluate doc (p +:+ String "." q) = r ← evaluate doc p; evaluate r q.
Proof. unfold evaluate. by rewrite Split_app_sep, evalParts_app. Qed.

Lemma evaluate_plain_key (m : gmap string json) key :
  sepFree "." key -> sepFree "[" key ->
  evaluate (JObject m) key = Ok (mapIndex m key).
Proof.
  intros Hdot Hbr. unfold evaluate. rewrite (Split_sepFree _ _ Hdot).
  cbn [evalParts]. unfold evalPart. rewrite (arrayIndexRegex_no_bracket _ Hbr).
  reflexivity.
Qed.

Lemma evalPart_scalar doc part :
  isContainer doc = false -> exists e, evalPart doc part = Err e.
Proof.
  intros Hdoc. unfold evalPart.
  destruct (arrayIndexRegex part) as [[[objKey idxStr] restPath]|].
  - destruct (decide (objKey <> "")); destruct doc; try done; simpl; eauto.
  - destruct doc; try done; eauto.
Qed.

Lemma digits_sepFree_dot d t :
  allDigits d = true -> sepFree "." t -> sepFree "." (d +:+ t).
Proof.
  intros Hd Ht. induction d as [|c r IH]; [exact Ht|].
  apply andb_true_iff in Hd as [Hc Hr].
  change (String c r +:+ t) with (String c (r +:+ t)).
  apply sepFree_cons. split; [|by apply IH]. intros ->. discriminate Hc.
Qed.

Lemma sepFree_app sep a b : sepFree sep a -> sepFree sep b -> sepFree sep (a +:+ b).
Proof.
  intros Ha Hb. induction a as [|c a IH]; [exact Hb|].
  apply sepFree_cons in Ha as [Hc Ha].
  change (String c a +:+ b) with (String c (a +:+ b)).
  apply sepFree_cons. auto.
Qed.

(** X1. Evaluating a path made of two paths joined by a dot is evaluating
    the first and then the second on its result, errors of the first
    included. *)
Theorem evaluate_composes doc p q :
  evaluate doc (p +:+ "." +:+ q) = r ← evaluate doc p; evaluate r q.
Proof. apply evaluate_app_sep. Qed.

(** X2. A value stored in an object under a key without dot or bracket is
    what the path made of that key returns; a longer path that starts with
    the key continues inside the value; paths made of another such key are
    not affected by the store. *)
Theorem evaluate_inserted_key (m : gmap string json) key v rest :
  sepFree "." key -> sepFree "[" key ->
  evaluate (JObject (<[key := v]> m)) key = Ok v /\
  evaluate (JObject (<[key := v]> m)) (key +:+ "." +:+ rest) = evaluate v rest /\
  (forall other, other <> key -> sepFree "." other -> sepFree "[" other ->
     evaluate (JObject (<[key := v]> m)) other = evaluate (JObject m) other).
Proof.
  intros Hdot Hbr. repeat split.
  - rewrite evaluate_plain_key by done. unfold mapIndex. by rewrite lookup_insert_eq.
  - change (key +:+ "." +:+ rest) with (key +:+ String "." rest).
    rewrite evaluate_app_sep, evaluate_plain_key by done.
    unfold mapIndex. by rewrite lookup_insert_eq.
  - intros other Hne Hd Hb. rewrite !evaluate_plain_key by done.
    unfold mapIndex. by rewrite lookup_insert_ne.
Qed.

Lemma evaluate_inserted_key_witness :
  evaluate (JObject (<["a" := JNumber 1]> ∅)) "a" = Ok (JNumber 1).
Proof.
  apply (proj1 (evaluate_inserted_key ∅ "a" (JNumber 1) "b" eq_refl eq_refl)).
Defined.

(** X3. On a document that is neither an object nor an array (null, a
    boolean, a number, a string) every path fails with BadRequest, the
    empty path included: no path returns the document itself. *)
Theorem evaluate_fails_on_scalar_root doc path :
  isContainer doc = false -> failsWith StatusBadRequest (evaluate doc path).
Proof.
  intros Hdoc. unfold evaluate.
  pose proof (Split_not_nil path ".") as Hne.
  destruct (strings.Split path ".") as [|part rest]; [done|].
  cbn [evalParts]. destruct (evalPart_scalar doc part Hdoc) as [e He].
  rewrite He. eapply failsWith_BadRequest_intro; [reflexivity|].
  eapply evalPart_error_is_BadRequest, He.
Qed.

Lemma evaluate_fails_on_scalar_root_witness :
  failsWith StatusBadRequest (evaluate (JNumber 5) "x").
Proof. apply (evaluate_fails_on_scalar_root (JNumber 5) "x" eq_refl). Defined.

(** X4. Whatever the document and the path, a failure of the evaluation is
    answered with status 400, never 404 or 500. *)
Theorem evaluate_fails_only_with_BadRequest doc path e :
  evaluate doc path = Err e -> errCode e = StatusBadRequest.
Proof. apply evalParts_error_is_BadRequest. Qed.

Lemma evaluate_fails_only_with_BadRequest_witness :
  errCode (HttpError StatusBadRequest (notAnObject "y")) = StatusBadRequest.
Proof.
  apply (evaluate_fails_only_with_BadRequest examples.docA1 "x.y").
  vm_compute. reflexivity.
Defined.

(** X5. An index written with digits whose value fits a 64-bit integer is
    checked against the bounds of the array: the path key[digits] on an
    object holding an array under the key, and the path [digits] on an
    array, return the element at that index when there is one and fail
    with "Array index out of bounds" otherwise. *)
Theorem index_within_int64_is_bounds_checked d arr :
  allDigits d = true -> d <> "" -> fmt.parseDecimal 0 d <= fmt.maxInt64 ->
  (forall (m : gmap string json) key,
     key <> "" -> oneLine key = true -> sepFree "." key ->
     m !! key = Some (JArray arr) ->
     evaluate (JObject m) (key +:+ "[" +:+ d +:+ "]") =
       match arr !! Z.to_nat (fmt.parseDecimal 0 d) with
       | Some v => Ok v
       | None => BadRequest ("Array index out of bounds: "
                             +:+ fmt.Sprint_d (fmt.parseDecimal 0 d))
       end) /\
  evaluate (JArray arr) ("[" +:+ d +:+ "]") =
    match arr !! Z.to_nat (fmt.parseDecimal 0 d) with
    | Some v => Ok v
    | None => BadRequest ("Array index out of bounds: "
                          +:+ fmt.Sprint_d (fmt.parseDecimal 0 d))
    end.
Proof.
  intros Hd Hne Hfit.
  assert (sepFree "." ("[" +:+ d +:+ "]")) as Hdot.
  { change ("[" +:+ d +:+ "]") with (String "[" (d +:+ "]")).
    apply sepFree_cons. split; [done|]. by apply digits_sepFree_dot. }
  split.
  - intros m key Hk Hline Hkdot Hm. unfold evaluate.
    rewrite (Split_sepFree _ _ (sepFree_app _ _ _ Hkdot Hdot)).
    cbn [evalParts].
    rewrite (indexed_segment_within_int64 m key d arr) by done.
    by destruct (arr !! _).
  - unfold evaluate. rewrite (Split_sepFree _ _ Hdot). cbn [evalParts].
    unfold evalPart.
    pose proof (arrayIndexRegex_indexed "" d eq_refl Hd Hne) as Hm.
    change ("" +:+ "[" +:+ d +:+ "]") with ("[" +:+ d +:+ "]") in Hm. rewrite Hm.
    destruct (decide ("" <> "")); [done|]. cbn [mbind Result_bind]. cbv zeta.
    rewrite Sscanf_d_fits by done.
    rewrite guarded_index by (apply parseDecimal_nonneg; [done|lia]).
    destruct (arr !! _); reflexivity.
Qed.

Lemma index_within_int64_witness :
  evaluate (JObject {[ "b" := JArray [JNumber 1; JNumber 2; JNumber 3] ]}) "b[2]"
    = Ok (JNumber 3) /\
  evaluate (JArray [JNumber 1; JNumber 2; JNumber 3]) "[2]" = Ok (JNumber 3).
Proof.
  split.
  - apply (proj1 (index_within_int64_is_bounds_checked "2"
                    [JNumber 1; JNumber 2; JNumber 3] eq_refl
                    ltac:(discriminate) ltac:(vm_compute; discriminate))
                 {[ "b" := JArray [JNumber 1; JNumber 2; JNumber 3] ]} "b");
      [discriminate | reflexivity | reflexivity | vm_compute; reflexivity].
  - apply (proj2 (index_within_int64_is_bounds_checked "2"
                    [JNumber 1; JNumber 2; JNumber 3] eq_refl
                    ltac:(discriminate) ltac:(vm_compute; discriminate))).
Defined.

End EvaluationLaws.

(** ** The resolver and the two file handlers *)

Section ResolverLaws.

Lemma string_app_assoc (a b c : string) : (a +:+ b) +:+ c = a +:+ (b +:+ c).
Proof.
  induction a as [|x a IH]; [reflexivity|].
  change (String x ((a +:+ b) +:+ c) = String x (a +:+ (b +:+ c))).
  by rewrite IH.
Qed.

Lemma prefix_dots_cons c s :
  String.prefix ".." (String c s)
  = bool_decide (c = "."%char) && String.prefix "." s.
Proof.
  cbn -[ascii_dec]. destruct (ascii_dec "." c) as [<-|Hne].
  - by rewrite bool_decide_eq_true_2.
  - rewrite bool_decide_eq_false_2 by congruence. done.
Qed.

Lemma prefix_dot_app a b :
  String.prefix "." (a +:+ String "/" b) = String.prefix "." a.
Proof.
  destruct a as [|c a]; [reflexivity|].
  change (String c a +:+ String "/" b) with (String c (a +:+ String "/" b)).
  by rewrite !prefix_one.
Qed.

(** Two dots in a row do not straddle a separator. *)
Lemma Contains_dots_app a b :
  strings.Contains (a +:+ String "/" b) ".." =
  strings.Contains a ".." || strings.Contains b "..".
Proof.
  induction a as [|c a IH].
  - change ("" +:+ String "/" b) with (String "/" b).
    cbn [strings.Contains]. by rewrite prefix_dots_cons.
  - change (String c a +:+ String "/" b) with (String c (a +:+ String "/" b)).
    cbn [strings.Contains]. rewrite IH, !prefix_dots_cons, prefix_dot_app.
    by rewrite orb_assoc.
Qed.

Lemma Contains_dots_Join st :
  strings.Contains (strings.Join st "/") ".." = true <->
  Exists (fun e => strings.Contains e ".." = true) st.
Proof.
  induction st as [|e st IH].
  - split; [discriminate | by intros ?%Exists_nil].
  - destruct st as [|e' st].
    + cbn [strings.Join]. rewrite Exists_cons, Exists_nil. tauto.
    + change (strings.Join (e :: e' :: st) "/")
        with (e +:+ String "/" (strings.Join (e' :: st) "/")).
      rewrite Contains_dots_app, orb_true_iff, IH, (Exists_cons _ e). tauto.
Qed.

Lemma Contains_dots_rooted x :
  strings.Contains (String "/" x) ".." = strings.Contains x "..".
Proof. cbn [strings.Contains]. by rewrite prefix_dots_cons. Qed.

Lemma strings_Join_abs b rest :
  filepath.IsAbs b = true -> filepath.IsAbs (strings.Join (b :: rest) "/") = true.
Proof. intros [r ->]%IsAbs_inv. destruct rest; apply IsAbs_rooted. Qed.

Lemma Join_abs b rest :
  filepath.IsAbs b = true ->
  filepath.Join (b :: rest) =
  String "/" (strings.Join
                (filepath.cleanElements (strings.Join (b :: rest) "/")) "/").
Proof.
  intros Habs. unfold filepath.Join. cbn [filepath.dropEmpty].
  destruct (decide (b = "")) as [->|]; [done|].
  by rewrite Clean_rooted by by apply strings_Join_abs.
Qed.

Lemma Join_abs_clean b rest :
  filepath.IsAbs b = true -> cleanAbsolute (filepath.Join (b :: rest)).
Proof.
  intros Habs. eexists. split; [by apply Join_abs|].
  by apply cleanElements_rooted_clean, strings_Join_abs.
Qed.

Lemma filePaths_clean fs baseDir requestedDir requestedFile :
  filepath.IsAbs baseDir = true ->
  Forall cleanAbsolute (filePaths fs baseDir requestedDir requestedFile).
Proof.
  intros Habs. rewrite filePaths_groups. repeat apply Forall_app_2.
  - destruct (decide _); repeat constructor. by apply Join_abs_clean.
  - repeat constructor. by apply Join_abs_clean.
  - destruct (strings.Contains _ _); [constructor|].
    apply Forall_fmap, Forall_forall. intros D _. by apply Join_abs_clean.
Qed.

Lemma resolvePath_in_filePaths fs baseDir requestedDir requestedFile p :
  resolvePath fs baseDir requestedDir requestedFile = Ok p ->
  p ∈ filePaths fs baseDir requestedDir requestedFile.
Proof.
  rewrite resolvePath_without_retry.
  unfold resolveByCandidateLoop. rewrite tryPaths_find.
  destruct (List.find _ _) as [q|] eqn:Hfind; simpl; [|done].
  destruct (decide (q = "")); [done|]. intros [= ->].
  by apply find_Some_true in Hfind as [_ ?].
Qed.

(** X6. With an absolute working directory, a resolved path is rooted and
    clean: no element of it is empty, a dot or a double dot, whatever the
    hint and the name contain. The traversal check therefore fires exactly
    when a single element of the path has two dots in a row inside its
    name, never for a step to the parent directory. *)
Theorem resolved_path_is_clean fs baseDir requestedDir requestedFile p :
  filepath.IsAbs baseDir = true ->
  resolvePath fs baseDir requestedDir requestedFile = Ok p ->
  filepath.IsAbs p = true /\
  filepath.Clean p = p /\
  Forall cleanElement (filepath.cleanElements p) /\
  (strings.Contains p ".." = true <->
   Exists (fun e => strings.Contains e ".." = true) (filepath.cleanElements p)).
Proof.
  intros Habs Hres. apply resolvePath_in_filePaths in Hres.
  pose proof (filePaths_clean fs baseDir requestedDir requestedFile Habs) as Hall.
  rewrite Forall_forall in Hall. destruct (Hall _ Hres) as (st & -> & Hst).
  rewrite cleanElements_of_clean by done.
  repeat split; try done.
  - apply IsAbs_rooted.
  - rewrite Clean_rooted by apply IsAbs_rooted.
    by rewrite cleanElements_of_clean.
  - rewrite Contains_dots_rooted. by apply Contains_dots_Join.
  - rewrite Contains_dots_rooted. by apply Contains_dots_Join.
Qed.

Lemma resolved_path_is_clean_witness :
  filepath.Clean "/srv/secret/key.json" = "/srv/secret/key.json".
Proof.
  apply (resolved_path_is_clean examples.nested "/srv/www" "../secret" "key.json"
           "/srv/secret/key.json");
    vm_compute; reflexivity.
Defined.

(** X7. A successful content response carries the bytes of one of the
    candidate paths, unchanged: a path that the status check showed as an
    existing non-directory, without "..", and with an allowed lower-cased
    extension. With the extensions of [main] the content type is
    application/json for ".json" and text/plain otherwise. *)
Theorem content_is_served_verbatim
    config fs requestedFile requestedDir contentType data :
  getFileContent config fs requestedFile requestedDir = Ok (contentType, data) ->
  exists baseDir p,
    Getwd fs = inr baseDir /\
    p ∈ filePaths fs baseDir requestedDir requestedFile /\
    statsAsFile fs p = true /\
    strings.Contains p ".." = false /\
    strings.ToLower (filepath.Ext p) ∈ AllowedExts config /\
    ReadFile fs p = inr data /\
    (AllowedExts config = [".md"; ".json"] ->
     contentType = Some (if decide (strings.ToLower (filepath.Ext p) = ".json")
                         then "application/json" else "text/plain")).
Proof.
  intros Hok. destruct (Getwd fs) as [err|baseDir] eqn:Hwd.
  { unfold getFileContent in Hok. by rewrite Hwd in Hok. }
  destruct (resolvePath fs baseDir requestedDir requestedFile) as [p|e] eqn:Hres.
  2:{ unfold getFileContent in Hok. by rewrite Hwd, Hres in Hok. }
  rewrite (getFileContent_after_resolution fs _ _ _ Hwd p Hres) in Hok.
  exists baseDir, p. split; [done|].
  split; [by eapply resolvePath_in_filePaths|].
  split; [by eapply resolvePath_Ok_stats|].
  destruct (strings.Contains p ".."); [done|]. split; [done|].
  cbv zeta in Hok.
  destruct (isAllowedExt config _) eqn:Hext; [|done]. cbn [negb] in Hok.
  apply isAllowedExt_elem in Hext. split; [done|].
  destruct (ReadFile fs p) as [|data']; [done|].
  injection Hok as <- <-. split; [done|].
  intros Hcfg. rewrite Hcfg in Hext.
  destruct (decide (strings.ToLower (filepath.Ext p) = ".json")) as [->|Hne];
    [done|].
  apply elem_of_cons in Hext as [Hmd|Hext].
  { rewrite Hmd. reflexivity. }
  apply elem_of_cons in Hext as [Hjs|Hext]; [done|]. by apply elem_of_nil in Hext.
Qed.

Lemma content_is_served_verbatim_witness :
  exists baseDir p,
    Getwd samples.site = inr baseDir /\
    p ∈ filePaths samples.site baseDir "data" "notes.md" /\
    statsAsFile samples.site p = true /\
    strings.Contains p ".." = false /\
    strings.ToLower (filepath.Ext p) ∈ AllowedExts examples.config /\
    ReadFile samples.site p = inr "notes" /\
    (AllowedExts examples.config = [".md"; ".json"] ->
     Some "text/plain" =
       Some (if decide (strings.ToLower (filepath.Ext p) = ".json")
             then "application/json" else "text/plain")).
Proof.
  apply (content_is_served_verbatim examples.config samples.site
           "notes.md" "data" (Some "text/plain") "notes").
  vm_compute. reflexivity.
Defined.

(** X8. A successful query answers from the very bytes the content endpoint
    serves for the same file and directory: the content request succeeds
    with type application/json, its body decodes, and the result is the
    evaluation of the path on the decoded document. *)
Theorem query_reads_what_content_serves
    config fs unmarshal requestedFile jsonPath requestedDir v :
  ".json" ∈ AllowedExts config ->
  queryJSON fs unmarshal requestedFile jsonPath requestedDir = Ok v ->
  exists data jsonData,
    getFileContent config fs requestedFile requestedDir
      = Ok (Some "application/json", data) /\
    unmarshal data = inr jsonData /\
    evaluate jsonData jsonPath = Ok v.
Proof.
  intros Hjson Hok. unfold queryJSON in Hok.
  destruct (decide (requestedFile = "" \/ jsonPath = "")) as [|Hpres]; [done|].
  destruct (Getwd fs) as [err|baseDir] eqn:Hwd; [done|].
  destruct (resolvePath fs baseDir requestedDir requestedFile) as [p|e] eqn:Hres;
    [|done].
  assert (queryJSON fs unmarshal requestedFile jsonPath requestedDir = Ok v) as Hq.
  { unfold queryJSON. destruct (decide _); [done|]. by rewrite Hwd, Hres. }
  clear Hok.
  rewrite (queryJSON_after_resolution fs _ _ _ Hwd p Hres) in Hq by tauto.
  rewrite (getFileContent_after_resolution fs _ _ _ Hwd p Hres).
  destruct (strings.Contains p ".."); [done|].
  destruct (decide (strings.ToLower (filepath.Ext p) <> ".json"))
    as [|Hext%dec_stable]; [done|].
  destruct (ReadFile fs p) as [|data]; [done|].
  destruct (unmarshal data) as [|jsonData] eqn:Hun; [done|].
  exists data, jsonData. cbv zeta. rewrite Hext.
  apply isAllowedExt_elem in Hjson as ->. done.
Qed.

Lemma query_reads_what_content_serves_witness :
  exists data jsonData,
    getFileContent examples.config samples.site "list.json" "data"
      = Ok (Some "application/json", data) /\
    samples.unmarshal data = inr jsonData /\
    evaluate jsonData "[1]" = Ok (JNumber 2).
Proof.
  apply (query_reads_what_content_serves examples.config samples.site
           samples.unmarshal "list.json" "[1]" "data" (JNumber 2)).
  - apply list_elem_of_In. vm_compute. auto.
  - vm_compute. reflexivity.
Defined.

End ResolverLaws.

(** ** The listing, and the listing with the resolver *)

(** The entries read in a concrete directory carry valid names. *)
Ltac valid_names :=
  let entries := fresh "entries" in
  let H := fresh "H" in
  intros entries H; vm_compute in H; injection H as <-;
  repeat (apply Forall_cons; split;
          [unfold validName; cbn [entryName];
           repeat split; (discriminate || reflexivity)|]);
  constructor.

Section ListingLaws.

Lemma cleanElements_Clean path :
  filepath.IsAbs path = true ->
  filepath.cleanElements (filepath.Clean path) = filepath.cleanElements path.
Proof.
  intros Habs. rewrite (Clean_rooted _ Habs).
  by apply cleanElements_of_clean, cleanElements_rooted_clean.
Qed.

Lemma IsAbs_app a b : filepath.IsAbs a = true -> filepath.IsAbs (a +:+ b) = true.
Proof. intros [r ->]%IsAbs_inv. apply IsAbs_rooted. Qed.

Lemma IsAbs_Clean path :
  filepath.IsAbs path = true -> filepath.IsAbs (filepath.Clean path) = true.
Proof. intros Habs. rewrite (Clean_rooted _ Habs). apply IsAbs_rooted. Qed.

Lemma Join_pair_abs b d :
  filepath.IsAbs b = true ->
  filepath.Join [b; d] = filepath.Clean (b +:+ String "/" d).
Proof.
  intros [r ->]%IsAbs_inv. unfold filepath.Join. cbn [filepath.dropEmpty].
  by destruct (decide (String "/" r = "")).
Qed.

(** Joining in two steps or in one gives the same path. *)
Lemma Join_nested b d n :
  filepath.IsAbs b = true -> validName n ->
  filepath.Join [b; d; n] = filepath.Join [filepath.Join [b; d]; n].
Proof.
  intros Habs Hn.
  rewrite (Join_pair_abs b d Habs).
  rewrite (Join_child (filepath.Clean _) n)
    by (try apply IsAbs_Clean, IsAbs_app; done).
  rewrite cleanElements_Clean by by apply IsAbs_app.
  rewrite <- cleanElements_child by (try apply IsAbs_app; done).
  rewrite (Join_abs b [d; n] Habs).
  change (strings.Join [b; d; n] "/") with (b +:+ String "/" (d +:+ String "/" n)).
  do 3 f_equal.
  change (String "/" (d +:+ String "/" n)) with (String "/" d +:+ String "/" n).
  by rewrite <- string_app_assoc.
Qed.

Lemma cleanElements_dot b :
  filepath.IsAbs b = true ->
  filepath.cleanElements (b +:+ String "/" ".") = filepath.cleanElements b.
Proof.
  intros Habs. unfold filepath.cleanElements.
  rewrite (IsAbs_app _ _ Habs), Habs, elements_app_sep.
  change (filepath.elements ".") with (@nil string). by rewrite app_nil_r.
Qed.

(** The hinted candidate is the path the listing builds for the name. *)
Lemma Join_listRoot baseDir requestedDir n :
  filepath.IsAbs baseDir = true -> filepath.IsAbs requestedDir = false ->
  validName n -> requestedDir <> "" ->
  filepath.Join [baseDir; requestedDir; n] =
  filepath.Join [listRoot baseDir requestedDir; n].
Proof.
  intros Habs Hrel Hn Hd. unfold listRoot.
  destruct (decide (requestedDir = "" \/ requestedDir = ".")) as [[H0| ->]|_];
    [done| |].
  - rewrite Join_nested, (Join_pair_abs baseDir ".") by done.
    rewrite !Join_child by (try apply IsAbs_Clean, IsAbs_app; done).
    by rewrite cleanElements_Clean, cleanElements_dot
      by (try apply IsAbs_app; done).
  - rewrite Hrel. by apply Join_nested.
Qed.

(** The first candidate that passes the status check is the answer. *)
Lemma resolvePath_first_candidate fs baseDir requestedDir requestedFile :
  baseDir <> "" ->
  statsAsFile fs (firstCandidate baseDir requestedDir requestedFile) = true ->
  resolvePath fs baseDir requestedDir requestedFile
  = Ok (firstCandidate baseDir requestedDir requestedFile).
Proof.
  intros Hb Hstat. rewrite resolvePath_without_retry.
  unfold resolveByCandidateLoop.
  pose proof (filePaths_nonempty fs baseDir requestedDir requestedFile
                (or_introl Hb)) as Hne.
  rewrite filePaths_groups in *. unfold firstCandidate in *.
  destruct (decide (requestedDir = "")); cbn [app tryPaths] in *;
    rewrite Hstat; inversion_clear Hne as [|? ? Hc _];
    by destruct (decide _).
Qed.

Lemma resolve_name_in_listed_directory fs baseDir requestedDir name :
  filepath.IsAbs baseDir = true ->
  filepath.IsAbs requestedDir = false ->
  validName name ->
  statsAsFile fs (filepath.Join [listRoot baseDir requestedDir; name]) = true ->
  resolvePath fs baseDir requestedDir name
  = Ok (filepath.Join [listRoot baseDir requestedDir; name]).
Proof.
  intros Habs Hrel Hn Hstat.
  assert (firstCandidate baseDir requestedDir name
          = filepath.Join [listRoot baseDir requestedDir; name]) as Hfirst.
  { unfold firstCandidate. destruct (decide (requestedDir = "")) as [->|Hd].
    - reflexivity.
    - by apply Join_listRoot. }
  rewrite <- Hfirst in *. apply resolvePath_first_candidate; [|done].
  intros ->. discriminate Habs.
Qed.

Lemma skippedFolder_test rootDir name :
  String.eqb name "node_modules" ||
  strings.Contains (filepath.Join [rootDir; name]) "node_modules" ||
  String.eqb name "build" || String.eqb name "dist" = false
  <-> ~ skippedFolder rootDir name.
Proof.
  unfold skippedFolder. rewrite !orb_false_iff, !String.eqb_neq.
  rewrite !elem_of_cons, elem_of_nil.
  destruct (strings.Contains _ _); intuition congruence.
Qed.

(** Everything the loop body decides about one entry. *)
Lemma listEntry_Some_iff config fs rootDir entry fi :
  listEntry config fs rootDir entry = Some fi <->
  (IgnoreHidden config && strings.HasPrefix (entryName entry) "." = false) /\
  (entryIsDir entry = true -> ~ skippedFolder rootDir (entryName entry)) /\
  (entryIsDir entry = true ->
   shallowScanFinds config fs (filepath.Join [rootDir; entryName entry])) /\
  (entryIsDir entry = false ->
   strings.ToLower (filepath.Ext (entryName entry)) ∈ AllowedExts config) /\
  exists info relPath,
    entryInfo entry = Some info /\
    filepath.Rel rootDir (filepath.Join [rootDir; entryName entry])
      = Some relPath /\
    fi = MkFileInfo (entryName entry) relPath (entryIsDir entry)
                    (statSize info) (statModTime info).
Proof.
  unfold listEntry. rewrite <- hasRelevantFiles_spec, <- isAllowedExt_elem.
  rewrite <- skippedFolder_test.
  destruct (IgnoreHidden config && _); [split; [done|]; by intros [? _]|].
  destruct (entryIsDir entry); cbn [andb negb].
  - destruct (_ || _ || _ || _);
      [split; [done|]; intros (_ & H & _); by specialize (H eq_refl)|].
    destruct (entryInfo entry) as [info|];
      [|split; [done|]; by intros (_ & _ & _ & _ & ? & ? & ? & _)].
    destruct (hasRelevantFiles _ _ _); cbn [negb];
      [|split; [done|]; intros (_ & _ & H & _); by specialize (H eq_refl)].
    destruct (filepath.Rel _ _) as [relPath|];
      [|split; [done|]; by intros (_ & _ & _ & _ & ? & ? & _ & ? & _)].
    split.
    + intros [= <-]. repeat split; try done. by exists info, relPath.
    + intros (_ & _ & _ & _ & info' & rel' & [= <-] & [= <-] & ->). done.
  - destruct (entryInfo entry) as [info|];
      [|split; [done|]; by intros (_ & _ & _ & _ & ? & ? & ? & _)].
    destruct (isAllowedExt _ _); cbn [negb];
      [|split; [done|]; intros (_ & _ & _ & H & _); by specialize (H eq_refl)].
    destruct (filepath.Rel _ _) as [relPath|];
      [|split; [done|]; by intros (_ & _ & _ & _ & ? & ? & _ & ? & _)].
    split.
    + intros [= <-]. repeat split; try done. by exists info, relPath.
    + intros (_ & _ & _ & _ & info' & rel' & [= <-] & [= <-] & ->). done.
Qed.

Lemma listed_entry_inv config fs rootDir entries fi :
  filepath.IsAbs rootDir = true ->
  Forall (fun entry => validName (entryName entry)) entries ->
  fi ∈ listDir config fs rootDir entries ->
  validName (Name fi) /\ Path fi = Name fi.
Proof.
  intros Habs Hvalid Hfi.
  apply elem_of_listDir in Hfi as (entry & Hin & Hentry).
  apply listEntry_Some in Hentry as (HN & _ & HRel & _).
  rewrite Forall_forall in Hvalid. specialize (Hvalid _ Hin).
  rewrite (Rel_child _ _ Habs Hvalid) in HRel. injection HRel as HP.
  rewrite HN. split; [done|]. congruence.
Qed.

Lemma listed_file_inv config fs requestedDir files fi baseDir :
  Getwd fs = inr baseDir ->
  filepath.IsAbs baseDir = true ->
  (forall entries,
     ReadDir fs (listRoot baseDir requestedDir) = inr entries ->
     Forall (fun entry => validName (entryName entry)) entries) ->
  listFiles config fs requestedDir = Ok files ->
  fi ∈ files ->
  validName (Name fi) /\ Path fi = Name fi /\
  (IsDir fi = false ->
   strings.ToLower (filepath.Ext (Name fi)) ∈ AllowedExts config).
Proof.
  intros Hwd Habs Hnames Hfiles Hfi.
  apply listFiles_Ok_inv in Hfiles as (baseDir' & entries & Hwd' & Hread & ->).
  rewrite Hwd in Hwd'. injection Hwd' as <-.
  destruct (listed_entry_inv config fs _ entries fi
              (listRoot_IsAbs baseDir requestedDir Habs) (Hnames _ Hread) Hfi)
    as [Hn HP].
  repeat split; try done; try apply Hn.
  apply elem_of_listDir in Hfi as (entry & Hin & Hentry).
  apply listEntry_Some_iff in Hentry
    as (_ & _ & _ & Hext & info & relPath & _ & _ & ->).
  cbn [Name IsDir]. exact Hext.
Qed.

(** X9. Listing and resolving agree: for a relative directory parameter,
    asking the resolver for the relative path of a listed entry with the
    same directory as the hint gives the path the listing built for that
    entry, as soon as a status check shows it as a file. *)
Theorem listed_file_resolves_in_its_directory
    config fs baseDir requestedDir files fi :
  Getwd fs = inr baseDir ->
  filepath.IsAbs baseDir = true ->
  filepath.IsAbs requestedDir = false ->
  (forall entries,
     ReadDir fs (listRoot baseDir requestedDir) = inr entries ->
     Forall (fun entry => validName (entryName entry)) entries) ->
  listFiles config fs requestedDir = Ok files ->
  fi ∈ files ->
  statsAsFile fs (filepath.Join [listRoot baseDir requestedDir; Name fi]) = true ->
  resolvePath fs baseDir requestedDir (Path fi)
  = Ok (filepath.Join [listRoot baseDir requestedDir; Name fi]).
Proof.
  intros Hwd Habs Hrel Hnames Hfiles Hfi Hstat.
  destruct (listed_file_inv config fs requestedDir files fi baseDir
              Hwd Habs Hnames Hfiles Hfi) as (Hn & -> & _).
  by apply resolve_name_in_listed_directory.
Qed.

Lemma listed_file_resolves_witness :
  resolvePath samples.site "/srv/www" "data" "notes.md"
  = Ok (filepath.Join [listRoot "/srv/www" "data"; "notes.md"]).
Proof.
  apply (listed_file_resolves_in_its_directory examples.config samples.site
           "/srv/www" "data"
           [MkFileInfo "list.json" "list.json" false 7 0;
            MkFileInfo "notes.md" "notes.md" false 5 0]
           (MkFileInfo "notes.md" "notes.md" false 5 0)).
  - reflexivity.
  - reflexivity.
  - reflexivity.
  - valid_names.
  - vm_compute. reflexivity.
  - apply list_elem_of_further, list_elem_of_here.
  - vm_compute. reflexivity.
Defined.

End ListingLaws.

(** ** What the listing contains, and in which order *)

(** X10. Every entry of a listing comes from an entry that [os.ReadDir]
    returned for the listed directory, with its name, kind, size and
    modification time; it is not hidden when hidden files are ignored; a
    file has an allowed extension; a directory is none of the skipped
    folders and a shallow scan of it finds a document. *)
Theorem listed_entries_pass_filters config fs requestedDir files fi :
  listFiles config fs requestedDir = Ok files ->
  fi ∈ files ->
  exists baseDir entries entry info,
    Getwd fs = inr baseDir /\
    ReadDir fs (listRoot baseDir requestedDir) = inr entries /\
    entry ∈ entries /\
    entryInfo entry = Some info /\
    Name fi = entryName entry /\
    IsDir fi = entryIsDir entry /\
    Size fi = statSize info /\
    ModTime fi = statModTime info /\
    (IgnoreHidden config = true -> strings.HasPrefix (Name fi) "." = false) /\
    (IsDir fi = false ->
     strings.ToLower (filepath.Ext (Name fi)) ∈ AllowedExts config) /\
    (IsDir fi = true ->
     ~ skippedFolder (listRoot baseDir requestedDir) (Name fi) /\
     shallowScanFinds config fs
       (filepath.Join [listRoot baseDir requestedDir; Name fi])).
Proof.
  intros (baseDir & entries & Hwd & Hread & ->)%listFiles_Ok_inv Hfi.
  apply elem_of_listDir in Hfi as (entry & Hin & Hentry).
  apply listEntry_Some_iff in Hentry
    as (Hhid & Hskip & Hscan & Hext & info & relPath & Hinfo & _ & ->).
  exists baseDir, entries, entry, info. cbn [Name IsDir Size ModTime].
  repeat split; try done.
  - intros Hcfg. by rewrite Hcfg in Hhid.
  - by apply Hskip.
  - by apply Hscan.
Qed.

Lemma listed_entries_pass_filters_witness :
  let fi := MkFileInfo "notes" "notes" true 4096 0 in
  exists baseDir entries entry info,
    Getwd examples.nested = inr baseDir /\
    ReadDir examples.nested (listRoot baseDir "") = inr entries /\
    entry ∈ entries /\
    entryInfo entry = Some info /\
    Name fi = entryName entry /\
    IsDir fi = entryIsDir entry /\
    Size fi = statSize info /\
    ModTime fi = statModTime info /\
    (IgnoreHidden examples.config = true ->
     strings.HasPrefix (Name fi) "." = false) /\
    (IsDir fi = false ->
     strings.ToLower (filepath.Ext (Name fi)) ∈ AllowedExts examples.config) /\
    (IsDir fi = true ->
     ~ skippedFolder (listRoot baseDir "") (Name fi) /\
     shallowScanFinds examples.config examples.nested
       (filepath.Join [listRoot baseDir ""; Name fi])).
Proof.
  apply (listed_entries_pass_filters examples.config examples.nested ""
           [MkFileInfo "notes" "notes" true 4096 0;
            MkFileInfo "a..b.md" "a..b.md" false 2 0]).
  - vm_compute. reflexivity.
  - apply list_elem_of_here.
Defined.

(** X11. A file among the entries read, with readable file information, is
    listed exactly when it is not hidden (hidden files being ignored) and
    its lower-cased extension is allowed. *)
Theorem file_listed_iff_allowed config fs rootDir entries entry :
  filepath.IsAbs rootDir = true ->
  validName (entryName entry) ->
  entry ∈ entries ->
  entryIsDir entry = false ->
  is_Some (entryInfo entry) ->
  ((exists fi, fi ∈ listDir config fs rootDir entries /\
               Name fi = entryName entry /\ IsDir fi = false) <->
   (IgnoreHidden config && strings.HasPrefix (entryName entry) "." = false /\
    strings.ToLower (filepath.Ext (entryName entry)) ∈ AllowedExts config)).
Proof.
  intros Habs Hname Hin Hfile [info Hinfo]. split.
  - intros (fi & Hfi & HN & HD).
    apply elem_of_listDir in Hfi as (entry' & _ & Hentry').
    apply listEntry_Some_iff in Hentry'
      as (Hhid & _ & _ & Hext & info' & relPath & _ & _ & ->).
    cbn [Name IsDir] in HN, HD. rewrite HN in Hhid, Hext. auto.
  - intros [Hhid Hext].
    exists (MkFileInfo (entryName entry) (entryName entry) false
                       (statSize info) (statModTime info)).
    split; [|done]. apply elem_of_listDir. exists entry. split; [done|].
    apply listEntry_Some_iff. rewrite Hfile. repeat split; try done.
    exists info, (entryName entry). by rewrite (Rel_child _ _ Habs Hname).
Qed.

Lemma file_listed_iff_allowed_witness :
  let entry := MkEntry "NOTES.MD" false (Some (MkStat false 5 0)) in
  (exists fi,
     fi ∈ listDir examples.config samples.site "/srv/www/data"
            (entry :: samples.dataEntries) /\
     Name fi = entryName entry /\ IsDir fi = false) <->
  (IgnoreHidden examples.config && strings.HasPrefix (entryName entry) "."
   = false /\
   strings.ToLower (filepath.Ext (entryName entry))
   ∈ AllowedExts examples.config).
Proof.
  apply (file_listed_iff_allowed examples.config samples.site "/srv/www/data"
           (MkEntry "NOTES.MD" false (Some (MkStat false 5 0))
            :: samples.dataEntries)
           (MkEntry "NOTES.MD" false (Some (MkStat false 5 0)))).
  - reflexivity.
  - repeat split; discriminate.
  - apply list_elem_of_here.
  - reflexivity.
  - eexists. reflexivity.
Defined.

Lemma omap_listEntry_names config fs rootDir entries :
  NoDup (entryName <$> entries) ->
  NoDup (Name <$> omap (listEntry config fs rootDir) entries).
Proof.
  induction entries as [|entry entries IH]; [constructor|].
  rewrite fmap_cons, NoDup_cons. intros [Hnotin Hnd]. cbn [omap list_omap].
  destruct (listEntry config fs rootDir entry) as [fi|] eqn:E; [|by apply IH].
  rewrite fmap_cons, NoDup_cons. split; [|by apply IH].
  intros (fi' & HN & Hfi')%list_elem_of_fmap. apply Hnotin.
  apply list_elem_of_omap in Hfi' as (entry' & Hin' & E').
  apply listEntry_Some in E as (HNfi & _). apply listEntry_Some in E' as (HN' & _).
  apply list_elem_of_fmap. exists entry'. split; [congruence|done].
Qed.

Lemma same_name_same_entry (l : list FileInfo) a b :
  NoDup (Name <$> l) -> a ∈ l -> b ∈ l -> Name a = Name b -> a = b.
Proof.
  induction l as [|x l IH]; [by intros _ ?%elem_of_nil|].
  rewrite fmap_cons, NoDup_cons. intros [Hx Hnd] Ha Hb Hab.
  apply elem_of_cons in Ha as [->|Ha]; apply elem_of_cons in Hb as [->|Hb];
    [done| | |by apply IH].
  - exfalso. apply Hx. rewrite Hab. by apply list_elem_of_fmap_2.
  - exfalso. apply Hx. rewrite <- Hab. by apply list_elem_of_fmap_2.
Qed.

Lemma nameLe_antisym a b : nameLe a b -> nameLe b a -> a = b.
Proof.
  unfold nameLe. rewrite (String.compare_antisym a b).
  destruct (String.compare b a) eqn:E; simpl; try done.
  intros _ _. symmetry. by apply String.compare_eq_iff.
Qed.

Lemma listedBefore_same_name a b :
  listedBefore a b -> listedBefore b a -> Name a = Name b.
Proof.
  intros [[? ?]|[? Hab]] [[? ?]|[? Hba]]; try congruence.
  by apply nameLe_antisym.
Qed.

(** With distinct names the order leaves one arrangement only. *)
Lemma sorted_arrangement_unique (l1 l2 : list FileInfo) :
  NoDup (Name <$> l1) -> l1 ≡ₚ l2 ->
  StronglySorted listedBefore l1 -> StronglySorted listedBefore l2 -> l1 = l2.
Proof.
  intros Hnd Hperm H1 H2.
  apply (StronglySorted_unique_strong listedBefore); try done.
  intros a b Ha Hb Hab Hba. rewrite <- Hperm in Hb.
  eapply same_name_same_entry; eauto using listedBefore_same_name.
Qed.

(** X12. The order fixes the answer: when the entries read carry distinct
    names, as the entries of a directory do, any arrangement of the entries
    kept by the filters in which neighbours stand directories first and
    then by name is the list the handler returns. *)
Theorem listing_is_the_sorted_arrangement config fs rootDir entries l :
  NoDup (entryName <$> entries) ->
  l ≡ₚ omap (listEntry config fs rootDir) entries ->
  Sorted listedBefore l ->
  l = listDir config fs rootDir entries.
Proof.
  intros Hnd Hperm Hsorted. symmetry.
  apply sorted_arrangement_unique.
  - unfold listDir. rewrite (Slice_Permutation lessFileInfo _).
    by apply omap_listEntry_names.
  - unfold listDir. by rewrite (Slice_Permutation lessFileInfo _), Hperm.
  - apply Slice_sorted.
  - by apply (@Sorted_StronglySorted _ _ listedBefore_trans).
Qed.

Lemma listing_is_the_sorted_arrangement_witness :
  [MkFileInfo "list.json" "list.json" false 7 0;
   MkFileInfo "notes.md" "notes.md" false 5 0]
  = listDir examples.config samples.site "/srv/www/data"
      (reverse samples.dataEntries).
Proof.
  apply listing_is_the_sorted_arrangement.
  - apply (bool_decide_unpack _). vm_compute. exact I.
  - vm_compute. apply perm_swap.
  - apply Sorted_cons; [apply Sorted_cons; [apply Sorted_nil|apply HdRel_nil]|].
    apply HdRel_cons. right. split; [reflexivity|]. vm_compute. discriminate.
Defined.

(** X13. The listing does not depend on the order in which the directory
    entries are enumerated, and no name occurs twice in it, as long as the
    entries read carry distinct names. *)
Theorem listing_ignores_enumeration_order config fs rootDir entries entries' :
  NoDup (entryName <$> entries) ->
  entries ≡ₚ entries' ->
  listDir config fs rootDir entries = listDir config fs rootDir entries' /\
  NoDup (Name <$> listDir config fs rootDir entries).
Proof.
  intros Hnd Hperm.
  assert (NoDup (Name <$> listDir config fs rootDir entries)) as Hnames.
  { unfold listDir. rewrite (Slice_Permutation lessFileInfo _).
    by apply omap_listEntry_names. }
  split; [|done].
  apply sorted_arrangement_unique; try apply Slice_sorted; [done|].
  unfold listDir. by rewrite !(Slice_Permutation lessFileInfo _), Hperm.
Qed.

Lemma listing_ignores_enumeration_order_witness :
  listDir examples.config samples.site "/srv/www/data" samples.dataEntries
  = listDir examples.config samples.site "/srv/www/data"
      (reverse samples.dataEntries) /\
  NoDup (Name <$> listDir examples.config samples.site "/srv/www/data"
                    samples.dataEntries).
Proof.
  apply listing_ignores_enumeration_order.
  - apply (bool_decide_unpack _). vm_compute. exact I.
  - vm_compute. apply perm_swap.
Defined.

(** ** The explorer: breadcrumbs and navigation *)

Lemma nonEmptyParts_app_sep a b :
  frontend.nonEmptyParts (a +:+ String "/" b) =
  frontend.nonEmptyParts a ++ frontend.nonEmptyParts b.
Proof. unfold frontend.nonEmptyParts. by rewrite Split_app_sep, filter_app. Qed.

Lemma nonEmptyParts_segment part : segment part -> frontend.nonEmptyParts part = [part].
Proof.
  intros [Hne Hfree]. unfold frontend.nonEmptyParts.
  rewrite (Split_sepFree _ _ Hfree). by rewrite filter_cons_True.
Qed.

Lemma nonEmptyParts_are_segments dir : Forall segment (frontend.nonEmptyParts dir).
Proof.
  unfold frontend.nonEmptyParts. apply Forall_forall. intros e He.
  apply list_elem_of_filter in He as [? Hin].
  pose proof (Split_parts_sepFree dir "/") as Hfree.
  rewrite Forall_forall in Hfree. split; auto.
Qed.

Lemma nonEmptyParts_Join ps :
  Forall segment ps -> frontend.nonEmptyParts (strings.Join ps "/") = ps.
Proof.
  intros Hps. destruct (decide (ps = [])) as [->|Hne]; [done|].
  unfold frontend.nonEmptyParts. rewrite Split_Join; [|done|].
  - induction Hps as [|e ps [He _] _ IH]; [done|].
    rewrite filter_cons_True by done.
    f_equal. destruct ps; [done|]. by apply IH.
  - eapply Forall_impl; [exact Hps|]. by intros e [_ ?].
Qed.

Lemma strings_Join_snoc ps part :
  ps <> [] ->
  strings.Join (ps ++ [part]) "/" = strings.Join ps "/" +:+ String "/" part.
Proof.
  induction ps as [|e ps IH]; [done|]. intros _.
  destruct ps as [|e' ps]; [reflexivity|].
  change (strings.Join ((e :: e' :: ps) ++ [part]) "/")
    with (e +:+ String "/" (strings.Join ((e' :: ps) ++ [part]) "/")).
  rewrite IH by done.
  change (strings.Join (e :: e' :: ps) "/")
    with (e +:+ String "/" (strings.Join (e' :: ps) "/")).
  rewrite string_app_assoc. reflexivity.
Qed.

Lemma strings_Join_segments_nonempty ps :
  Forall segment ps -> ps <> [] -> strings.Join ps "/" <> "".
Proof.
  intros Hps Hne. apply strings_Join_nonempty; [done|].
  eapply Forall_impl; [exact Hps|]. by intros e [? _].
Qed.

(** The loop of [updateBreadcrumbs], started after the parts [pre]. *)
Lemma foldl_pushCrumb parts : forall pre crumbs,
  Forall segment pre -> Forall segment parts ->
  foldl frontend.pushCrumb (strings.Join pre "/", crumbs) parts =
  (strings.Join (pre ++ parts) "/",
   crumbs ++ imap (fun i part =>
                     frontend.Crumb part (strings.Join (pre ++ take (S i) parts) "/"))
                  parts).
Proof.
  induction parts as [|part parts IH]; intros pre crumbs Hpre Hparts.
  - by rewrite !app_nil_r.
  - inversion_clear Hparts as [|? ? Hpart Hrest].
    cbn [foldl]. unfold frontend.pushCrumb at 2. cbn [fst snd].
    assert ((if decide (strings.Join pre "/" <> "")
             then strings.Join pre "/" +:+ "/" +:+ part else part)
            = strings.Join (pre ++ [part]) "/") as ->.
    { destruct pre as [|e pre].
      - by destruct (decide _).
      - pose proof (strings_Join_segments_nonempty (e :: pre) Hpre).
        destruct (decide _); [|naive_solver].
        by rewrite strings_Join_snoc. }
    rewrite IH by (try apply Forall_app_2; auto).
    rewrite <- !app_assoc. cbn [app imap]. f_equal. f_equal. f_equal.
    apply imap_ext. intros i x _. cbn. by rewrite <- app_assoc.
Qed.

Lemma updateBreadcrumbs_shape dir :
  frontend.updateBreadcrumbs dir =
  frontend.Crumb "Home" "" ::
  imap (fun i part =>
          frontend.Crumb part
            (strings.Join (take (S i) (frontend.nonEmptyParts dir)) "/"))
       (frontend.nonEmptyParts dir).
Proof.
  unfold frontend.updateBreadcrumbs.
  destruct (decide (dir = "")) as [->|_]; [reflexivity|].
  change "" with (strings.Join [] "/") at 1.
  rewrite foldl_pushCrumb; [done|constructor|apply nonEmptyParts_are_segments].
Qed.

Lemma normalised_Join ps : Forall segment ps -> normalised (strings.Join ps "/").
Proof. intros Hps. unfold normalised. by rewrite nonEmptyParts_Join. Qed.

Lemma Forall_take_segments dir n :
  Forall segment (take n (frontend.nonEmptyParts dir)).
Proof. apply Forall_take, nonEmptyParts_are_segments. Qed.

(** A directory in normal form is a relative path. *)
Lemma normalised_relative dir : normalised dir -> filepath.IsAbs dir = false.
Proof.
  intros Hcur. unfold normalised in Hcur. rewrite <- Hcur.
  pose proof (nonEmptyParts_are_segments dir) as Hseg.
  destruct (frontend.nonEmptyParts dir) as [|e ps]; [reflexivity|].
  inversion_clear Hseg as [|? ? [Hne Hfree] _].
  destruct e as [|c e]; [done|]. apply sepFree_cons in Hfree as [Hc _].
  assert (forall rest, filepath.IsAbs (String c rest) = false) as Hrel.
  { intros rest. unfold filepath.IsAbs. rewrite prefix_one.
    by apply bool_decide_eq_false_2. }
  destruct ps; apply Hrel.
Qed.

(** X14. The breadcrumbs of a directory are "Home" followed by one crumb
    for each non-empty part of the directory, in order, whose path is the
    join of the parts up to and including it; every crumb's path is in
    normal form, without empty parts, whatever slashes the directory had. *)
Theorem breadcrumbs_follow_the_path dir :
  frontend.updateBreadcrumbs dir =
    frontend.Crumb "Home" "" ::
    imap (fun i part =>
            frontend.Crumb part
              (strings.Join (take (S i) (frontend.nonEmptyParts dir)) "/"))
         (frontend.nonEmptyParts dir) /\
  Forall (fun c => normalised (frontend.crumbPath c))
         (frontend.updateBreadcrumbs dir).
Proof.
  split; [apply updateBreadcrumbs_shape|].
  rewrite updateBreadcrumbs_shape. constructor; [reflexivity|].
  apply Forall_forall. intros c [i Hi]%list_elem_of_lookup.
  rewrite list_lookup_imap in Hi.
  destruct (frontend.nonEmptyParts dir !! i) as [part|]; [|done].
  injection Hi as <-. apply normalised_Join, Forall_take_segments.
Qed.

Lemma goToParentDirectory_parts dir :
  frontend.goToParentDirectory dir =
  strings.Join (take (length (frontend.nonEmptyParts dir) - 1)
                     (frontend.nonEmptyParts dir)) "/".
Proof.
  unfold frontend.goToParentDirectory.
  destruct (decide (dir = "")) as [->|_]; [reflexivity|].
  cbv zeta.
  destruct (Nat.leb_spec (length (frontend.nonEmptyParts dir)) 1) as [H|H];
    [|done].
  replace (length (frontend.nonEmptyParts dir) - 1)%nat with 0%nat by lia.
  by rewrite take_0.
Qed.

Lemma crumbs_lookup_succ (c : frontend.crumb) cs i : (c :: cs) !! S i = cs !! i.
Proof. reflexivity. Qed.

(** X15. The two ways up agree: the parent button leads to the path of the
    breadcrumb before the last one, and the last breadcrumb leads to the
    directory shown, in normal form. *)
Theorem parent_is_previous_breadcrumb dir :
  frontend.crumbPath <$>
    frontend.updateBreadcrumbs dir
      !! (length (frontend.nonEmptyParts dir) - 1)%nat
  = Some (frontend.goToParentDirectory dir) /\
  frontend.crumbPath <$> last (frontend.updateBreadcrumbs dir)
  = Some (strings.Join (frontend.nonEmptyParts dir) "/").
Proof.
  rewrite last_lookup, updateBreadcrumbs_shape, goToParentDirectory_parts.
  cbn [length pred]. rewrite length_imap.
  set (parts := frontend.nonEmptyParts dir).
  destruct (length parts) as [|[|j]] eqn:Hlen; cbn [Nat.sub].
  - apply nil_length_inv in Hlen as ->. done.
  - rewrite take_0, crumbs_lookup_succ, list_lookup_imap. split; [done|].
    destruct parts as [|p [|? ?]]; try done.
  - rewrite !crumbs_lookup_succ, !list_lookup_imap.
    destruct (lookup_lt_is_Some_2 parts j) as [pj Hj]; [lia|].
    destruct (lookup_lt_is_Some_2 parts (S j)) as [pk Hk]; [lia|].
    rewrite Hj, Hk. cbn. split; [done|].
    by rewrite take_ge by lia.
Qed.

Lemma nonEmptyParts_enterFolder currentDir name :
  segment name ->
  frontend.nonEmptyParts (enterFolder currentDir name)
  = frontend.nonEmptyParts currentDir ++ [name].
Proof.
  intros Hname. unfold enterFolder. destruct (decide (currentDir <> "")) as [|Hd].
  - change (currentDir +:+ "/" +:+ name) with (currentDir +:+ String "/" name).
    by rewrite nonEmptyParts_app_sep, (nonEmptyParts_segment name).
  - apply dec_stable in Hd as ->. by rewrite (nonEmptyParts_segment name).
Qed.

Lemma enterFolder_normalised currentDir name :
  normalised currentDir -> segment name ->
  normalised (enterFolder currentDir name).
Proof.
  intros Hcur Hname. unfold normalised.
  rewrite nonEmptyParts_enterFolder by done.
  unfold enterFolder. destruct (decide (currentDir <> "")) as [Hd|Hd].
  - rewrite strings_Join_snoc.
    + by rewrite Hcur.
    + intros Hnil. unfold normalised in Hcur. rewrite Hnil in Hcur. done.
  - apply dec_stable in Hd as ->. reflexivity.
Qed.

(** X16. Entering a folder and going up again leads back: a click on a
    listed directory navigates to a path whose parent is the directory
    shown, in normal form; when the directory shown is in normal form, the
    new path is so too, and its parent is that very directory. *)
Theorem parent_of_entered_folder currentDir file :
  IsDir file = true ->
  segment (Name file) ->
  exists newPath,
    frontend.handleFileClick currentDir file = frontend.Navigate newPath /\
    frontend.goToParentDirectory newPath
      = strings.Join (frontend.nonEmptyParts currentDir) "/" /\
    (normalised currentDir ->
     normalised newPath /\ frontend.goToParentDirectory newPath = currentDir).
Proof.
  intros Hdir Hname. exists (enterFolder currentDir (Name file)).
  unfold frontend.handleFileClick. rewrite Hdir. split; [reflexivity|].
  assert (frontend.goToParentDirectory (enterFolder currentDir (Name file))
          = strings.Join (frontend.nonEmptyParts currentDir) "/") as Hparent.
  { rewrite goToParentDirectory_parts, nonEmptyParts_enterFolder by done.
    rewrite length_app. cbn [length].
    replace (length (frontend.nonEmptyParts currentDir) + 1 - 1)%nat
      with (length (frontend.nonEmptyParts currentDir)) by lia.
    by rewrite take_app_length. }
  split; [done|]. intros Hcur. split; [by apply enterFolder_normalised|].
  by rewrite Hparent.
Qed.

Lemma parent_of_entered_folder_witness :
  let file := MkFileInfo "api" "api" true 4096 0 in
  exists newPath,
    frontend.handleFileClick "docs" file = frontend.Navigate newPath /\
    frontend.goToParentDirectory newPath
      = strings.Join (frontend.nonEmptyParts "docs") "/" /\
    (normalised "docs" ->
     normalised newPath /\ frontend.goToParentDirectory newPath = "docs").
Proof.
  apply (parent_of_entered_folder "docs" (MkFileInfo "api" "api" true 4096 0)).
  - reflexivity.
  - split; [discriminate|reflexivity].
Defined.

(** X17. Every directory the explorer can reach from a directory in normal
    form is in normal form: the start, the parent, and a listed folder
    entered; and a directory in normal form is a relative path, so the
    server joins it to its working directory. *)
Theorem navigation_keeps_directory_normalised currentDir :
  normalised currentDir ->
  normalised "" /\
  normalised (frontend.goToParentDirectory currentDir) /\
  (forall name, segment name -> normalised (enterFolder currentDir name)) /\
  filepath.IsAbs currentDir = false.
Proof.
  intros Hcur. repeat split.
  - rewrite goToParentDirectory_parts.
    apply normalised_Join, Forall_take_segments.
  - intros name Hname. by apply enterFolder_normalised.
  - by apply normalised_relative.
Qed.

Lemma navigation_keeps_directory_normalised_witness :
  normalised "" /\
  normalised (frontend.goToParentDirectory "docs/api") /\
  (forall name, segment name -> normalised (enterFolder "docs/api" name)) /\
  filepath.IsAbs "docs/api" = false.
Proof.
  apply (navigation_keeps_directory_normalised "docs/api").
  vm_compute. reflexivity.
Defined.

(** ** The request on the wire *)

Lemma allBytes_app p a b :
  url.allBytes p (a +:+ b) = url.allBytes p a && url.allBytes p b.
Proof.
  induction a as [|c a IH]; [reflexivity|].
  change (String c a +:+ b) with (String c (a +:+ b)).
  cbn [url.allBytes]. by rewrite IH, andb_assoc.
Qed.

Lemma allBytes_impl (p q : ascii -> bool) s :
  (forall c, p c = true -> q c = true) ->
  url.allBytes p s = true -> url.allBytes q s = true.
Proof.
  intros Hpq. induction s as [|c s IH]; [done|]. cbn [url.allBytes].
  intros [Hc Hs]%andb_true_iff. by rewrite (Hpq _ Hc), IH.
Qed.

Lemma allBytes_anyByte (p q : ascii -> bool) s :
  (forall c, p c = true -> q c = false) ->
  url.allBytes p s = true -> url.anyByte q s = false.
Proof.
  intros Hpq. induction s as [|c s IH]; [done|]. cbn [url.allBytes url.anyByte].
  intros [Hc Hs]%andb_true_iff. by rewrite (Hpq _ Hc), IH.
Qed.

Lemma allBytes_sepFree (p : ascii -> bool) s sep :
  p sep = false -> url.allBytes p s = true -> sepFree sep s.
Proof.
  intros Hsep. induction s as [|c s IH]; [done|]. cbn [url.allBytes].
  intros [Hc Hs]%andb_true_iff. apply sepFree_cons. split; [|by apply IH].
  intros ->. congruence.
Qed.

Lemma Cut_app_sep a b sep :
  sepFree sep a -> strings.Cut (a +:+ String sep b) sep = (a, b).
Proof.
  induction a as [|c a IH].
  - intros _. change ("" +:+ String sep b) with (String sep b).
    cbn [strings.Cut]. by rewrite Ascii.eqb_refl.
  - intros [Hc Ha]%sepFree_cons.
    change (String c a +:+ String sep b) with (String c (a +:+ String sep b)).
    cbn [strings.Cut]. apply Ascii.eqb_neq in Hc as ->. by rewrite IH.
Qed.

Lemma unescape_literal plusIsSpace s :
  url.allBytes url.literal s = true -> url.unescape plusIsSpace s = Some s.
Proof.
  induction s as [|c s IH]; [done|]. cbn [url.allBytes].
  intros [Hc Hs]%andb_true_iff. unfold url.literal in Hc.
  apply andb_true_iff in Hc as [H1%negb_true_iff H2%negb_true_iff].
  cbn [url.unescape]. by rewrite H1, H2, IH.
Qed.

Lemma unreserved_inv c :
  url.unreserved c = true ->
  url.literal c = true /\ url.isCTL c = false /\ Ascii.eqb " " c = false /\
  c <> "?"%char /\ c <> "&"%char /\ c <> ";"%char /\ c <> "/"%char /\
  c <> "="%char /\ c <> "#"%char.
Proof.
  destruct c as [[] [] [] [] [] [] [] []]; vm_compute; intros;
    repeat split; congruence.
Qed.

Lemma pathByte_inv c :
  url.unreserved c || Ascii.eqb c "/" = true ->
  url.literal c = true /\ url.isCTL c = false /\ Ascii.eqb " " c = false /\
  c <> "?"%char /\ c <> "&"%char /\ c <> ";"%char /\
  c <> "="%char /\ c <> "#"%char.
Proof.
  destruct c as [[] [] [] [] [] [] [] []]; vm_compute; intros;
    repeat split; congruence.
Qed.

Lemma endsWith_sepFree s sep : sepFree sep s -> http.endsWith s sep = false.
Proof.
  induction s as [|c s IH]; [done|]. intros [Hc Hs]%sepFree_cons.
  cbn [http.endsWith]. destruct s; [by apply Ascii.eqb_neq|by apply IH].
Qed.

Lemma endsWith_app a b sep :
  b <> "" -> http.endsWith (a +:+ b) sep = http.endsWith b sep.
Proof.
  intros Hb. induction a as [|c a IH]; [reflexivity|].
  change (String c a +:+ b) with (String c (a +:+ b)).
  cbn [http.endsWith]. destruct (a +:+ b) eqn:E; [|exact IH].
  destruct a; [|discriminate]. by destruct b.
Qed.

Lemma prefix_app pre s : String.prefix pre (pre +:+ s) = true.
Proof.
  induction pre as [|c pre IH]; [by destruct s|].
  change (String c pre +:+ s) with (String c (pre +:+ s)).
  cbn [String.prefix]. by destruct (ascii_dec c c).
Qed.

Lemma TrimPrefix_app pre s : strings.TrimPrefix (pre +:+ s) pre = s.
Proof.
  unfold strings.TrimPrefix. rewrite prefix_app.
  induction pre as [|c pre IH]; [by destruct s|exact IH].
Qed.

(** A valid name directly below the pattern is a clean path. *)
Lemma cleanPath_content name :
  validName name ->
  http.cleanPath ("/api/content/" +:+ name) = "/api/content/" +:+ name.
Proof.
  intros Hname. pose proof Hname as (Hne & _ & _ & Hfree).
  unfold http.cleanPath. destruct (decide _) as [|_]; [done|].
  change (String.prefix "/" ("/api/content/" +:+ name)) with true.
  cbv zeta iota.
  rewrite endsWith_app, (endsWith_sepFree name "/" Hfree) by done.
  cbn [andb].
  change ("/api/content/" +:+ name) with ("/api/content" +:+ String "/" name).
  rewrite Clean_rooted by reflexivity.
  by rewrite cleanElements_child by done.
Qed.

(** A URL written with unreserved bytes reaches the handler with the very
    file name and directory the viewer put into it. *)
Lemma contentRequest_plain name dir :
  validName name -> url.plain name = true -> url.plainPath dir = true ->
  contentRequest (frontend.contentURL name dir) = Some (name, dir).
Proof.
  intros Hname Hplain Hdir. unfold contentRequest, url.ParseRequestURI.
  assert (url.allBytes (fun c => url.unreserved c || Ascii.eqb c "/")
            ("/api/content/" +:+ name) = true) as Hpath.
  { rewrite allBytes_app. apply andb_true_iff. split; [reflexivity|].
    eapply allBytes_impl; [|exact Hplain]. by intros c ->. }
  assert (url.allBytes
            (fun c => url.unreserved c || Ascii.eqb c "/" || Ascii.eqb c "?"
                      || Ascii.eqb c "=")
            (frontend.contentURL name dir) = true) as Hurl.
  { unfold frontend.contentURL. rewrite !allBytes_app, !andb_true_iff.
    repeat split; try reflexivity.
    - eapply allBytes_impl; [|exact Hplain]. by intros c ->.
    - eapply allBytes_impl; [|exact Hdir]. by intros c ->. }
  assert (url.anyByte url.isCTL (frontend.contentURL name dir) = false) as ->.
  { eapply allBytes_anyByte; [|exact Hurl].
    intros c. destruct c as [[] [] [] [] [] [] [] []]; vm_compute; congruence. }
  assert (url.anyByte (Ascii.eqb " ") (frontend.contentURL name dir) = false)
    as ->.
  { eapply allBytes_anyByte; [|exact Hurl].
    intros c. destruct c as [[] [] [] [] [] [] [] []]; vm_compute; congruence. }
  cbn [orb]. unfold frontend.contentURL.
  replace ("/api/content/" +:+ name +:+ "?dir=" +:+ dir)
    with (("/api/content/" +:+ name) +:+ String "?" ("dir=" +:+ dir))
    by (by rewrite string_app_assoc).
  rewrite Cut_app_sep; cycle 1.
  { eapply allBytes_sepFree; [|exact Hpath]. reflexivity. }
  change (String.prefix "/" ("/api/content/" +:+ name)) with true.
  cbn [negb]. rewrite unescape_literal; cycle 1.
  { eapply allBytes_impl; [|exact Hpath]. intros c Hc. by apply pathByte_inv. }
  cbn [mbind option_bind]. rewrite cleanPath_content by done.
  destruct (decide _) as [_|]; [|done].
  unfold strings.HasPrefix. rewrite prefix_app, TrimPrefix_app.
  do 2 f_equal. unfold url.ParseQuery.
  assert (url.allBytes
            (fun c => url.unreserved c || Ascii.eqb c "/" || Ascii.eqb c "=")
            ("dir=" +:+ dir) = true) as Hquery.
  { rewrite allBytes_app. apply andb_true_iff. split; [reflexivity|].
    eapply allBytes_impl; [|exact Hdir]. by intros c ->. }
  rewrite Split_sepFree; cycle 1.
  { eapply allBytes_sepFree; [|exact Hquery]. reflexivity. }
  cbn [omap list_omap]. unfold url.parsePair.
  assert (strings.Contains ("dir=" +:+ dir) ";" = false) as ->.
  { eapply (allBytes_sepFree _ _ ";"); [|exact Hquery]. reflexivity. }
  destruct (decide _) as [|_]; [done|].
  change ("dir=" +:+ dir) with ("dir" +:+ String "=" dir).
  rewrite Cut_app_sep by reflexivity.
  change (url.unescape true "dir") with (Some "dir").
  cbn [mbind option_bind]. rewrite unescape_literal; cycle 1.
  { eapply allBytes_impl; [|exact Hdir]. intros c Hc. by apply pathByte_inv. }
  reflexivity.
Qed.

(** ** The viewers: which one opens, and what it asks the server for *)

Lemma strings_Join_Split s sep : strings.Join (strings.Split s sep) sep = s.
Proof.
  induction s as [|c r IH]; [reflexivity|]. cbn [strings.Split].
  destruct (Ascii.eqb_spec c sep) as [->|Hne].
  - pose proof (Split_not_nil r sep).
    destruct (strings.Split r sep) as [|h t] eqn:E; [done|].
    change (strings.Join ("" :: h :: t) sep)
      with (String sep (strings.Join (h :: t) sep)).
    by rewrite IH.
  - pose proof (Split_not_nil r sep).
    destruct (strings.Split r sep) as [|h t] eqn:E; [done|].
    destruct t as [|h' t].
    + cbn [strings.Join] in *. by rewrite IH.
    + change (strings.Join (String c h :: h' :: t) sep)
        with (String c (h +:+ String sep (strings.Join (h' :: t) sep))).
      by rewrite <- IH.
Qed.

Lemma Contains_sep_app a b sep : ~ sepFree sep (a +:+ String sep b).
Proof.
  induction a as [|c a IH].
  - change ("" +:+ String sep b) with (String sep b). rewrite sepFree_cons. tauto.
  - change (String c a +:+ String sep b) with (String c (a +:+ String sep b)).
    rewrite sepFree_cons. tauto.
Qed.

Lemma last_Split_sepFree s sep : sepFree sep (List.last (strings.Split s sep) "").
Proof.
  pose proof (Split_parts_sepFree s sep) as H.
  pose proof (Split_not_nil s sep) as Hne.
  destruct (exists_last Hne) as (init & x & E). rewrite E in *.
  rewrite last_last. apply Forall_app in H as [_ H]. by inversion_clear H.
Qed.

(** X18. Splitting a file path into file name and directory loses nothing:
    the file name has no slash; a path without a slash is the file name,
    with an empty directory; any other path is the directory, a slash and
    the file name. *)
Theorem split_file_path_loses_nothing filePath :
  sepFree "/" (fst (frontend.splitFilePath filePath)) /\
  (sepFree "/" filePath ->
   frontend.splitFilePath filePath = (filePath, "")) /\
  (~ sepFree "/" filePath ->
   filePath = snd (frontend.splitFilePath filePath) +:+ "/"
              +:+ fst (frontend.splitFilePath filePath)).
Proof.
  unfold frontend.splitFilePath. cbn [fst snd].
  split; [apply last_Split_sepFree|]. split.
  - intros Hfree. by rewrite (Split_sepFree _ _ Hfree).
  - intros Hsep.
    pose proof (strings_Join_Split filePath "/") as HJ.
    pose proof (Split_parts_sepFree filePath "/") as Hparts.
    destruct (exists_last (Split_not_nil filePath "/")) as (init & x & E).
    rewrite E in *. rewrite last_last, removelast_last.
    destruct init as [|i0 init].
    + cbn in HJ. subst x. apply Forall_app in Hparts as [_ Hx].
      inversion_clear Hx. done.
    + rewrite strings_Join_snoc in HJ by done. by rewrite <- HJ.
Qed.

Lemma lowerByte_dot c : strings.lowerByte c = "."%char <-> c = "."%char.
Proof. destruct c as [[] [] [] [] [] [] [] []]; cbv; split; congruence. Qed.

Lemma Split_ToLower s :
  strings.Split (strings.ToLower s) "." = strings.ToLower <$> strings.Split s ".".
Proof.
  induction s as [|c r IH]; [reflexivity|].
  cbn [strings.ToLower strings.Split]. rewrite IH.
  destruct (Ascii.eqb_spec c ".") as [->|Hne].
  - reflexivity.
  - destruct (Ascii.eqb_spec (strings.lowerByte c) ".") as [Hl|_].
    { exfalso. apply Hne. apply lowerByte_dot. exact Hl. }
    pose proof (Split_not_nil r ".").
    by destruct (strings.Split r ".").
Qed.

Lemma last_ToLower l :
  List.last (strings.ToLower <$> l) "" = strings.ToLower (List.last l "").
Proof.
  induction l as [|x l IH]; [reflexivity|].
  destruct l; [reflexivity|]. exact IH.
Qed.

(** What the scan of [Ext] finds in a name without separator. *)
Lemma scanExt_name s :
  sepFree "/" s ->
  match filepath.scanExt s with
  | filepath.ExtFound ext =>
      ext = String "." (List.last (strings.Split s ".") "") /\
      (2 <= length (strings.Split s "."))%nat
  | filepath.ExtSeparator => False
  | filepath.ExtNone => strings.Split s "." = [s]
  end.
Proof.
  induction s as [|c r IH]; [reflexivity|].
  intros [Hc Hr]%sepFree_cons. specialize (IH Hr).
  cbn [filepath.scanExt strings.Split].
  destruct (filepath.scanExt r) as [ext| |].
  - destruct IH as [-> Hlen].
    destruct (strings.Split r ".") as [|h [|h' t]] eqn:E; cbn [length] in Hlen;
      [lia..|].
    destruct (Ascii.eqb c "."); (split; [reflexivity | cbn [length]; lia]).
  - done.
  - rewrite IH. destruct (Ascii.eqb_spec c ".") as [->|Hne].
    + split; [reflexivity | cbn [length]; lia].
    + apply Ascii.eqb_neq in Hc as ->. reflexivity.
Qed.

Lemma Ext_name name :
  sepFree "/" name -> filepath.Ext name <> "" ->
  strings.ToLower (filepath.Ext name)
  = String "." (List.last (strings.Split (strings.ToLower name) ".") "").
Proof.
  intros Hfree Hext. unfold filepath.Ext in *.
  pose proof (scanExt_name name Hfree) as H.
  destruct (filepath.scanExt name) as [ext| |]; [|done..].
  destruct H as [-> _]. by rewrite Split_ToLower, last_ToLower.
Qed.

Lemma viewer_of_listed_name file currentDir fullPath :
  sepFree "/" (Name file) ->
  strings.ToLower (filepath.Ext (Name file)) ∈ [".md"; ".json"] ->
  frontend.renderFileViewer (Some (frontend.Selection file currentDir fullPath)) =
    if decide (strings.ToLower (filepath.Ext (Name file)) = ".md")
    then frontend.MarkdownView (Name file) currentDir
    else frontend.JsonView (Name file) currentDir.
Proof.
  intros Hfree Hext.
  unfold frontend.renderFileViewer. cbn [frontend.selFile frontend.selDir].
  cbv zeta.
  assert (filepath.Ext (Name file) <> "") as Hne.
  { intros Heq. rewrite Heq in Hext. cbn in Hext.
    repeat (apply elem_of_cons in Hext as [Hext|Hext]; [done|]).
    by apply elem_of_nil in Hext. }
  pose proof (Ext_name _ Hfree Hne) as HE. rewrite HE in *.
  apply elem_of_cons in Hext as [Hmd|Hext].
  - injection Hmd as ->. by destruct (decide _).
  - apply elem_of_cons in Hext as [Hjs|Hext]; [|by apply elem_of_nil in Hext].
    injection Hjs as ->. by destruct (decide _).
Qed.

(** X19. A click on a listed JSON file opens the JSON viewer, which asks
    the content endpoint for the bare file name with an empty directory
    parameter: the directory shown by the explorer, although handed to the
    viewer, does not reach the server. *)
Theorem json_click_asks_by_name_alone
    config fs baseDir currentDir files fi :
  AllowedExts config = [".md"; ".json"] ->
  Getwd fs = inr baseDir ->
  filepath.IsAbs baseDir = true ->
  (forall entries,
     ReadDir fs (listRoot baseDir currentDir) = inr entries ->
     Forall (fun entry => validName (entryName entry)) entries) ->
  listFiles config fs currentDir = Ok files ->
  fi ∈ files ->
  IsDir fi = false ->
  strings.ToLower (filepath.Ext (Name fi)) = ".json" ->
  exists sel filePath dir,
    frontend.handleFileClick currentDir fi = frontend.Select sel /\
    frontend.renderFileViewer (Some sel) = frontend.JsonView filePath dir /\
    dir = currentDir /\
    frontend.jsonRequest filePath = Some (Name fi, "").
Proof.
  intros Hcfg Hwd Habs Hnames Hfiles Hfi Hfile Hjs.
  destruct (listed_file_inv config fs currentDir files fi baseDir
              Hwd Habs Hnames Hfiles Hfi) as (Hn & HP & Hext).
  specialize (Hext Hfile). rewrite Hcfg in Hext.
  pose proof Hn as (Hne & _ & _ & Hfree).
  eexists _, (Name fi), currentDir.
  unfold frontend.handleFileClick. rewrite Hfile. split; [reflexivity|].
  split.
  { rewrite viewer_of_listed_name by done. rewrite Hjs. by destruct (decide _). }
  split; [done|].
  unfold frontend.jsonRequest. destruct (decide (Name fi = "")); [done|].
  unfold frontend.splitFilePath. by rewrite (Split_sepFree _ _ Hfree).
Qed.

Lemma json_click_asks_by_name_alone_witness :
  let fi := MkFileInfo "list.json" "list.json" false 7 0 in
  exists sel filePath dir,
    frontend.handleFileClick "data" fi = frontend.Select sel /\
    frontend.renderFileViewer (Some sel) = frontend.JsonView filePath dir /\
    dir = "data" /\
    frontend.jsonRequest filePath = Some (Name fi, "").
Proof.
  apply (json_click_asks_by_name_alone examples.config samples.site
           "/srv/www" "data"
           [MkFileInfo "list.json" "list.json" false 7 0;
            MkFileInfo "notes.md" "notes.md" false 5 0]).
  - reflexivity.
  - reflexivity.
  - reflexivity.
  - valid_names.
  - vm_compute. reflexivity.
  - apply list_elem_of_here.
  - reflexivity.
  - vm_compute. reflexivity.
Defined.

(** X20. The server's extension filter and the application's choice of a
    viewer agree: with the allowed extensions of the server, a click on a
    listed file selects it with the directory shown, and the application
    opens the Markdown viewer or the JSON viewer for it, by its name and
    that directory, and never answers that the type is unsupported. *)
Theorem listed_file_gets_its_viewer
    config fs baseDir requestedDir files fi currentDir :
  AllowedExts config = [".md"; ".json"] ->
  Getwd fs = inr baseDir ->
  (forall entries,
     ReadDir fs (listRoot baseDir requestedDir) = inr entries ->
     Forall (fun entry => validName (entryName entry)) entries) ->
  listFiles config fs requestedDir = Ok files ->
  fi ∈ files ->
  IsDir fi = false ->
  exists sel,
    frontend.handleFileClick currentDir fi = frontend.Select sel /\
    frontend.selDir sel = currentDir /\
    frontend.renderFileViewer (Some sel) =
      if decide (strings.ToLower (filepath.Ext (Name fi)) = ".md")
      then frontend.MarkdownView (Name fi) currentDir
      else frontend.JsonView (Name fi) currentDir.
Proof.
  intros Hcfg Hwd Hnames Hfiles Hfi Hfile.
  apply listFiles_Ok_inv in Hfiles as (baseDir' & entries & Hwd' & Hread & ->).
  rewrite Hwd in Hwd'. injection Hwd' as <-.
  apply elem_of_listDir in Hfi as (entry & Hin & Hentry).
  pose proof (Hnames _ Hread) as Hvalid.
  rewrite Forall_forall in Hvalid. specialize (Hvalid _ Hin).
  destruct Hvalid as (_ & _ & _ & Hfree).
  apply listEntry_Some_iff in Hentry
    as (_ & _ & _ & Hext & info & relPath & _ & _ & ->).
  cbn [IsDir] in Hfile. specialize (Hext Hfile). rewrite Hcfg in Hext.
  eexists. unfold frontend.handleFileClick. cbn [IsDir]. rewrite Hfile.
  split; [reflexivity|]. split; [reflexivity|].
  by apply viewer_of_listed_name.
Qed.

Lemma listed_file_gets_its_viewer_witness :
  let fi := MkFileInfo "Z.json" "Z.json" false 2 0 in
  exists sel,
    frontend.handleFileClick "" fi = frontend.Select sel /\
    frontend.selDir sel = "" /\
    frontend.renderFileViewer (Some sel) =
      if decide (strings.ToLower (filepath.Ext (Name fi)) = ".md")
      then frontend.MarkdownView (Name fi) ""
      else frontend.JsonView (Name fi) "".
Proof.
  apply (listed_file_gets_its_viewer examples.config examples.mixedCase
           "/srv/www" ""
           [MkFileInfo "Z.json" "Z.json" false 2 0;
            MkFileInfo "a.md" "a.md" false 1 0;
            MkFileInfo "readme.md" "readme.md" false 1 0]).
  - reflexivity.
  - reflexivity.
  - valid_names.
  - vm_compute. reflexivity.
  - apply list_elem_of_here.
  - reflexivity.
Defined.

(** X21. From the click to the file: a click on a listed Markdown file, in
    a directory in normal form, opens the Markdown viewer; when the file's
    name is written with unreserved bytes (letters, digits, hyphen, dot,
    underscore, tilde) and the directory with such bytes and slashes,
    which a URL carries unchanged, the URL the viewer asks for reaches the
    content handler with the file's name and the directory shown, and the
    resolver answers the path the listing examined, as soon as a status
    check shows it as a file. *)
Theorem markdown_click_opens_the_listed_file
    config fs baseDir currentDir files fi :
  AllowedExts config = [".md"; ".json"] ->
  Getwd fs = inr baseDir ->
  filepath.IsAbs baseDir = true ->
  normalised currentDir ->
  url.plainPath currentDir = true ->
  (forall entries,
     ReadDir fs (listRoot baseDir currentDir) = inr entries ->
     Forall (fun entry => validName (entryName entry)) entries) ->
  listFiles config fs currentDir = Ok files ->
  fi ∈ files ->
  IsDir fi = false ->
  url.plain (Name fi) = true ->
  strings.ToLower (filepath.Ext (Name fi)) = ".md" ->
  statsAsFile fs (filepath.Join [listRoot baseDir currentDir; Name fi]) = true ->
  exists sel filePath dir target requestedFile requestedDir,
    frontend.handleFileClick currentDir fi = frontend.Select sel /\
    frontend.renderFileViewer (Some sel) = frontend.MarkdownView filePath dir /\
    frontend.markdownURL filePath dir = Some target /\
    contentRequest target = Some (requestedFile, requestedDir) /\
    resolvePath fs baseDir requestedDir requestedFile
      = Ok (filepath.Join [listRoot baseDir currentDir; Name fi]).
Proof.
  intros Hcfg Hwd Habs Hcur Hplaindir Hnames Hfiles Hfi Hfile Hplain Hmd Hstat.
  destruct (listed_file_inv config fs currentDir files fi baseDir
              Hwd Habs Hnames Hfiles Hfi) as (Hn & HP & Hext).
  specialize (Hext Hfile). rewrite Hcfg in Hext.
  pose proof Hn as (Hne & _ & _ & Hfree).
  eexists _, (Name fi), currentDir,
    (frontend.contentURL (Name fi) currentDir), (Name fi), currentDir.
  unfold frontend.handleFileClick. rewrite Hfile. split; [reflexivity|].
  split.
  { rewrite viewer_of_listed_name by done. by destruct (decide _). }
  split.
  { unfold frontend.markdownURL, frontend.markdownRequest.
    destruct (decide (Name fi = "")); [done|].
    destruct (decide (currentDir = "")) as [->|]; [|done].
    unfold frontend.splitFilePath. by rewrite (Split_sepFree _ _ Hfree). }
  split; [by apply contentRequest_plain|].
  apply resolve_name_in_listed_directory; try done.
  by apply normalised_relative.
Qed.

Lemma markdown_click_opens_the_listed_file_witness :
  let fi := MkFileInfo "notes.md" "notes.md" false 5 0 in
  exists sel filePath dir target requestedFile requestedDir,
    frontend.handleFileClick "data" fi = frontend.Select sel /\
    frontend.renderFileViewer (Some sel) = frontend.MarkdownView filePath dir /\
    frontend.markdownURL filePath dir = Some target /\
    contentRequest target = Some (requestedFile, requestedDir) /\
    resolvePath samples.site "/srv/www" requestedDir requestedFile
      = Ok (filepath.Join [listRoot "/srv/www" "data"; Name fi]).
Proof.
  apply (markdown_click_opens_the_listed_file examples.config samples.site
           "/srv/www" "data"
           [MkFileInfo "list.json" "list.json" false 7 0;
            MkFileInfo "notes.md" "notes.md" false 5 0]).
  - reflexivity.
  - reflexivity.
  - reflexivity.
  - vm_compute. reflexivity.
  - reflexivity.
  - valid_names.
  - vm_compute. reflexivity.
  - apply list_elem_of_further, list_elem_of_here.
  - reflexivity.
  - reflexivity.
  - vm_compute. reflexivity.
  - vm_compute. reflexivity.
Defined.

(** ** The JSON viewer and the resolver *)

Lemma validNames_clean ps : Forall validName ps -> Forall cleanElement ps.
Proof. intros H. eapply Forall_impl; [exact H|]. apply validName_clean. Qed.

(** Descending by valid names appends them. *)
Lemma cleanElements_descend b ps :
  filepath.IsAbs b = true -> Forall validName ps ->
  filepath.cleanElements (b +:+ String "/" (strings.Join ps "/"))
  = filepath.cleanElements b ++ ps.
Proof.
  intros Habs Hps. apply validNames_clean in Hps.
  unfold filepath.cleanElements.
  rewrite (IsAbs_app _ _ Habs), Habs, elements_app_sep, elements_Join, foldl_app.
  - rewrite foldl_cleanStep_clean by done. by rewrite reverse_app, reverse_involutive.
  - eapply Forall_impl; [exact Hps|]. by intros e [? _].
Qed.

Lemma Join_segments_relative ps :
  Forall validName ps -> filepath.IsAbs (strings.Join ps "/") = false.
Proof.
  intros Hps. apply normalised_relative, normalised_Join.
  eapply Forall_impl; [exact Hps|]. intros e (? & _ & _ & ?). by split.
Qed.

Lemma listRoot_descend b ps :
  filepath.IsAbs b = true -> Forall validName ps -> ps <> [] ->
  filepath.IsAbs (listRoot b (strings.Join ps "/")) = true /\
  filepath.cleanElements (listRoot b (strings.Join ps "/"))
  = filepath.cleanElements b ++ ps.
Proof.
  intros Habs Hps Hne. split; [by apply listRoot_IsAbs|].
  unfold listRoot.
  assert (strings.Join ps "/" <> "") as Hd.
  { apply strings_Join_nonempty; [done|].
    eapply Forall_impl; [exact Hps|]. by intros e (? & _). }
  destruct (decide (_ \/ strings.Join ps "/" = ".")) as [[?|Hdot]|_]; [done| |].
  - destruct ps as [|p [|q ps]]; [done| |].
    + cbn in Hdot. subst p. inversion_clear Hps as [|? ? (_ & ? & _) _]. done.
    + exfalso.
      assert (sepFree "/" (strings.Join (p :: q :: ps) "/")) as Hfree
        by (rewrite Hdot; reflexivity).
      by apply Contains_sep_app in Hfree.
  - rewrite (Join_segments_relative _ Hps), (Join_pair_abs _ _ Habs).
    rewrite cleanElements_Clean by by apply IsAbs_app.
    by apply cleanElements_descend.
Qed.

Lemma rooted_Join_inj xs ys :
  Forall cleanElement xs -> Forall cleanElement ys ->
  String "/" (strings.Join xs "/") = String "/" (strings.Join ys "/") ->
  xs = ys.
Proof.
  intros Hxs Hys Heq. apply (f_equal filepath.cleanElements) in Heq.
  by rewrite !cleanElements_of_clean in Heq.
Qed.

Lemma subdirectories_valid fs b sub :
  (forall entries,
     ReadDir fs b = inr entries ->
     Forall (fun entry => validName (entryName entry)) entries) ->
  sub ∈ subdirectories fs b -> validName sub.
Proof.
  intros Hnames. unfold subdirectories.
  destruct (ReadDir fs b) as [|entries]; [by intros ?%elem_of_nil|].
  specialize (Hnames _ eq_refl). rewrite Forall_forall in Hnames.
  intros (entry & -> & [_ Hin]%list_elem_of_filter)%list_elem_of_fmap. auto.
Qed.

Lemma Join_grandchild b sub n :
  filepath.IsAbs b = true -> validName sub -> validName n ->
  filepath.Join [b; sub; n]
  = String "/" (strings.Join (filepath.cleanElements b ++ [sub; n]) "/").
Proof.
  intros Habs Hsub Hn.
  rewrite Join_nested, (Join_pair_abs _ _ Habs) by done.
  rewrite Join_child by (try apply IsAbs_Clean, IsAbs_app; done).
  rewrite cleanElements_Clean by by apply IsAbs_app.
  by rewrite cleanElements_child, <- app_assoc by done.
Qed.

(** The candidates for a bare name without a hint. *)
Lemma filePaths_bare_name fs b n :
  validName n ->
  filePaths fs b "" n =
  filepath.Join [b; n]
  :: ((fun sub => filepath.Join [b; sub; n]) <$> subdirectories fs b).
Proof.
  intros (_ & _ & _ & Hfree). rewrite filePaths_groups, Hfree.
  by destruct (decide ("" = "")).
Qed.

Lemma listed_path_descend b ps n :
  filepath.IsAbs b = true -> Forall validName ps -> ps <> [] -> validName n ->
  filepath.Join [listRoot b (strings.Join ps "/"); n]
  = String "/" (strings.Join (filepath.cleanElements b ++ ps ++ [n]) "/").
Proof.
  intros Habs Hps Hne Hn.
  destruct (listRoot_descend b ps Habs Hps Hne) as [Hroot Hel].
  by rewrite Join_child, Hel, <- app_assoc by done.
Qed.

(** Without a hint the resolver finds nothing deeper than one folder down. *)
Lemma bare_name_misses_deep_path fs b ps n :
  filepath.IsAbs b = true -> Forall validName ps -> (2 <= length ps)%nat ->
  validName n ->
  (forall entries,
     ReadDir fs b = inr entries ->
     Forall (fun entry => validName (entryName entry)) entries) ->
  resolvePath fs b "" n
  <> Ok (filepath.Join [listRoot b (strings.Join ps "/"); n]).
Proof.
  intros Habs Hps Hlen Hn Hnames Hres.
  apply resolvePath_in_filePaths in Hres.
  assert (ps <> []) as Hne by (intros ->; cbn in Hlen; lia).
  rewrite filePaths_bare_name, listed_path_descend in Hres by done.
  pose proof (cleanElements_rooted_clean b Habs) as Hb.
  pose proof (validNames_clean _ Hps) as Hps'.
  pose proof (validName_clean _ Hn) as Hn'.
  assert (Forall cleanElement (filepath.cleanElements b ++ ps ++ [n])) as Hlisted.
  { rewrite !Forall_app, Forall_singleton. done. }
  apply elem_of_cons in Hres as [Heq|(sub & Heq & Hsub)%list_elem_of_fmap].
  - rewrite Join_child in Heq by done.
    apply rooted_Join_inj, app_inv_head in Heq; [|done|].
    + apply (f_equal length) in Heq. rewrite length_app in Heq. cbn in Heq. lia.
    + rewrite Forall_app, Forall_singleton. done.
  - pose proof (subdirectories_valid fs b sub Hnames Hsub) as Hv.
    rewrite Join_grandchild in Heq by done.
    apply rooted_Join_inj, app_inv_head in Heq; [|done|].
    + apply (f_equal length) in Heq. rewrite length_app in Heq. cbn in Heq. lia.
    + rewrite Forall_app, Forall_cons, Forall_singleton.
      by pose proof (validName_clean _ Hv).
Qed.



Lemma json_viewer_of_listed_name fi currentDir :
  validName (Name fi) ->
  IsDir fi = false ->
  strings.ToLower (filepath.Ext (Name fi)) = ".json" ->
  exists sel,
    frontend.handleFileClick currentDir fi = frontend.Select sel /\
    frontend.renderFileViewer (Some sel) = frontend.JsonView (Name fi) currentDir /\
    frontend.jsonRequest (Name fi) = Some (Name fi, "").
Proof.
  intros (Hne & _ & _ & Hfree) Hfile Hjs.
  eexists. unfold frontend.handleFileClick. rewrite Hfile.
  split; [reflexivity|]. split.
  - rewrite viewer_of_listed_name; [|done|rewrite Hjs; set_solver].
    rewrite Hjs. by destruct (decide _).
  - unfold frontend.jsonRequest. destruct (decide (Name fi = "")); [done|].
    unfold frontend.splitFilePath. by rewrite (Split_sepFree _ _ Hfree).
Qed.




(** X23. A JSON file two or more folders below the working directory is
    never opened by a click: the viewer's request carries the bare name
    without a directory, and the resolver, which then looks in the working
    directory and its immediate subdirectories only, never answers with
    the path the listing examined. *)
Theorem json_click_misses_deep_files config fs baseDir parts files fi :
  Getwd fs = inr baseDir ->
  filepath.IsAbs baseDir = true ->
  Forall validName parts ->
  (2 <= length parts)%nat ->
  (forall entries,
     ReadDir fs baseDir = inr entries ->
     Forall (fun entry => validName (entryName entry)) entries) ->
  (forall entries,
     ReadDir fs (listRoot baseDir (strings.Join parts "/")) = inr entries ->
     Forall (fun entry => validName (entryName entry)) entries) ->
  listFiles config fs (strings.Join parts "/") = Ok files ->
  fi ∈ files ->
  IsDir fi = false ->
  strings.ToLower (filepath.Ext (Name fi)) = ".json" ->
  exists sel filePath dir fileName fileDir,
    frontend.handleFileClick (strings.Join parts "/") fi = frontend.Select sel /\
    frontend.renderFileViewer (Some sel) = frontend.JsonView filePath dir /\
    frontend.jsonRequest filePath = Some (fileName, fileDir) /\
    resolvePath fs baseDir fileDir fileName
      <> Ok (filepath.Join [listRoot baseDir (strings.Join parts "/"); Name fi]).
Proof.
  intros Hwd Habs Hparts Hlen Hbase Hnames Hfiles Hfi Hfile Hjs.
  destruct (listed_file_inv config fs _ files fi baseDir
              Hwd Habs Hnames Hfiles Hfi) as (Hn & _ & _).
  destruct (json_viewer_of_listed_name fi (strings.Join parts "/") Hn Hfile Hjs)
    as (sel & Hclick & Hview & Hreq).
  exists sel, (Name fi), (strings.Join parts "/"), (Name fi), "".
  repeat split; try done.
  by apply bare_name_misses_deep_path.
Qed.

Lemma json_click_misses_deep_files_witness :
  let fi := MkFileInfo "q1.json" "q1.json" false 2 0 in
  exists sel filePath dir fileName fileDir,
    frontend.handleFileClick (strings.Join ["reports"; "2024"] "/") fi
      = frontend.Select sel /\
    frontend.renderFileViewer (Some sel) = frontend.JsonView filePath dir /\
    frontend.jsonRequest filePath = Some (fileName, fileDir) /\
    resolvePath samples.shelf "/srv/www" fileDir fileName
      <> Ok (filepath.Join
               [listRoot "/srv/www" (strings.Join ["reports"; "2024"] "/");
                Name fi]).
Proof.
  apply (json_click_misses_deep_files examples.config samples.shelf
           "/srv/www" ["reports"; "2024"]
           [MkFileInfo "q1.json" "q1.json" false 2 0]).
  - reflexivity.
  - reflexivity.
  - repeat (apply Forall_cons; split;
            [repeat split; (discriminate || reflexivity)|]).
    constructor.
  - simpl. lia.
  - valid_names.
  - valid_names.
  - vm_compute. reflexivity.
  - apply list_elem_of_here.
  - reflexivity.
  - vm_compute. reflexivity.
Defined.



(** ** The listing and what can later be asked for *)






